(** * Acceleott backend: the email-verification lifecycle and session login

    A shallow embedding of the authentication code of the repository:

    - [models/User.js] (the Mongoose schema, its setters, validators,
      [select: false] paths and the [pre("save")] password hook);
    - the controller ([registerUser], [verifyEmail], [resendVerification],
      [loginUser], [logoutUser], [getMe]);
    - the router of [middleware/auth.js] ([/register], [/verify/:token],
      [/login], [/logout], [/me]).

    Handlers are functions from an environment (clock, random draws, faults of
    the collaborators, process configuration) and a world (the [users]
    collection and the log of mails handed to the transporter) to a response
    and a new world.  Exceptions are explicit: a handler body runs in a state
    and exception monad in which effects performed before a [throw] persist,
    as they do in JavaScript, and the handler's [try]/[catch] turns a thrown
    value into a response.

    The cryptographic libraries (bcryptjs, node's crypto, jsonwebtoken) and
    the case tables behind [toLowerCase] are outside the repository: they
    are a class of operations, and every theorem holds for all
    implementations of it.

    Text is UTF-8: [trim] and the class [\s] know the white space of
    ECMAScript, and the length of a string counts UTF-16 code units, as
    [String.prototype.length] does.

    A handler is a function of the world it finds; [resend_interleaved]
    cuts [resendVerification] at its first [await] and serves another
    request between the two accesses the handler makes to the store.  The
    [reachable] worlds are those of both kinds of step, the worlds
    [in_turn] those of requests served one after the other. *)

From Stdlib Require Import String Ascii List ZArith Bool Arith Lia.
Import ListNotations.
Local Open Scope string_scope.
Local Open Scope Z_scope.

Set Implicit Arguments.

(* ================================================================== *)
(** * JavaScript strings *)
(* ================================================================== *)

(** A [string] is the UTF-8 encoding of the JavaScript string it stands
    for, the form in which a request body arrives and in which the store
    keeps and compares text. *)

Definition is_empty (s : string) : bool :=
  match s with EmptyString => true | String _ _ => false end.

Definition code (c : ascii) : nat := nat_of_ascii c.

(** A continuation byte of an encoded character, [10xxxxxx]. *)
Definition is_cont (c : ascii) : bool :=
  ((128 <=? code c) && (code c <=? 191))%nat.

Definition starts_cont (x : string) : bool :=
  match x with
  | EmptyString => false
  | String c _ => is_cont c
  end.

(** The characters of a string, each as its own encoding: a byte that is
    not a continuation byte, with the continuation bytes that follow it. *)
Fixpoint chars (s : string) : list string :=
  match s with
  | EmptyString => []
  | String c r =>
      match chars r with
      | [] => [String c EmptyString]
      | x :: xs =>
          if starts_cont x then String c x :: xs
          else String c EmptyString :: x :: xs
      end
  end.

Fixpoint join (l : list string) : string :=
  match l with
  | [] => EmptyString
  | x :: r => x ++ join r
  end.

(** The white space of one byte: space, and the controls tab, line feed,
    vertical tab, form feed, carriage return. *)
Definition is_space (c : ascii) : bool :=
  ((code c =? 32) || ((9 <=? code c) && (code c <=? 13)))%nat.

(** White space as [trim] and the regular expression class [\s] see it
    (WhiteSpace and LineTerminator of ECMAScript), on an encoded character:
    the six of one byte, U+00A0, U+1680, U+2000 to U+200A, U+2028, U+2029,
    U+202F, U+205F, U+3000 and U+FEFF. *)
Definition white_space (x : string) : bool :=
  match x with
  | String c EmptyString => is_space c
  | String c1 (String c2 EmptyString) =>
      ((code c1 =? 194) && (code c2 =? 160))%nat
  | String c1 (String c2 (String c3 EmptyString)) =>
      (((code c1 =? 225) && (code c2 =? 154) && (code c3 =? 128))
       || ((code c1 =? 226) && (code c2 =? 128)
           && (((128 <=? code c3) && (code c3 <=? 138))
               || (code c3 =? 168) || (code c3 =? 169) || (code c3 =? 175)))
       || ((code c1 =? 226) && (code c2 =? 129) && (code c3 =? 159))
       || ((code c1 =? 227) && (code c2 =? 128) && (code c3 =? 128))
       || ((code c1 =? 239) && (code c2 =? 187) && (code c3 =? 191)))%nat
  | _ => false
  end.

Fixpoint dropStart (l : list string) : list string :=
  match l with
  | [] => []
  | x :: r => if white_space x then dropStart r else l
  end.

Fixpoint dropEnd (l : list string) : list string :=
  match l with
  | [] => []
  | x :: r =>
      match dropEnd r with
      | [] => if white_space x then [] else [x]
      | r' => x :: r'
      end
  end.

(** [String.prototype.trim]: the string without the white space at its two
    ends. *)
Definition trim (s : string) : string :=
  join (dropEnd (dropStart (chars s))).

(** The UTF-16 code units of a character: two beyond the basic plane (an
    encoding of four bytes), one otherwise. *)
Definition units (x : string) : Z :=
  match x with
  | EmptyString => 0
  | String c _ => if (240 <=? code c)%nat then 2 else 1
  end.

(** [s.length], in UTF-16 code units. *)
Definition strlen (s : string) : Z :=
  fold_right (fun x n => units x + n) 0 (chars s).

(** A list of characters as [chars] cuts them: each is a byte followed by
    continuation bytes only, and each but the first begins with a byte that
    is none. *)
Fixpoint all_cont (s : string) : bool :=
  match s with
  | EmptyString => true
  | String c r => is_cont c && all_cont r
  end.

Definition chunk (x : string) : bool :=
  match x with
  | EmptyString => false
  | String _ r => all_cont r
  end.

Definition leads (x : string) : bool := negb (starts_cont x).

Definition framed (l : list string) : bool :=
  forallb chunk l && forallb leads (tl l).

(** A list of characters that does not begin with white space. *)
Definition starts_clean (l : list string) : bool :=
  match l with
  | [] => true
  | x :: _ => negb (white_space x)
  end.

(** ** Letter case

    [String.prototype.toLowerCase] follows the case tables of Unicode, which
    are the engine's (see [Crypto] below).  On the letters of ASCII it is
    the function here. *)
Definition is_upper (c : ascii) : bool :=
  ((65 <=? code c) && (code c <=? 90))%nat.

Definition lower_ascii (c : ascii) : ascii :=
  if is_upper c then ascii_of_nat (code c + 32) else c.

Fixpoint ascii_toLowerCase (s : string) : string :=
  match s with
  | EmptyString => EmptyString
  | String c r => String (lower_ascii c) (ascii_toLowerCase r)
  end.

(** every byte is below 128: the text is ASCII *)
Fixpoint is_ascii (s : string) : bool :=
  match s with
  | EmptyString => true
  | String c r => (code c <? 128)%nat && is_ascii r
  end.

(** no byte is an upper-case letter of ASCII *)
Fixpoint no_upper (s : string) : bool :=
  match s with
  | EmptyString => true
  | String c r => negb (is_upper c) && no_upper r
  end.

(** A JavaScript value that is a string or [undefined] (a field of a parsed
    request body, an environment variable). *)
Definition jsstring := option string.

(** [!x] for such a value: [undefined] and the empty string are falsy. *)
Definition falsy (x : jsstring) : bool :=
  match x with None => true | Some s => is_empty s end.

(** [a || b] with a string default. *)
Definition or_else (a : jsstring) (b : string) : string :=
  match a with
  | Some s => if is_empty s then b else s
  | None => b
  end.

(** [a || b] between two values that may both be [undefined]. *)
Definition or_js (a b : jsstring) : jsstring :=
  if falsy a then b else a.

(** The one-character string of a double quote. *)
Definition dquote : string := String "034"%char EmptyString.

(** A value interpolated in a template literal. *)
Definition interp (a : jsstring) : string :=
  match a with Some s => s | None => "undefined" end.

(* ------------------------------------------------------------------ *)
(** ** The regular expressions of the schema *)

(** no character of [s] is white space *)
Definition no_space (s : string) : bool :=
  forallb (fun x => negb (white_space x)) (chars s).

(** some ["."] of [s] has a character after it *)
Fixpoint dot_then_more (s : string) : bool :=
  match s with
  | EmptyString => false
  | String c r =>
      (Ascii.eqb c "."%char && negb (is_empty r)) || dot_then_more r
  end.

(** some ["@"] of [s] is followed by a character, then by a ["."] that has a
    character after it *)
Fixpoint at_then_dot (s : string) : bool :=
  match s with
  | EmptyString => false
  | String c r =>
      (Ascii.eqb c "@"%char &&
       match r with
       | EmptyString => false
       | String _ r' => dot_then_more r'
       end) || at_then_dot r
  end.

(** [/^\S+@\S+\.\S+$/]: no white space anywhere, an ["@"] after at least one
    character, and later, at least one character further, a ["."] with at
    least one character after it.  (The bytes of ["@"] and ["."] occur in
    the encoding of no other character, so the two are looked for byte by
    byte.) *)
Definition match_email (s : string) : bool :=
  no_space s &&
  match s with
  | EmptyString => false
  | String _ r => at_then_dot r
  end.

Definition is_digit (c : ascii) : bool :=
  let n := nat_of_ascii c in ((48 <=? n) && (n <=? 57))%nat.

Fixpoint all_digits (s : string) : bool :=
  match s with
  | EmptyString => true
  | String c r => is_digit c && all_digits r
  end.

(** [/^[0-9]{10}$/] *)
Definition match_phone (s : string) : bool :=
  all_digits s && (strlen s =? 10).

(* ================================================================== *)
(** * The collaborators outside the repository *)
(* ================================================================== *)

(** bcryptjs, node's [crypto] and jsonwebtoken, on strings, and the case
    tables of the JavaScript engine.  The salt of a bcrypt hash and the
    random bytes are drawn by the caller (see [env]). *)
Class Crypto : Type := {
  (** [crypto.createHash("sha256").update(s).digest("hex")] *)
  sha256_hex : string -> string;
  (** [bcrypt.hash(s, salt)] *)
  bcrypt_hash : string -> string -> string;
  (** [bcrypt.compare(s, hash)] on two strings *)
  bcrypt_check : string -> string -> bool;
  (** [jwt.sign({ id }, JWT_SECRET, { expiresIn: "1d" })] at a given time *)
  jwt_sign : nat -> Z -> string;
  (** [jwt.verify(token, JWT_SECRET)] at a given time: the [id] of the
      payload, or [None] when it throws *)
  jwt_verify : string -> Z -> option nat;
  (** [String.prototype.toLowerCase] *)
  toLowerCase : string -> string;
  (** a bcrypt hash is 60 characters long; the schema asks a password for
      6, and this much is kept as the law *)
  bcrypt_hash_long : forall s salt, 6 <= strlen (bcrypt_hash s salt);
  (** on ASCII text only the letters [A] to [Z] change *)
  toLowerCase_ascii :
    forall s, is_ascii s = true -> toLowerCase s = ascii_toLowerCase s;
  (** a lower-cased string holds no character that has a lower case of its
      own *)
  toLowerCase_idem :
    forall s, toLowerCase (toLowerCase s) = toLowerCase s;
  (** white space has no case, and the case of a character does not depend
      on the white space at the ends of the string *)
  toLowerCase_trim :
    forall s, toLowerCase (trim s) = trim (toLowerCase s)
}.

(** What a handler reads from outside during one request. *)
Record env : Type := {
  now : Z;                      (** [Date.now()], milliseconds *)
  random_hex : string;          (** [crypto.randomBytes(32).toString("hex")] *)
  salt_handler : string;        (** the salt drawn for the handler's hash *)
  salt_hook : string;           (** the salt drawn by the pre-save hook *)
  findOne_fails : bool;         (** the store rejects the query *)
  create_fails : bool;          (** the store rejects the insertion *)
  save_fails : bool;            (** the store rejects the update *)
  mail_fails : bool;            (** the transporter rejects the user's mail *)
  admin_mail_fails : bool;      (** the transporter rejects the admin's mail *)
  FRONTEND_URL : jsstring;
  APP_BASE_URL : jsstring;
  API_BASE_URL : jsstring;
  ADMIN_EMAIL : jsstring;
  EMAIL_FROM : jsstring;
  EMAIL_USER : jsstring;
  NODE_ENV : jsstring
}.

(* ================================================================== *)
(** * models/User.js *)
(* ================================================================== *)

(** A stored user.  [password] is required by the schema, so a stored user
    always has one; the three optional profile strings and the two token
    fields may be absent. *)
Record user : Type := {
  _id : nat;
  name : string;
  email : string;
  password : string;
  phone : jsstring;
  occupation : jsstring;
  source : jsstring;
  emailVerified : bool;
  verifyToken : option string;
  verifyTokenExpires : option Z;
  createdAt : Z;
  updatedAt : Z
}.

(** The paths of the schema (with [_id] and the two of [timestamps: true]). *)
Inductive path : Type :=
| P_id | P_name | P_email | P_password | P_phone | P_occupation | P_source
| P_emailVerified | P_verifyToken | P_verifyTokenExpires
| P_createdAt | P_updatedAt.

Definition path_eqb (p q : path) : bool :=
  match p, q with
  | P_id, P_id | P_name, P_name | P_email, P_email
  | P_password, P_password | P_phone, P_phone
  | P_occupation, P_occupation | P_source, P_source
  | P_emailVerified, P_emailVerified | P_verifyToken, P_verifyToken
  | P_verifyTokenExpires, P_verifyTokenExpires
  | P_createdAt, P_createdAt | P_updatedAt, P_updatedAt => true
  | _, _ => false
  end.

Definition has_path (p : path) (ps : list path) : bool :=
  existsb (path_eqb p) ps.

Definition path_name (p : path) : string :=
  match p with
  | P_id => "_id" | P_name => "name" | P_email => "email"
  | P_password => "password" | P_phone => "phone"
  | P_occupation => "occupation" | P_source => "source"
  | P_emailVerified => "emailVerified" | P_verifyToken => "verifyToken"
  | P_verifyTokenExpires => "verifyTokenExpires"
  | P_createdAt => "createdAt" | P_updatedAt => "updatedAt"
  end.

Definition all_paths : list path :=
  [P_id; P_name; P_email; P_password; P_phone; P_occupation; P_source;
   P_emailVerified; P_verifyToken; P_verifyTokenExpires;
   P_createdAt; P_updatedAt].

(** [select: false] in the schema *)
Definition select_false (p : path) : bool :=
  match p with
  | P_password | P_verifyToken | P_verifyTokenExpires => true
  | _ => false
  end.

(** One word of the argument of [Query.select]: ["+path"] or ["-path"]. *)
Inductive selector : Type :=
| Plus (p : path)
| Minus (p : path).

Definition selects_plus (p : path) (s : selector) : bool :=
  match s with Plus q => path_eqb p q | Minus _ => false end.

Definition selects_minus (p : path) (s : selector) : bool :=
  match s with Minus q => path_eqb p q | Plus _ => false end.

(** The projection of a query: a path hidden by the schema is returned only
    when it is asked for with ["+"], any other path unless it is excluded
    with ["-"]. *)
Definition projection (sel : list selector) (p : path) : bool :=
  if select_false p then existsb (selects_plus p) sel
  else negb (existsb (selects_minus p) sel).

(** The setters of the schema: [trim] on the strings, and [lowercase] and
    [trim] on the email (the two commute, see [toLowerCase_trim]).  Mongoose
    applies them when a document is built and when the filter of a query is
    cast. *)
Definition set_name (s : string) : string := trim s.
Definition set_email {K : Crypto} (s : string) : string :=
  trim (toLowerCase s).
Definition set_opt (s : jsstring) : jsstring := option_map trim s.

(** The validators of the schema, on a document about to be inserted. *)
Definition opt_ok (f : string -> bool) (s : jsstring) : bool :=
  match s with
  | None => true
  | Some v => is_empty v || f v
  end.

Definition validate (u : user) : bool :=
  negb (is_empty (name u)) && (2 <=? strlen (name u)) && (strlen (name u) <=? 100)
  && negb (is_empty (email u)) && match_email (email u)
  && negb (is_empty (password u)) && (6 <=? strlen (password u))
  && opt_ok match_phone (phone u)
  && opt_ok (fun s => strlen s <=? 100) (occupation u)
  && opt_ok (fun s => strlen s <=? 100) (source u).

(** The validators of the paths a later [save] has modified.  The handlers
    modify [emailVerified] and the two token fields, which have none.  (A
    [save] also runs the validators of the paths that were loaded; a stored
    document has passed them when it was inserted and no handler assigns
    such a path, so they are not run again here.) *)
Definition validate_modified (mods : list path) (u : user) : bool :=
  (negb (has_path P_name mods)
   || (negb (is_empty (name u)) && (2 <=? strlen (name u)) && (strlen (name u) <=? 100)))
  && (negb (has_path P_email mods)
      || (negb (is_empty (email u)) && match_email (email u)))
  && (negb (has_path P_password mods)
      || (negb (is_empty (password u)) && (6 <=? strlen (password u))))
  && (negb (has_path P_phone mods) || opt_ok match_phone (phone u))
  && (negb (has_path P_occupation mods)
      || opt_ok (fun s => strlen s <=? 100) (occupation u))
  && (negb (has_path P_source mods)
      || opt_ok (fun s => strlen s <=? 100) (source u)).

(** A document in memory: the values, which paths the query selected, which
    paths were assigned since it was loaded, and whether it is yet to be
    inserted. *)
Record document : Type := {
  val : user;
  selected : path -> bool;
  modified : list path;
  isNew : bool
}.

(** Reading a path the query did not select gives [undefined]. *)
Definition doc_password (d : document) : jsstring :=
  if selected d P_password then Some (password (val d)) else None.

Definition with_tokens (u : user) (t : option string) (e : option Z)
  : user :=
  {| _id := _id u; name := name u; email := email u; password := password u;
     phone := phone u; occupation := occupation u; source := source u;
     emailVerified := emailVerified u;
     verifyToken := t; verifyTokenExpires := e;
     createdAt := createdAt u; updatedAt := updatedAt u |}.

Definition with_emailVerified (u : user) (b : bool) : user :=
  {| _id := _id u; name := name u; email := email u; password := password u;
     phone := phone u; occupation := occupation u; source := source u;
     emailVerified := b;
     verifyToken := verifyToken u; verifyTokenExpires := verifyTokenExpires u;
     createdAt := createdAt u; updatedAt := updatedAt u |}.

Definition with_password (u : user) (p : string) : user :=
  {| _id := _id u; name := name u; email := email u; password := p;
     phone := phone u; occupation := occupation u; source := source u;
     emailVerified := emailVerified u;
     verifyToken := verifyToken u; verifyTokenExpires := verifyTokenExpires u;
     createdAt := createdAt u; updatedAt := updatedAt u |}.

(** [doc.verifyToken = t] *)
Definition assign_verifyToken (t : option string) (d : document) : document :=
  {| val := with_tokens (val d) t (verifyTokenExpires (val d));
     selected := selected d;
     modified := P_verifyToken :: modified d;
     isNew := isNew d |}.

(** [doc.verifyTokenExpires = e] *)
Definition assign_verifyTokenExpires (e : option Z) (d : document)
  : document :=
  {| val := with_tokens (val d) (verifyToken (val d)) e;
     selected := selected d;
     modified := P_verifyTokenExpires :: modified d;
     isNew := isNew d |}.

(** [doc.emailVerified = b] *)
Definition assign_emailVerified (b : bool) (d : document) : document :=
  {| val := with_emailVerified (val d) b;
     selected := selected d;
     modified := P_emailVerified :: modified d;
     isNew := isNew d |}.

(** What an update writes: the modified paths of the document in memory over
    the stored one, and the [updatedAt] of [timestamps: true]. *)
Definition merge (mods : list path) (t : Z) (mem stored : user) : user :=
  {| _id := _id stored;
     name := if has_path P_name mods then name mem else name stored;
     email := if has_path P_email mods then email mem else email stored;
     password :=
       if has_path P_password mods then password mem else password stored;
     phone := if has_path P_phone mods then phone mem else phone stored;
     occupation :=
       if has_path P_occupation mods then occupation mem
       else occupation stored;
     source := if has_path P_source mods then source mem else source stored;
     emailVerified :=
       if has_path P_emailVerified mods then emailVerified mem
       else emailVerified stored;
     verifyToken :=
       if has_path P_verifyToken mods then verifyToken mem
       else verifyToken stored;
     verifyTokenExpires :=
       if has_path P_verifyTokenExpires mods then verifyTokenExpires mem
       else verifyTokenExpires stored;
     createdAt := createdAt stored;
     updatedAt := t |}.

(* ================================================================== *)
(** * The world, and the monad of a handler body *)
(* ================================================================== *)

(** The HTML of a mail is one of two templates; the value keeps what is
    interpolated in it. *)
Inductive html : Type :=
| VerificationEmail (to_name verifyUrl : string)
| AdminNotice (new_name new_email : string).

Definition buildVerificationEmail (name_ verifyUrl : string) : html :=
  VerificationEmail name_ verifyUrl.

Record mail : Type := {
  mail_from : jsstring;
  mail_to : string;
  mail_subject : string;
  mail_html : html
}.

(** The [users] collection in insertion order, and every mail handed to
    [transporter.sendMail], delivered or not. *)
Record world : Type := {
  users : list user;
  outbox : list mail
}.

Definition empty_world : world := {| users := []; outbox := [] |}.

(** What a collaborator can throw. *)
Inductive exn : Type :=
| E11000 (keyPattern_email : bool)  (** duplicate key of a unique index *)
| ValidationError                   (** a validator of the schema *)
| StoreFault                        (** the store is unreachable *)
| DocumentNotFound                  (** update of a document that is gone *)
| MailFault                         (** [sendMail] rejects *)
| IllegalArguments                  (** bcryptjs, on a non-string *)
| JwtError.                         (** [jwt.verify] on a bad or expired token *)

(** A computation returns or throws, and in both cases leaves a world. *)
Definition M (A : Type) : Type := world -> (exn + A) * world.

Definition ret {A} (a : A) : M A := fun w => (inr a, w).

Definition throw {A} (x : exn) : M A := fun w => (inl x, w).

Definition bind {A B} (c : M A) (k : A -> M B) : M B :=
  fun w =>
    match c w with
    | (inr a, w') => k a w'
    | (inl x, w') => (inl x, w')
    end.

Notation "x <- c ;; k" := (bind c (fun x => k))
  (at level 61, c at next level, right associativity).
Notation "c ;;; k" := (bind c (fun _ => k))
  (at level 61, right associativity).

(** A promise that is not awaited and carries its own [.catch]: its effects
    happen, its rejection is swallowed. *)
Definition fire (c : M unit) : M unit :=
  fun w => (inr tt, snd (c w)).

(* ------------------------------------------------------------------ *)
(** ** Responses *)

Unset Elimination Schemes.
Inductive jsval : Type :=
| JStr (s : string)
| JBool (b : bool)
| JDate (t : Z)
| JId (n : nat)
| JObj (fields : list (string * jsval)).
Set Elimination Schemes.

Inductive payload : Type :=
| Json (o : list (string * jsval))   (** [res.json] *)
| Send (s : string)                  (** [res.send] *)
| Redirect (url : string).           (** [res.redirect] *)

Record cookie_options : Type := {
  httpOnly : bool;
  secure : bool;
  sameSite : string;
  maxAge : option Z
}.

Inductive cookie_effect : Type :=
| NoCookie
| SetCookie (key value : string) (o : cookie_options)   (** [res.cookie] *)
| ClearCookie (key : string) (o : cookie_options).      (** [res.clearCookie] *)

Record response : Type := {
  status : Z;
  content : payload;
  cookie : cookie_effect
}.

Definition message (code : Z) (m : string) : response :=
  {| status := code; content := Json [("message", JStr m)];
     cookie := NoCookie |}.

Definition text (code : Z) (m : string) : response :=
  {| status := code; content := Send m; cookie := NoCookie |}.

(** [res.redirect(url)]: status 302 *)
Definition redirect (url : string) : response :=
  {| status := 302; content := Redirect url; cookie := NoCookie |}.

(** The [try { ... } catch (err) { ... }] around a handler. *)
Definition try_catch (body : M response) (handler : exn -> response)
  : world -> response * world :=
  fun w =>
    match body w with
    | (inr r, w') => (r, w')
    | (inl x, w') => (handler x, w')
    end.

(* ================================================================== *)
(** * The model [User] over the store *)
(* ================================================================== *)

Definition str_of (x : jsstring) : string :=
  match x with Some s => s | None => "" end.

Definition opt_string_eqb (a : option string) (b : string) : bool :=
  match a with Some s => String.eqb s b | None => false end.

(** The filter [{ email: q }] after the cast of the schema.  An [undefined]
    value matches a missing email, which no stored user has. *)
Definition by_email {K : Crypto} (q : jsstring) (u : user) : bool :=
  match q with
  | Some s => String.eqb (email u) (set_email s)
  | None => false
  end.

(** The filter [{ verifyToken: h, verifyTokenExpires: { $gt: t } }]. *)
Definition by_live_token (h : string) (t : Z) (u : user) : bool :=
  opt_string_eqb (verifyToken u) h &&
  match verifyTokenExpires u with
  | Some x => t <? x
  | None => false
  end.

Definition by_id (i : nat) (u : user) : bool := Nat.eqb (_id u) i.

(** An [_id] no stored user has. *)
Definition fresh_id (us : list user) : nat :=
  S (list_max (map _id us)).

Definition load (sel : list selector) (u : user) : document :=
  {| val := u; selected := projection sel; modified := []; isNew := false |}.

Definition stamp (t : Z) (u : user) : user :=
  {| _id := _id u; name := name u; email := email u; password := password u;
     phone := phone u; occupation := occupation u; source := source u;
     emailVerified := emailVerified u;
     verifyToken := verifyToken u; verifyTokenExpires := verifyTokenExpires u;
     createdAt := t; updatedAt := t |}.

(** The values a handler passes to [new User] or [User.create]. *)
Record new_user : Type := {
  nu_name : string;
  nu_email : string;
  nu_password : string;
  nu_phone : jsstring;
  nu_occupation : jsstring;
  nu_source : jsstring
}.

Section Model.

Context {K : Crypto}.
Variable e : env.

(** [User.findOne(filter).select(sel)], [User.findById(id).select(sel)] *)
Definition findOne (filter : user -> bool) (sel : list selector)
  : M (option document) :=
  fun w =>
    if findOne_fails e then (inl StoreFault, w)
    else (inr (option_map (load sel) (find filter (users w))), w).

(** [new User(obj)]: the setters run, [emailVerified] takes its default
    [false] (the only value a handler ever passes), the paths given are
    modified, and the document is new. *)
Definition new_User (o : new_user) : M document :=
  fun w =>
    (inr {| val := {| _id := fresh_id (users w);
                      name := set_name (nu_name o);
                      email := set_email (nu_email o);
                      password := nu_password o;
                      phone := set_opt (nu_phone o);
                      occupation := set_opt (nu_occupation o);
                      source := set_opt (nu_source o);
                      emailVerified := false;
                      verifyToken := None;
                      verifyTokenExpires := None;
                      createdAt := 0;
                      updatedAt := 0 |};
            selected := fun _ => true;
            modified := [P_name; P_email; P_password; P_phone;
                         P_occupation; P_source; P_emailVerified];
            isNew := true |}, w).

(** [userSchema.pre("save")]: a modified password is hashed, with a salt
    of its own. *)
Definition pre_save (d : document) : M document :=
  if negb (has_path P_password (modified d)) then ret d
  else
    ret {| val := with_password (val d)
                    (bcrypt_hash (password (val d)) (salt_hook e));
           selected := selected d;
           modified := modified d;
           isNew := isNew d |}.

Definition replace_by_id (d : document) (u : user) : user :=
  if by_id (_id (val d)) u then merge (modified d) (now e) (val d) u
  else u.

(** [doc.save()]: validation, then the hook, then the insertion of a new
    document (under the unique index on [email]) or the update of the
    modified paths of a stored one. *)
Definition save (d : document) : M document :=
  if negb (if isNew d then validate (val d)
           else validate_modified (modified d) (val d))
  then throw ValidationError
  else
    d' <- pre_save d ;;
    fun w =>
      if isNew d' then
        if create_fails e then (inl StoreFault, w)
        else if existsb (fun u => String.eqb (email u) (email (val d')))
                        (users w)
        then (inl (E11000 true), w)
        else
          let u := stamp (now e) (val d') in
          (inr {| val := u; selected := selected d';
                  modified := []; isNew := false |},
           {| users := users w ++ [u]; outbox := outbox w |})
      else
        if save_fails e then (inl StoreFault, w)
        else if negb (existsb (by_id (_id (val d'))) (users w))
        then (inl DocumentNotFound, w)
        else
          (inr {| val := val d'; selected := selected d';
                  modified := []; isNew := false |},
           {| users := map (replace_by_id d') (users w);
              outbox := outbox w |}).

(** [User.create(obj)] *)
Definition User_create (o : new_user) : M document :=
  d <- new_User o ;; save d.

(** [transporter.sendMail(m)], awaited: the mail is handed over, and the
    promise may reject. *)
Definition sendMail (rejects : bool) (m : mail) : M unit :=
  fun w =>
    (if rejects then inl MailFault else inr tt,
     {| users := users w; outbox := outbox w ++ [m] |}).

(** [bcrypt.compare(s, hash)]: bcryptjs rejects when an argument is not a
    string. *)
Definition bcrypt_compare (s hash : jsstring) : M bool :=
  match s, hash with
  | Some s', Some h => ret (bcrypt_check s' h)
  | _, _ => throw IllegalArguments
  end.

(** [jwt.verify(token, secret)] *)
Definition jwt_decode (token : string) : M nat :=
  match jwt_verify token (now e) with
  | Some i => ret i
  | None => throw JwtError
  end.

Definition session_cookie : cookie_options :=
  {| httpOnly := true;
     secure := opt_string_eqb (NODE_ENV e) "production";
     sameSite := "lax";
     maxAge := Some (24 * 60 * 60 * 1000) |}.

Definition clear_cookie : cookie_options :=
  {| httpOnly := true;
     secure := opt_string_eqb (NODE_ENV e) "production";
     sameSite := "lax";
     maxAge := None |}.

End Model.

(** The value of a path of a stored user, when it is defined. *)
Definition path_value (u : user) (p : path) : option jsval :=
  match p with
  | P_id => Some (JId (_id u))
  | P_name => Some (JStr (name u))
  | P_email => Some (JStr (email u))
  | P_password => Some (JStr (password u))
  | P_phone => option_map JStr (phone u)
  | P_occupation => option_map JStr (occupation u)
  | P_source => option_map JStr (source u)
  | P_emailVerified => Some (JBool (emailVerified u))
  | P_verifyToken => option_map JStr (verifyToken u)
  | P_verifyTokenExpires => option_map JDate (verifyTokenExpires u)
  | P_createdAt => Some (JDate (createdAt u))
  | P_updatedAt => Some (JDate (updatedAt u))
  end.

Definition json_field (d : document) (p : path) : list (string * jsval) :=
  if selected d p then
    match path_value (val d) p with
    | Some v => [(path_name p, v)]
    | None => []
    end
  else [].

(** [res.json(doc)]: the selected paths that are defined. *)
Definition toJSON (d : document) : list (string * jsval) :=
  flat_map (json_field d) all_paths.

(* ================================================================== *)
(** * The controller *)
(* ================================================================== *)

Record register_body : Type := {
  req_name : jsstring;
  req_email : jsstring;
  req_password : jsstring;
  req_phone : jsstring;
  req_occupation : jsstring;
  req_source : jsstring
}.

Record login_body : Type := {
  login_email : jsstring;
  login_password : jsstring
}.

Definition day_ms : Z := 24 * 60 * 60 * 1000.

Module Controller.
Section Handlers.

Context {K : Crypto}.
Variable e : env.

Definition registerUser (b : register_body) : world -> response * world :=
  try_catch
    (if falsy (req_name b) || falsy (req_email b) || falsy (req_password b)
     then ret (message 400 "Name, email, and password are required.")
     else
       let name_ := str_of (req_name b) in
       let email_ := str_of (req_email b) in
       let password_ := str_of (req_password b) in
       existing <- findOne e (by_email (Some (trim (toLowerCase email_)))) [] ;;
       match existing with
       | Some _ => ret (message 400 "User already exists.")
       | None =>
           let hashed := bcrypt_hash password_ (salt_handler e) in
           user <- User_create e
                     {| nu_name := trim name_;
                        nu_email := trim (toLowerCase email_);
                        nu_password := hashed;
                        nu_phone := req_phone b;
                        nu_occupation := req_occupation b;
                        nu_source := req_source b |} ;;
           let rawToken := random_hex e in
           let hashedToken := sha256_hex rawToken in
           let user := assign_verifyToken (Some hashedToken) user in
           let user :=
             assign_verifyTokenExpires (Some (now e + day_ms)) user in
           user <- save e user ;;
           let verifyUrl :=
             or_else (or_js (FRONTEND_URL e) (APP_BASE_URL e))
                     "http://localhost:5173"
             ++ "/verify/" ++ rawToken in
           fire (sendMail (mail_fails e)
                   {| mail_from := or_js (EMAIL_FROM e) (EMAIL_USER e);
                      mail_to := email (val user);
                      mail_subject := "Confirm your email — Acceleott";
                      mail_html :=
                        buildVerificationEmail (name (val user)) verifyUrl |}) ;;;
           (if falsy (ADMIN_EMAIL e) then ret tt
            else
              fire (sendMail (admin_mail_fails e)
                      {| mail_from := or_js (EMAIL_FROM e) (EMAIL_USER e);
                         mail_to := str_of (ADMIN_EMAIL e);
                         mail_subject :=
                           "New User Registered — " ++ name (val user);
                         mail_html :=
                           AdminNotice (name (val user))
                                       (email (val user)) |})) ;;;
           ret (message 201
                  "User registered. Please check your email to verify your account.")
       end)
    (fun err =>
       match err with
       | E11000 true => message 400 "Email already registered."
       | _ => message 500 "Server error during registration."
       end).

(** [token] is [req.params.token]. *)
Definition verifyEmail (token : string) : world -> response * world :=
  try_catch
    (if is_empty token then ret (text 400 "Invalid verification token.")
     else
       let hashed := sha256_hex token in
       found <- findOne e (by_live_token hashed (now e)) [] ;;
       match found with
       | None => ret (text 400 "Invalid or expired verification link.")
       | Some user =>
           let user := assign_emailVerified true user in
           let user := assign_verifyToken None user in
           let user := assign_verifyTokenExpires None user in
           save e user ;;;
           ret (redirect (or_else (FRONTEND_URL e) "http://localhost:5173"
                          ++ "/verify-success"))
       end)
    (fun _ => text 500 "Server error during verification.").

(** [email_] is [req.body.email]. *)
Definition resendVerification (email_ : jsstring)
  : world -> response * world :=
  try_catch
    (if falsy email_ then ret (message 400 "Email is required.")
     else
       found <- findOne e
                  (by_email (Some (trim (toLowerCase (str_of email_))))) [] ;;
       match found with
       | None => ret (message 404 "User not found.")
       | Some user =>
           if emailVerified (val user)
           then ret (message 200 "Email already verified.")
           else
             let rawToken := random_hex e in
             let user :=
               assign_verifyToken (Some (sha256_hex rawToken)) user in
             let user :=
               assign_verifyTokenExpires (Some (now e + day_ms)) user in
             user <- save e user ;;
             let verifyUrl :=
               or_else (FRONTEND_URL e) "http://localhost:5173"
               ++ "/verify/" ++ rawToken in
             sendMail (mail_fails e)
               {| mail_from := or_js (EMAIL_FROM e) (EMAIL_USER e);
                  mail_to := email (val user);
                  mail_subject := "Verify your email — Acceleott";
                  mail_html :=
                    buildVerificationEmail (name (val user)) verifyUrl |} ;;;
             ret (message 200 "Verification email resent successfully.")
       end)
    (fun _ => message 500 "Server error during resend.").

(** [resendVerification] from its first [await] on: what the handler does
    once [User.findOne] has answered [found]. *)
Definition resend_found (found : option document) : M response :=
  match found with
  | None => ret (message 404 "User not found.")
  | Some user =>
      if emailVerified (val user)
      then ret (message 200 "Email already verified.")
      else
        let rawToken := random_hex e in
        let user :=
          assign_verifyToken (Some (sha256_hex rawToken)) user in
        let user :=
          assign_verifyTokenExpires (Some (now e + day_ms)) user in
        user <- save e user ;;
        let verifyUrl :=
          or_else (FRONTEND_URL e) "http://localhost:5173"
          ++ "/verify/" ++ rawToken in
        sendMail (mail_fails e)
          {| mail_from := or_js (EMAIL_FROM e) (EMAIL_USER e);
             mail_to := email (val user);
             mail_subject := "Verify your email — Acceleott";
             mail_html :=
               buildVerificationEmail (name (val user)) verifyUrl |} ;;;
        ret (message 200 "Verification email resent successfully.")
  end.

Definition loginUser (b : login_body) : world -> response * world :=
  try_catch
    (if falsy (login_email b) || falsy (login_password b)
     then ret (message 400 "Email and password required.")
     else
       found <- findOne e
                  (by_email
                     (Some (trim (toLowerCase (str_of (login_email b))))))
                  [] ;;
       match found with
       | None => ret (message 400 "Invalid credentials.")
       | Some user =>
           if negb (emailVerified (val user))
           then ret (message 403 "Please verify your email to continue.")
           else
             isMatch <- bcrypt_compare (login_password b)
                          (doc_password user) ;;
             if negb isMatch then ret (message 400 "Invalid credentials.")
             else
               let token := jwt_sign (_id (val user)) (now e) in
               ret {| status := 200;
                      content :=
                        Json [("message", JStr "Login successful.");
                              ("user",
                               JObj [("id", JId (_id (val user)));
                                     ("name", JStr (name (val user)));
                                     ("email", JStr (email (val user)))])];
                      cookie := SetCookie "token" token (session_cookie e) |}
       end)
    (fun _ => message 500 "Server error during login.").

Definition logoutUser : world -> response * world :=
  fun w =>
    ({| status := 200;
        content := Json [("message", JStr "Logged out successfully.")];
        cookie := ClearCookie "token" (clear_cookie e) |}, w).

(** [token] is [req.cookies?.token]. *)
Definition getMe (token : jsstring) : world -> response * world :=
  try_catch
    (if falsy token then ret (message 401 "Not authorized.")
     else
       decoded <- jwt_decode e (str_of token) ;;
       found <- findOne e (by_id decoded)
                  [Minus P_password; Minus P_verifyToken;
                   Minus P_verifyTokenExpires] ;;
       match found with
       | None => ret (message 404 "User not found.")
       | Some user =>
           ret {| status := 200; content := Json (toJSON user);
                  cookie := NoCookie |}
       end)
    (fun _ => message 500 "Server error.").

End Handlers.
End Controller.

(* ================================================================== *)
(** * The router of middleware/auth.js *)
(* ================================================================== *)

Module Router.
Section Handlers.

Context {K : Crypto}.
Variable e : env.

Definition sender : jsstring :=
  Some (dquote ++ "Acceleott" ++ dquote ++ " <"
        ++ interp (EMAIL_USER e) ++ ">").

(** [router.post("/register")]; only [name], [email] and [password] of the
    body are read. *)
Definition register (b : register_body) : world -> response * world :=
  try_catch
    (if falsy (req_name b) || falsy (req_email b) || falsy (req_password b)
     then ret (message 400 "All fields are required.")
     else
       let name_ := str_of (req_name b) in
       let email_ := str_of (req_email b) in
       let password_ := str_of (req_password b) in
       existingUser <- findOne e (by_email (Some email_)) [] ;;
       match existingUser with
       | Some _ => ret (message 400 "User already exists.")
       | None =>
           let hashedPassword := bcrypt_hash password_ (salt_handler e) in
           user <- new_User
                     {| nu_name := name_;
                        nu_email := email_;
                        nu_password := hashedPassword;
                        nu_phone := None;
                        nu_occupation := None;
                        nu_source := None |} ;;
           let token := random_hex e in
           let user := assign_verifyToken (Some (sha256_hex token)) user in
           let user :=
             assign_verifyTokenExpires (Some (now e + day_ms)) user in
           save e user ;;;
           let verifyUrl :=
             interp (API_BASE_URL e) ++ "/api/auth/verify/" ++ token in
           sendMail (mail_fails e)
             {| mail_from := sender;
                mail_to := email_;
                mail_subject := "Confirm your email — Acceleott";
                mail_html := buildVerificationEmail name_ verifyUrl |} ;;;
           (if falsy (ADMIN_EMAIL e) then ret tt
            else
              sendMail (admin_mail_fails e)
                {| mail_from := sender;
                   mail_to := str_of (ADMIN_EMAIL e);
                   mail_subject := "🆕 New User Registered — " ++ name_;
                   mail_html := AdminNotice name_ email_ |}) ;;;
           ret {| status := 201;
                  content :=
                    Json [("success", JBool true);
                          ("message",
                           JStr "User registered successfully. Please check your email to verify your account.")];
                  cookie := NoCookie |}
       end)
    (fun _ => message 500 "Server error during registration.").

(** [router.get("/verify/:token")] *)
Definition verify (token : string) : world -> response * world :=
  try_catch
    (let hashedToken := sha256_hex token in
     found <- findOne e (by_live_token hashedToken (now e)) [] ;;
     match found with
     | None => ret (redirect (interp (APP_BASE_URL e) ++ "/verify-failed"))
     | Some user =>
         let user := assign_emailVerified true user in
         let user := assign_verifyToken None user in
         let user := assign_verifyTokenExpires None user in
         save e user ;;;
         ret (redirect (interp (APP_BASE_URL e) ++ "/verify-success"))
     end)
    (fun _ => redirect (interp (APP_BASE_URL e) ++ "/verify-failed")).

(** [router.post("/login")] *)
Definition login (b : login_body) : world -> response * world :=
  try_catch
    (found <- findOne e (by_email (login_email b)) [Plus P_password] ;;
     match found with
     | None => ret (message 400 "Invalid credentials.")
     | Some user =>
         if negb (emailVerified (val user))
         then ret (message 403 "Please verify your email first.")
         else
           isMatch <- bcrypt_compare (login_password b)
                        (doc_password user) ;;
           if negb isMatch then ret (message 400 "Invalid credentials.")
           else
             let token := jwt_sign (_id (val user)) (now e) in
             ret {| status := 200;
                    content :=
                      Json [("success", JBool true);
                            ("message", JStr "Login successful.");
                            ("user",
                             JObj [("id", JId (_id (val user)));
                                   ("name", JStr (name (val user)));
                                   ("email", JStr (email (val user)))])];
                    cookie := SetCookie "token" token (session_cookie e) |}
     end)
    (fun _ => message 500 "Server error during login.").

(** [router.post("/logout")] *)
Definition logout : world -> response * world :=
  fun w =>
    ({| status := 200;
        content := Json [("success", JBool true);
                         ("message", JStr "Logged out successfully.")];
        cookie := ClearCookie "token" (clear_cookie e) |}, w).

(** [router.get("/me")]; [token] is [req.cookies.token]. *)
Definition me (token : jsstring) : world -> response * world :=
  try_catch
    (if falsy token then ret (message 401 "Not authorized.")
     else
       decoded <- jwt_decode e (str_of token) ;;
       found <- findOne e (by_id decoded) [Minus P_password] ;;
       match found with
       | None => ret (message 404 "User not found.")
       | Some user =>
           ret {| status := 200;
                  content := Json [("success", JBool true);
                                   ("user", JObj (toJSON user))];
                  cookie := NoCookie |}
       end)
    (fun _ => message 401 "Invalid or expired token.").

End Handlers.
End Router.

(* ================================================================== *)
(** * Requests, and the states a server can reach *)
(* ================================================================== *)

Inductive request : Type :=
| RegisterUser (b : register_body)
| VerifyEmail (token : string)
| ResendVerification (email_ : jsstring)
| LoginUser (b : login_body)
| LogoutUser
| GetMe (token : jsstring)
| RouterRegister (b : register_body)
| RouterVerify (token : string)
| RouterLogin (b : login_body)
| RouterLogout
| RouterMe (token : jsstring).

Definition handle {K : Crypto} (e : env) (r : request)
  : world -> response * world :=
  match r with
  | RegisterUser b => Controller.registerUser e b
  | VerifyEmail t => Controller.verifyEmail e t
  | ResendVerification m => Controller.resendVerification e m
  | LoginUser b => Controller.loginUser e b
  | LogoutUser => Controller.logoutUser e
  | GetMe t => Controller.getMe e t
  | RouterRegister b => Router.register e b
  | RouterVerify t => Router.verify e t
  | RouterLogin b => Router.login e b
  | RouterLogout => Router.logout e
  | RouterMe t => Router.me e t
  end.

(** ** Two requests at once

    A handler yields at each [await], and the server serves what arrives
    meanwhile.  [resend_interleaved] is a [resendVerification] during whose
    [await User.findOne(...)] another request [r] is served from its start
    to its end: the query of the first reads the world before [r], the rest
    of the handler ([Controller.resend_found]) runs in the world after it.
    The answers are that of the resend, then that of [r]. *)
Definition resend_interleaved {K : Crypto} (e : env) (email_ : jsstring)
    (e' : env) (r : request) (w : world) : (response * response) * world :=
  if falsy email_
  then
    let (resp', w1) := handle e' r w in
    ((message 400 "Email is required.", resp'), w1)
  else
    match
      findOne e (by_email (Some (trim (toLowerCase (str_of email_))))) [] w
    with
    | (inl _, w0) =>
        let (resp', w1) := handle e' r w0 in
        ((message 500 "Server error during resend.", resp'), w1)
    | (inr found, w0) =>
        let (resp', w1) := handle e' r w0 in
        let (resp, w2) :=
          try_catch (Controller.resend_found e found)
            (fun _ => message 500 "Server error during resend.") w1 in
        ((resp, resp'), w2)
    end.

(** The worlds reached from the empty collection by requests served one
    after the other, under any environments. *)
Inductive in_turn {K : Crypto} : world -> Prop :=
| turn_empty : in_turn empty_world
| turn_step : forall w e r,
    in_turn w -> in_turn (snd (handle e r w)).

(** The worlds reachable from the empty collection by any requests, under
    any environments: a request served from its start to its end, or a
    resend with another request served in its middle. *)
Inductive reachable {K : Crypto} : world -> Prop :=
| reach_empty : reachable empty_world
| reach_step : forall w e r,
    reachable w -> reachable (snd (handle e r w))
| reach_meet : forall w e email_ e' r,
    reachable w -> reachable (snd (resend_interleaved e email_ e' r w)).

(** Running a list of requests, each with its environment. *)
Fixpoint run {K : Crypto} (rs : list (env * request)) (w : world)
  : list response * world :=
  match rs with
  | [] => ([], w)
  | (e, r) :: rs' =>
      let (resp, w1) := handle e r w in
      let (resps, w2) := run rs' w1 in
      (resp :: resps, w2)
  end.

(* ================================================================== *)
(** * A reference implementation of the collaborators *)
(* ================================================================== *)

(** Hashes written as terms over their arguments, so that two hashes are
    equal exactly when their arguments are, and a session token that carries
    its payload in the clear and never expires.  The concrete runs of this
    file use it; the theorems hold for every implementation. *)

Fixpoint string_of_nat_unary (n : nat) : string :=
  match n with
  | O => ""
  | S m => String "i"%char (string_of_nat_unary m)
  end.

Fixpoint count_prefix_i (s : string) : nat :=
  match s with
  | String "i"%char r => S (count_prefix_i r)
  | _ => O
  end.

Fixpoint after_comma (s : string) : option string :=
  match s with
  | EmptyString => None
  | String c r => if Ascii.eqb c ","%char then Some r else after_comma r
  end.

Definition drop_last (s : string) : string :=
  substring 0 (String.length s - 1) s.

(** the argument [s] of the term ["bcrypt(salt,s)"] *)
Definition bcrypt_payload (h : string) : option string :=
  if String.prefix "bcrypt(" h
  then option_map drop_last
         (after_comma (substring 7 (String.length h - 7) h))
  else None.

Definition term_crypto : Crypto.
Proof.
  refine
    {| sha256_hex := fun s => "sha256(" ++ s ++ ")";
       bcrypt_hash := fun s salt => "bcrypt(" ++ salt ++ "," ++ s ++ ")";
       bcrypt_check := fun s h => opt_string_eqb (bcrypt_payload h) s;
       jwt_sign := fun i t => "jwt:" ++ string_of_nat_unary i;
       jwt_verify := fun tok t =>
         if String.prefix "jwt:" tok
         then Some (count_prefix_i (substring 4 (String.length tok - 4) tok))
         else None;
       toLowerCase := ascii_toLowerCase;
       bcrypt_hash_long := _;
       toLowerCase_ascii := fun s _ => eq_refl;
       toLowerCase_idem := _;
       toLowerCase_trim := _ |}.
  - (* seven characters of ASCII come first *)
    intros s salt.
    assert (Hpos : forall l, 0 <= fold_right (fun x n => units x + n) 0 l).
    { induction l as [|x l IH]; cbn [fold_right]; [lia|].
      destruct x as [|c x]; cbn [units]; [lia|].
      destruct (240 <=? code c)%nat; lia. }
    assert (Hhead : forall t, starts_cont (hd "" (chars t)) = starts_cont t).
    { destruct t as [|c t]; cbn [chars]; [reflexivity|].
      destruct (chars t) as [|x xs]; [reflexivity|].
      destruct (starts_cont x); reflexivity. }
    assert (Hcons : forall c t,
               (240 <=? code c)%nat = false -> starts_cont t = false ->
               fold_right (fun x n => units x + n) 0 (chars (String c t))
               = 1 + fold_right (fun x n => units x + n) 0 (chars t)).
    { intros c t Hc Ht. cbn [chars]. pose proof (Hhead t) as Hh.
      destruct (chars t) as [|x xs]; cbn [hd] in Hh.
      - cbn [fold_right units]. now rewrite Hc.
      - rewrite Hh, Ht. cbn [fold_right units]. now rewrite Hc. }
    unfold strlen. cbn [append].
    do 6 (rewrite Hcons by reflexivity).
    match goal with
    | |- context [chars ?t] => specialize (Hpos (chars t))
    end.
    lia.
  - (* a letter is lowered once *)
    induction s as [|c s IH]; cbn [ascii_toLowerCase]; [reflexivity|].
    rewrite IH. f_equal.
    destruct c as [[] [] [] [] [] [] [] []]; reflexivity.
  - (* the bytes that change are letters: the characters, and which of them
       are white space, stay *)
    assert (Hcode : forall c,
               code (lower_ascii c)
               = if is_upper c then (code c + 32)%nat else code c).
    { destruct c as [[] [] [] [] [] [] [] []]; reflexivity. }
    assert (Hup : forall c, is_upper c = true -> (65 <= code c <= 90)%nat).
    { intros c H. unfold is_upper in H. apply andb_prop in H.
      destruct H as [H1 H2]. apply Nat.leb_le in H1, H2. lia. }
    assert (Heq : forall c k, (128 <= k)%nat ->
               (code (lower_ascii c) =? k)%nat = (code c =? k)%nat).
    { intros c k Hk. rewrite Hcode. destruct (is_upper c) eqn:E;
        [|reflexivity].
      apply Hup in E.
      rewrite (proj2 (Nat.eqb_neq _ _)), (proj2 (Nat.eqb_neq _ _)); lia. }
    assert (Hge : forall c,
               (128 <=? code (lower_ascii c))%nat = (128 <=? code c)%nat).
    { intros c. rewrite Hcode. destruct (is_upper c) eqn:E; [|reflexivity].
      apply Hup in E.
      rewrite (proj2 (Nat.leb_gt _ _)), (proj2 (Nat.leb_gt _ _)); lia. }
    assert (Hle : forall c k, (128 <= k)%nat ->
               (code (lower_ascii c) <=? k)%nat = (code c <=? k)%nat).
    { intros c k Hk. rewrite Hcode. destruct (is_upper c) eqn:E;
        [|reflexivity].
      apply Hup in E.
      rewrite (proj2 (Nat.leb_le _ _)), (proj2 (Nat.leb_le _ _)); lia. }
    assert (Hcont : forall x,
               starts_cont (ascii_toLowerCase x) = starts_cont x).
    { destruct x as [|c x]; [reflexivity|].
      cbn [ascii_toLowerCase starts_cont]. unfold is_cont.
      now rewrite Hge, Hle by lia. }
    assert (Hchars : forall t,
               chars (ascii_toLowerCase t) = map ascii_toLowerCase (chars t)).
    { induction t as [|c t IH]; cbn [ascii_toLowerCase chars];
        [reflexivity|].
      rewrite IH. destruct (chars t) as [|x xs]; cbn [map]; [reflexivity|].
      rewrite Hcont. destruct (starts_cont x); reflexivity. }
    assert (Hwhite : forall x,
               white_space (ascii_toLowerCase x) = white_space x).
    { destruct x as [|c1 [|c2 [|c3 [|c4 x]]]];
        cbn [ascii_toLowerCase white_space]; try reflexivity.
      - destruct c1 as [[] [] [] [] [] [] [] []]; reflexivity.
      - now rewrite !Heq by lia.
      - now rewrite !Heq, Hge, Hle by lia. }
    assert (Hstart : forall l,
               dropStart (map ascii_toLowerCase l)
               = map ascii_toLowerCase (dropStart l)).
    { induction l as [|x l IH]; cbn [map dropStart]; [reflexivity|].
      rewrite Hwhite. destruct (white_space x); [exact IH | reflexivity]. }
    assert (Hend : forall l,
               dropEnd (map ascii_toLowerCase l)
               = map ascii_toLowerCase (dropEnd l)).
    { induction l as [|x l IH]; cbn [map dropEnd]; [reflexivity|].
      rewrite IH, Hwhite.
      destruct (dropEnd l) as [|y r']; cbn [map]; [|reflexivity].
      destruct (white_space x); reflexivity. }
    assert (Happ : forall a b,
               ascii_toLowerCase (a ++ b)
               = ascii_toLowerCase a ++ ascii_toLowerCase b).
    { induction a as [|c a IH]; intros b; cbn [append ascii_toLowerCase];
        [reflexivity|].
      now rewrite IH. }
    assert (Hjoin : forall l,
               ascii_toLowerCase (join l) = join (map ascii_toLowerCase l)).
    { induction l as [|x l IH]; cbn [join map]; [reflexivity|].
      now rewrite Happ, IH. }
    intros s. unfold trim.
    now rewrite Hjoin, <- Hend, <- Hstart, <- Hchars.
Defined.

(* ================================================================== *)
(** * The outcomes of the handlers *)
(* ================================================================== *)

(** [email.toLowerCase().trim()], as the controller writes it. *)
Definition normalized {K : Crypto} (s : string) : string :=
  trim (toLowerCase s).

(** What the three assignments of a verification leave in a stored user. *)
Definition confirmed (t : Z) (u : user) : user :=
  {| _id := _id u; name := name u; email := email u; password := password u;
     phone := phone u; occupation := occupation u; source := source u;
     emailVerified := true;
     verifyToken := None; verifyTokenExpires := None;
     createdAt := createdAt u; updatedAt := t |}.

(** What the two assignments of a token leave in a stored user. *)
Definition reissued (t : Z) (digest : string) (u : user) : user :=
  {| _id := _id u; name := name u; email := email u; password := password u;
     phone := phone u; occupation := occupation u; source := source u;
     emailVerified := emailVerified u;
     verifyToken := Some digest; verifyTokenExpires := Some (t + day_ms);
     createdAt := createdAt u; updatedAt := t |}.

(** [f] on the users whose [_id] is [i], the others as they are. *)
Definition on_id (i : nat) (f : user -> user) (u : user) : user :=
  if by_id i u then f u else u.

Definition set_users (w : world) (us : list user) : world :=
  {| users := us; outbox := outbox w |}.

Section ControllerOutcomes.

Context {K : Crypto}.
Variable e : env.

(** The success page of the controller's verification. *)
Definition verify_success : response :=
  redirect (or_else (FRONTEND_URL e) "http://localhost:5173"
            ++ "/verify-success").

Definition link_expired : response :=
  text 400 "Invalid or expired verification link.".

Definition resend_mail (u : user) : mail :=
  {| mail_from := or_js (EMAIL_FROM e) (EMAIL_USER e);
     mail_to := email u;
     mail_subject := "Verify your email — Acceleott";
     mail_html :=
       VerificationEmail (name u)
         (or_else (FRONTEND_URL e) "http://localhost:5173"
          ++ "/verify/" ++ random_hex e) |}.

(** The document [registerUser] passes to [User.create], after the
    setters of the schema. *)
Definition candidate (b : register_body) (w : world) : user :=
  {| _id := fresh_id (users w);
     name := set_name (trim (str_of (req_name b)));
     email := set_email (normalized (str_of (req_email b)));
     password := bcrypt_hash (str_of (req_password b)) (salt_handler e);
     phone := set_opt (req_phone b);
     occupation := set_opt (req_occupation b);
     source := set_opt (req_source b);
     emailVerified := false;
     verifyToken := None;
     verifyTokenExpires := None;
     createdAt := 0;
     updatedAt := 0 |}.

(** The user [User.create] inserts: the hook has hashed the hash. *)
Definition inserted (c : user) : user :=
  stamp (now e)
    (with_password c (bcrypt_hash (password c) (salt_hook e))).

(** The user a complete registration leaves in the collection. *)
Definition registered (c : user) : user :=
  reissued (now e) (sha256_hex (random_hex e)) (inserted c).

Definition welcome_mails (u : user) : list mail :=
  {| mail_from := or_js (EMAIL_FROM e) (EMAIL_USER e);
     mail_to := email u;
     mail_subject := "Confirm your email — Acceleott";
     mail_html :=
       VerificationEmail (name u)
         (or_else (or_js (FRONTEND_URL e) (APP_BASE_URL e))
                  "http://localhost:5173"
          ++ "/verify/" ++ random_hex e) |}
  :: (if falsy (ADMIN_EMAIL e) then []
      else [{| mail_from := or_js (EMAIL_FROM e) (EMAIL_USER e);
               mail_to := str_of (ADMIN_EMAIL e);
               mail_subject := "New User Registered — " ++ name u;
               mail_html := AdminNotice (name u) (email u) |}]).

Definition me_selectors : list selector :=
  [Minus P_password; Minus P_verifyToken; Minus P_verifyTokenExpires].

End ControllerOutcomes.

Section RouterOutcomes.

Context {K : Crypto}.
Variable e : env.

(** The document [/register] builds with [new User] and the two
    assignments, before it is saved. *)
Definition router_candidate (b : register_body) (w : world) : user :=
  {| _id := fresh_id (users w);
     name := set_name (str_of (req_name b));
     email := set_email (str_of (req_email b));
     password := bcrypt_hash (str_of (req_password b)) (salt_handler e);
     phone := None;
     occupation := None;
     source := None;
     emailVerified := false;
     verifyToken := Some (sha256_hex (random_hex e));
     verifyTokenExpires := Some (now e + day_ms);
     createdAt := 0;
     updatedAt := 0 |}.

Definition router_mail (b : register_body) : mail :=
  {| mail_from := Router.sender e;
     mail_to := str_of (req_email b);
     mail_subject := "Confirm your email — Acceleott";
     mail_html :=
       VerificationEmail (str_of (req_name b))
         (interp (API_BASE_URL e) ++ "/api/auth/verify/" ++ random_hex e) |}.

Definition router_admin_mail (b : register_body) : mail :=
  {| mail_from := Router.sender e;
     mail_to := str_of (ADMIN_EMAIL e);
     mail_subject := "🆕 New User Registered — " ++ str_of (req_name b);
     mail_html := AdminNotice (str_of (req_name b)) (str_of (req_email b)) |}.

Definition router_registered : response :=
  {| status := 201;
     content :=
       Json [("success", JBool true);
             ("message",
              JStr "User registered successfully. Please check your email to verify your account.")];
     cookie := NoCookie |}.

Definition router_success : response :=
  redirect (interp (APP_BASE_URL e) ++ "/verify-success").

Definition router_failed : response :=
  redirect (interp (APP_BASE_URL e) ++ "/verify-failed").

Definition logged_in (u : user) : response :=
  {| status := 200;
     content :=
       Json [("success", JBool true);
             ("message", JStr "Login successful.");
             ("user",
              JObj [("id", JId (_id u)); ("name", JStr (name u));
                    ("email", JStr (email u))])];
     cookie := SetCookie "token" (jwt_sign (_id u) (now e))
                         (session_cookie e) |}.

End RouterOutcomes.

(* ------------------------------------------------------------------ *)
(** ** Concrete inputs *)

(** An environment in which every collaborator answers, at time [t] and with
    [rnd] as the next random token. *)
Definition calm (t : Z) (rnd : string) : env :=
  {| now := t; random_hex := rnd;
     salt_handler := "salt-a"; salt_hook := "salt-b";
     findOne_fails := false; create_fails := false; save_fails := false;
     mail_fails := false; admin_mail_fails := false;
     FRONTEND_URL := Some "https://acceleott.example";
     APP_BASE_URL := Some "https://acceleott.example";
     API_BASE_URL := Some "https://api.acceleott.example";
     ADMIN_EMAIL := None;
     EMAIL_FROM := None;
     EMAIL_USER := Some "noreply@acceleott.example";
     NODE_ENV := Some "production" |}.

(** The same, with a transporter that rejects every mail. *)
Definition mail_down (t : Z) (rnd : string) : env :=
  {| now := t; random_hex := rnd;
     salt_handler := "salt-a"; salt_hook := "salt-b";
     findOne_fails := false; create_fails := false; save_fails := false;
     mail_fails := true; admin_mail_fails := true;
     FRONTEND_URL := Some "https://acceleott.example";
     APP_BASE_URL := Some "https://acceleott.example";
     API_BASE_URL := Some "https://api.acceleott.example";
     ADMIN_EMAIL := None;
     EMAIL_FROM := None;
     EMAIL_USER := Some "noreply@acceleott.example";
     NODE_ENV := Some "production" |}.

(** The registration of the example of the specification. *)
Definition ann_body : register_body :=
  {| req_name := Some "Ann"; req_email := Some "Ann@X.com";
     req_password := Some "secret1";
     req_phone := None; req_occupation := None; req_source := None |}.

Definition ann_login : login_body :=
  {| login_email := Some "ann@x.com"; login_password := Some "secret1" |}.

Definition ann_wrong_login : login_body :=
  {| login_email := Some "ann@x.com"; login_password := Some "letmein" |}.

(** Ann as the controller's registration at time 1000 stores her under the
    reference collaborators, with the token ["aa"] pending. *)
Definition ann_pending : user :=
  {| _id := 1; name := "Ann"; email := "ann@x.com";
     password := "bcrypt(salt-b,bcrypt(salt-a,secret1))";
     phone := None; occupation := None; source := None;
     emailVerified := false;
     verifyToken := Some "sha256(aa)";
     verifyTokenExpires := Some 86401000;
     createdAt := 1000; updatedAt := 1000 |}.

(** Ann once the token ["aa"] was presented at time 2000. *)
Definition ann_verified : user :=
  {| _id := 1; name := "Ann"; email := "ann@x.com";
     password := "bcrypt(salt-b,bcrypt(salt-a,secret1))";
     phone := None; occupation := None; source := None;
     emailVerified := true;
     verifyToken := None;
     verifyTokenExpires := None;
     createdAt := 1000; updatedAt := 2000 |}.

Definition world_pending : world :=
  {| users := [ann_pending]; outbox := [] |}.

Definition world_verified : world :=
  {| users := [ann_verified]; outbox := [] |}.

Definition bob_body : register_body :=
  {| req_name := Some "Bob"; req_email := Some "bob@y.org";
     req_password := Some "hunter22";
     req_phone := None; req_occupation := None; req_source := None |}.

(** Ann as a registration at time 1000 stores her, for any implementation
    of the collaborators. *)
Definition ann_registered {K : Crypto} : user :=
  registered (calm 1000 "aa") (candidate (calm 1000 "aa") ann_body empty_world).

(* ------------------------------------------------------------------ *)
(** ** The properties stated of the handlers *)

(** The keys of the three paths the schema hides. *)
Definition secret_key (k : string) : Prop :=
  k = "password" \/ k = "verifyToken" \/ k = "verifyTokenExpires".

(** Every holder of the digest [h] has an expiry at or before [t]. *)
Definition all_expired (h : string) (t : Z) (us : list user) : Prop :=
  forall u x, In u us -> verifyToken u = Some h ->
              verifyTokenExpires u = Some x -> x <= t.

(** The two token fields of a user are there together or not at all. *)
Definition tokens_paired (u : user) : Prop :=
  verifyToken u = None <-> verifyTokenExpires u = None.

(** A verified user has no token left. *)
Definition verified_clean (u : user) : Prop :=
  emailVerified u = true ->
  verifyToken u = None /\ verifyTokenExpires u = None.

Definition user_ok {K : Crypto} (u : user) : Prop :=
  tokens_paired u /\ verified_clean u /\ normalized (email u) = email u.

Definition store_ok {K : Crypto} (us : list user) : Prop :=
  Forall user_ok us /\ NoDup (map _id us).

Definition holds_digest (h : string) (u : user) : bool :=
  opt_string_eqb (verifyToken u) h.

(** The stored users whose [verifyToken] is the digest [h]. *)
Definition holders (h : string) (us : list user) : list user :=
  filter (holds_digest h) us.

(** Every user of [us] is still there, at the same place and with the same
    [_id], and is verified if it was. *)
Definition kept (us us' : list user) : Prop :=
  forall i u, nth_error us i = Some u ->
    exists u', nth_error us' i = Some u' /\ _id u' = _id u
               /\ (emailVerified u = true -> emailVerified u' = true).

(** Every user of [us'] that [us] did not have is unverified. *)
Definition newcomers_unverified (us us' : list user) : Prop :=
  forall i u', nth_error us' i = Some u' -> nth_error us i = None ->
    emailVerified u' = false.

(** No user of [us] has another [emailVerified] in [us']. *)
Definition flags_unchanged (us us' : list user) : Prop :=
  forall i u u', nth_error us i = Some u -> nth_error us' i = Some u' ->
    emailVerified u' = emailVerified u.

(** The response says that a verification went through. *)
Definition verification_succeeded {K : Crypto} (e : env) (r : request)
    (resp : response) : Prop :=
  match r with
  | VerifyEmail _ => resp = verify_success e
  | RouterVerify _ => resp = router_success e
  | _ => False
  end.

(** One step of a collection; [quiet] is what makes the step leave every
    flag as it is. *)
Definition evolves (quiet : Prop) (us us' : list user) : Prop :=
  kept us us' /\ newcomers_unverified us us'
  /\ (quiet -> flags_unchanged us us').

(** The token the environment is about to draw has a digest nobody holds. *)
Definition fresh_draw {K : Crypto} (e : env) (w : world) : Prop :=
  holders (sha256_hex (random_hex e)) (users w) = [].

(** The worlds reached in turn when every draw is fresh. *)
Inductive reachable_fresh {K : Crypto} : world -> Prop :=
| fresh_empty : reachable_fresh empty_world
| fresh_step : forall w e r,
    reachable_fresh w -> fresh_draw e w ->
    reachable_fresh (snd (handle e r w)).

Definition digests_unique (us : list user) : Prop :=
  forall h, (length (holders h us) <= 1)%nat.

(* ================================================================== *)
(** * The authentication middleware of middleware/auth.js *)
(* ================================================================== *)

(** no byte of [s] is a space *)
Fixpoint no_blank (s : string) : bool :=
  match s with
  | EmptyString => true
  | String c r => negb (Ascii.eqb c " "%char) && no_blank r
  end.

(** [String.prototype.split(" ")]: the segments between single spaces. *)
Fixpoint split_space (s : string) : list string :=
  match s with
  | EmptyString => [EmptyString]
  | String c r =>
      if Ascii.eqb c " "%char then EmptyString :: split_space r
      else
        match split_space r with
        | x :: xs => String c x :: xs
        | [] => [String c EmptyString]
        end
  end.

(** What [jwt.verify(token, process.env.JWT_SECRET)] gives the middleware:
    the decoded payload, or a thrown error, of which the handler reads the
    [name]. *)
Inductive jwt_outcome (P : Type) : Type :=
| Decoded (p : P)
| Thrown (err_name : string).

Arguments Thrown {P} err_name.

(** What the middleware does with a request: it calls [next()] with the
    payload attached as [req.user], or it answers. *)
Inductive gate (P : Type) : Type :=
| Next (user_ : P)
| Respond (r : response).

Arguments Respond {P} r.

Definition deny (code : Z) (m : string) : response :=
  {| status := code;
     content := Json [("success", JBool false); ("message", JStr m)];
     cookie := NoCookie |}.

(** [authHeader.split(" ")[1]] *)
Definition bearer_token (authHeader : string) : jsstring :=
  nth_error (split_space authHeader) 1.

(** [authMiddleware(req, res, next)]; [authHeader] is
    [req.header("Authorization")], [truthy] tells whether a payload is a
    truthy value.  The embedding ends where [next()] is called: what the
    handlers after it throw is theirs. *)
Definition authMiddleware {P : Type}
    (verify : jsstring -> jwt_outcome P) (truthy : P -> bool)
    (authHeader : jsstring) : gate P :=
  if falsy authHeader || negb (String.prefix "Bearer " (str_of authHeader))
  then Respond (deny 401 "Access denied. No token provided.")
  else
    let token := bearer_token (str_of authHeader) in
    match verify token with
    | Decoded decoded =>
        if negb (truthy decoded)
        then Respond (deny 401 "Invalid or expired token.")
        else Next decoded
    | Thrown err_name =>
        if String.eqb err_name "TokenExpiredError"
        then Respond (deny 401 "Session expired. Please log in again.")
        else if String.eqb err_name "JsonWebTokenError"
        then Respond (deny 401 "Invalid token signature.")
        else Respond (deny 500 "Internal server error during authentication.")
    end.

(* ================================================================== *)
(** * models/DemoRequest.js and the route POST /api/demo *)
(* ================================================================== *)

(** A stored demo request.  The three required paths hold a string; the
    designation holds a string or [null] (here [None]). *)
Record demo_request : Type := {
  dr_id : nat;
  dr_name : string;
  dr_email : string;
  dr_contact : string;
  dr_designation : jsstring;
  dr_createdAt : Z;
  dr_updatedAt : Z
}.

(** The validators of [DemoRequestSchema]. *)
Definition validate_demo (r : demo_request) : bool :=
  negb (is_empty (dr_name r)) && (2 <=? strlen (dr_name r))
  && (strlen (dr_name r) <=? 100)
  && negb (is_empty (dr_email r)) && match_email (dr_email r)
  && negb (is_empty (dr_contact r)) && match_phone (dr_contact r)
  && match dr_designation r with
     | None => true
     | Some s => strlen s <=? 100
     end.

(** The [designation] of a request body: missing, [null], or a string. *)
Inductive designation : Type :=
| Missing
| Null
| Given (s : string).

(** [designation || "N/A"] *)
Definition designation_or (d : designation) (b : string) : string :=
  match d with
  | Given s => if is_empty s then b else s
  | _ => b
  end.

(** The body of a demo request.  For the three required fields [None] is
    [undefined] or [null]: the route reads them through [x?.trim()], which
    is [undefined] for both. *)
Record demo_body : Type := {
  demo_name : jsstring;
  demo_email : jsstring;
  demo_contact : jsstring;
  demo_designation : designation
}.

(** The admin notification of a demo request keeps what the template
    interpolates. *)
Record demo_mail : Type := {
  dm_from : string;
  dm_to : string;
  dm_subject : string;
  dm_name : string;
  dm_email : string;
  dm_contact : string;
  dm_designation : string
}.

Record demo_world : Type := {
  demoRequests : list demo_request;
  demo_outbox : list demo_mail
}.

(** [!x?.trim()]: [undefined], empty, or white space only. *)
Definition blank (x : jsstring) : bool :=
  match x with
  | None => true
  | Some s => is_empty (trim s)
  end.

(** The document [DemoRequest.create] builds: the setters of the schema run
    ([trim] everywhere, [lowercase] on the email); a missing designation
    takes the default ["N/A"], and a [null] one stays [null]. *)
Definition new_DemoRequest {K : Crypto} (b : demo_body) (w : demo_world)
  : demo_request :=
  {| dr_id := S (list_max (map dr_id (demoRequests w)));
     dr_name := trim (str_of (demo_name b));
     dr_email := trim (toLowerCase (str_of (demo_email b)));
     dr_contact := trim (str_of (demo_contact b));
     dr_designation :=
       match demo_designation b with
       | Missing => Some "N/A"
       | Null => None
       | Given s => Some (trim s)
       end;
     dr_createdAt := 0;
     dr_updatedAt := 0 |}.

Definition stamp_demo (t : Z) (r : demo_request) : demo_request :=
  {| dr_id := dr_id r; dr_name := dr_name r; dr_email := dr_email r;
     dr_contact := dr_contact r; dr_designation := dr_designation r;
     dr_createdAt := t; dr_updatedAt := t |}.

Definition demo_failed : response :=
  message 500
    "Server error while submitting the demo request. Please try again.".

(** [router.post("/")] of the demo routes.  The body of the [try] is written
    with its state passed along: a rejected validation or insertion, and a
    rejected mail, end in the [catch]. *)
Definition post_demo {K : Crypto} (e : env) (b : demo_body) (w : demo_world)
  : response * demo_world :=
  if blank (demo_name b) || blank (demo_email b) || blank (demo_contact b)
  then (message 400 "Name, email, and contact fields are required.", w)
  else
    let doc := new_DemoRequest b w in
    if negb (validate_demo doc) || create_fails e then (demo_failed, w)
    else
      let w1 := {| demoRequests := demoRequests w ++ [stamp_demo (now e) doc];
                   demo_outbox := demo_outbox w |} in
      if falsy (ADMIN_EMAIL e)
      then (message 201 "Demo request submitted successfully.", w1)
      else
        let w2 :=
          {| demoRequests := demoRequests w1;
             demo_outbox :=
               demo_outbox w1 ++
               [{| dm_from := dquote ++ "Acceleott Automations" ++ dquote
                              ++ " <" ++ interp (EMAIL_USER e) ++ ">";
                   dm_to := str_of (ADMIN_EMAIL e);
                   dm_subject :=
                     "🧩 New Demo Request — " ++ str_of (demo_name b);
                   dm_name := str_of (demo_name b);
                   dm_email := str_of (demo_email b);
                   dm_contact := str_of (demo_contact b);
                   dm_designation :=
                     designation_or (demo_designation b) "N/A" |}] |} in
        if admin_mail_fails e then (demo_failed, w2)
        else (message 201 "Demo request submitted successfully.", w2).

(** The demo worlds reachable from the empty collection. *)
Inductive demo_reachable {K : Crypto} : demo_world -> Prop :=
| demo_empty : demo_reachable {| demoRequests := []; demo_outbox := [] |}
| demo_step : forall w e b,
    demo_reachable w -> demo_reachable (snd (post_demo e b w)).

(* ================================================================== *)
(** * The connection to the database *)
(* ================================================================== *)

(** What [connectDB] does, in order: an attempt to connect (numbered from
    0), the connection, a wait of so many milliseconds before the next
    attempt, the exit of the process. *)
Inductive boot_event : Type :=
| Attempt (n : nat)
| Connected
| Wait (ms : Z)
| Exit (code : Z).

(** [connectWithRetry(retries, delay)] as the attempt number [n];
    [connects n] tells whether that attempt succeeds.  A failed attempt with
    retries left sets a timer of [delay] for the next one, with one retry
    less and the same delay; a failed attempt with none left exits. *)
Fixpoint connectWithRetry (retries : nat) (delay : Z) (n : nat)
    (connects : nat -> bool) : list boot_event :=
  if connects n then [Attempt n; Connected]
  else
    match retries with
    | O => [Attempt n; Exit 1]
    | S r =>
        Attempt n :: Wait delay :: connectWithRetry r delay (S n) connects
    end.

(** [connectDB()], with the defaults [retries = 5, delay = 5000] of the
    source. *)
Definition connectDB (MONGO_URI : jsstring) (connects : nat -> bool)
  : list boot_event :=
  if falsy MONGO_URI then [Exit 1]
  else connectWithRetry 5 5000 0 connects.

(* ================================================================== *)
(** * More properties stated of the handlers *)
(* ================================================================== *)

(** What a request can do to the collection. *)
Inductive step_shape (us : list user) : list user -> Prop :=
| shape_same : step_shape us us
| shape_confirm : forall i t,
    step_shape us (map (on_id i (confirmed t)) us)
| shape_reissue : forall i t d,
    step_shape us (map (on_id i (reissued t d)) us)
| shape_append : forall x, step_shape us (us ++ [x]).

(** The fields of a user no handler assigns after the insertion. *)
Definition same_profile (u u' : user) : Prop :=
  _id u' = _id u /\ name u' = name u /\ email u' = email u
  /\ password u' = password u /\ phone u' = phone u
  /\ occupation u' = occupation u /\ source u' = source u
  /\ createdAt u' = createdAt u.

(** A user the router's login accepts: registered with one hash only. *)
Definition carl : user :=
  {| _id := 7; name := "Carl"; email := "carl@z.net";
     password := "bcrypt(salt-a,opensesame)";
     phone := None; occupation := None; source := None;
     emailVerified := true;
     verifyToken := None; verifyTokenExpires := None;
     createdAt := 10; updatedAt := 20 |}.

Definition carl_login : login_body :=
  {| login_email := Some " Carl@Z.net"; login_password := Some "opensesame" |}.

Definition demo_ok_body : demo_body :=
  {| demo_name := Some " Dana "; demo_email := Some "Dana@Corp.io";
     demo_contact := Some "0123456789"; demo_designation := Missing |}.

Definition demo_nowhere : demo_world :=
  {| demoRequests := []; demo_outbox := [] |}.

(** Text beyond ASCII: the no-break space U+00A0, the ideographic space
    U+3000, and a name of sixty letters of two bytes each. *)
Definition nbsp : string := String "194"%char (String "160"%char "").

Definition wide_space : string :=
  String "227"%char (String "128"%char (String "128"%char "")).

Definition sixty_e : string :=
  "éééééééééééééééééééééééééééééééééééééééééééééééééééééééééééé".

(* ================================================================== *)
(** * Characters and white space *)
(* ================================================================== *)

(** ** The characters of a string *)

Lemma join_chars (s : string) : join (chars s) = s.
Proof.
  induction s as [|c s IH]; cbn [chars]; [reflexivity|].
  destruct (chars s) as [|x xs]; [now subst|].
  destruct (starts_cont x); cbn [join append] in *; now rewrite IH.
Qed.

Lemma chars_head (s : string) :
  starts_cont (hd "" (chars s)) = starts_cont s.
Proof.
  destruct s as [|c s]; cbn [chars]; [reflexivity|].
  destruct (chars s) as [|x xs]; [reflexivity|].
  destruct (starts_cont x); reflexivity.
Qed.

Lemma all_cont_starts (t : string) :
  all_cont t = true -> is_empty t = false -> starts_cont t = true.
Proof.
  destruct t as [|c t]; [discriminate|]. cbn [all_cont starts_cont].
  intros H _. now apply andb_prop in H.
Qed.

Lemma chars_framed (s : string) : framed (chars s) = true.
Proof.
  unfold framed. induction s as [|c s IH]; cbn [chars]; [reflexivity|].
  apply andb_prop in IH. destruct IH as [Hc Hl].
  destruct (chars s) as [|x xs]; [reflexivity|].
  cbn [forallb tl] in Hc, Hl. apply andb_prop in Hc. destruct Hc as [Hx Hxs].
  destruct (starts_cont x) eqn:E; cbn [forallb tl chunk].
  - rewrite Hxs, Hl, !andb_true_r.
    destruct x as [|c' x]; [discriminate|].
    cbn [all_cont starts_cont chunk] in *. now rewrite E, Hx.
  - unfold leads at 1. now rewrite E, Hx, Hxs, Hl.
Qed.

(** Continuation bytes before a character that leads are one more
    character. *)
Lemma chars_tail (t s : string) :
  all_cont t = true -> is_empty t = false ->
  starts_cont s = false ->
  chars (t ++ s) = t :: chars s.
Proof.
  induction t as [|c t IH]; [discriminate|].
  cbn [all_cont]. intros H _ Hs. apply andb_prop in H. destruct H as [Hc Ht].
  cbn [append chars]. destruct t as [|c' t'].
  - cbn [append]. pose proof (chars_head s) as Hh. rewrite Hs in Hh.
    destruct (chars s) as [|x xs]; [reflexivity|].
    cbn [hd] in Hh. now rewrite Hh.
  - rewrite (IH Ht eq_refl Hs).
    now rewrite (all_cont_starts (String c' t') Ht eq_refl).
Qed.

Lemma chars_chunk (x s : string) :
  chunk x = true -> starts_cont s = false ->
  chars (x ++ s) = x :: chars s.
Proof.
  destruct x as [|c t]; [discriminate|]. cbn [chunk]. intros Ht Hs.
  cbn [append chars]. destruct t as [|c' t'].
  - cbn [append]. pose proof (chars_head s) as Hh. rewrite Hs in Hh.
    destruct (chars s) as [|y ys]; [reflexivity|].
    cbn [hd] in Hh. now rewrite Hh.
  - rewrite (chars_tail (String c' t') s Ht eq_refl Hs).
    now rewrite (all_cont_starts (String c' t') Ht eq_refl).
Qed.

Lemma starts_cont_app (x s : string) :
  is_empty x = false -> starts_cont (x ++ s) = starts_cont x.
Proof. destruct x; [discriminate | reflexivity]. Qed.

(** Characters cut by [chars] and put together again are cut the same. *)
Lemma chars_join (l : list string) :
  forallb chunk l = true -> forallb leads (tl l) = true ->
  chars (join l) = l.
Proof.
  induction l as [|x l IH]; [reflexivity|].
  cbn [forallb tl join]. intros Hc Hl.
  apply andb_prop in Hc. destruct Hc as [Hx Hc].
  assert (Hs : starts_cont (join l) = false).
  { destruct l as [|y l']; [reflexivity|].
    cbn [forallb] in Hl, Hc. apply andb_prop in Hl, Hc.
    destruct Hl as [Hy _], Hc as [Hy' _]. cbn [join].
    rewrite starts_cont_app by (now destruct y).
    unfold leads in Hy. now destruct (starts_cont y). }
  rewrite (chars_chunk x (join l) Hx Hs). f_equal. apply IH; [exact Hc|].
  destruct l as [|y l']; [reflexivity|].
  cbn [forallb tl] in *. now apply andb_prop in Hl.
Qed.

Lemma forallb_dropStart (p : string -> bool) (l : list string) :
  forallb p l = true -> forallb p (dropStart l) = true.
Proof.
  induction l as [|x l IH]; cbn [dropStart]; [reflexivity|].
  intros H. destruct (white_space x); [|exact H].
  cbn [forallb] in H. apply andb_prop in H. now apply IH.
Qed.

Lemma forallb_dropEnd (p : string -> bool) (l : list string) :
  forallb p l = true -> forallb p (dropEnd l) = true.
Proof.
  induction l as [|x l IH]; cbn [dropEnd forallb]; [reflexivity|].
  intros H. apply andb_prop in H. destruct H as [Hx Hl].
  specialize (IH Hl). destruct (dropEnd l) as [|y r'].
  - destruct (white_space x); cbn [forallb]; [reflexivity|].
    now rewrite Hx.
  - cbn [forallb] in *. now rewrite Hx, IH.
Qed.

Lemma forallb_tl (p : string -> bool) (l : list string) :
  forallb p l = true -> forallb p (tl l) = true.
Proof.
  destruct l as [|x l]; [reflexivity|]. cbn [forallb tl].
  intros H. now apply andb_prop in H.
Qed.

Lemma tl_dropStart (p : string -> bool) (l : list string) :
  forallb p (tl l) = true -> forallb p (tl (dropStart l)) = true.
Proof.
  induction l as [|x l IH]; cbn [dropStart]; [reflexivity|].
  intros H. destruct (white_space x); [|exact H].
  cbn [tl] in H. apply IH, forallb_tl, H.
Qed.

Lemma tl_dropEnd (p : string -> bool) (l : list string) :
  forallb p (tl l) = true -> forallb p (tl (dropEnd l)) = true.
Proof.
  destruct l as [|x l]; [reflexivity|]. cbn [tl dropEnd]. intros H.
  pose proof (forallb_dropEnd p l H) as H'.
  destruct (dropEnd l) as [|y r']; [|exact H'].
  destruct (white_space x); reflexivity.
Qed.

(** ** [trim] *)

Lemma dropStart_clean (l : list string) :
  starts_clean (dropStart l) = true.
Proof.
  induction l as [|x l IH]; cbn [dropStart]; [reflexivity|].
  destruct (white_space x) eqn:E; [exact IH|].
  cbn [starts_clean]. now rewrite E.
Qed.

Lemma dropStart_fixed (l : list string) :
  starts_clean l = true -> dropStart l = l.
Proof.
  destruct l as [|x l]; [reflexivity|]. cbn [starts_clean dropStart].
  now destruct (white_space x).
Qed.

Lemma dropEnd_clean (l : list string) :
  starts_clean l = true -> starts_clean (dropEnd l) = true.
Proof.
  destruct l as [|x l]; [reflexivity|]. cbn [starts_clean dropEnd].
  intros H. destruct (white_space x) eqn:E; [discriminate|].
  destruct (dropEnd l); cbn [starts_clean]; now rewrite E.
Qed.

Lemma dropEnd_idem (l : list string) : dropEnd (dropEnd l) = dropEnd l.
Proof.
  induction l as [|x l IH]; [reflexivity|]. cbn [dropEnd].
  destruct (dropEnd l) as [|y r'] eqn:E.
  - destruct (white_space x) eqn:Ex; [reflexivity|].
    cbn [dropEnd]. now rewrite Ex.
  - change (dropEnd (x :: y :: r')) with
      (match dropEnd (y :: r') with
       | [] => if white_space x then [] else [x]
       | r0 => x :: r0
       end).
    now rewrite IH.
Qed.

(** What [trim] keeps of the characters of a string are the characters of
    what it returns. *)
Lemma chars_trim (s : string) :
  chars (trim s) = dropEnd (dropStart (chars s)).
Proof.
  unfold trim. pose proof (chars_framed s) as H. unfold framed in H.
  apply andb_prop in H. destruct H as [Hc Hl].
  apply chars_join.
  - apply forallb_dropEnd, forallb_dropStart, Hc.
  - apply tl_dropEnd, tl_dropStart, Hl.
Qed.

Lemma trim_idem (s : string) : trim (trim s) = trim s.
Proof.
  unfold trim at 1. rewrite chars_trim.
  rewrite (dropStart_fixed (dropEnd (dropStart (chars s)))).
  - now rewrite dropEnd_idem.
  - apply dropEnd_clean, dropStart_clean.
Qed.

(** ** Text beyond ASCII *)

Example trim_beyond_ascii :
  trim ("Bob" ++ nbsp) = "Bob"
  /\ trim (wide_space ++ " Zoë " ++ nbsp) = "Zoë"
  /\ trim nbsp = ""
  /\ trim ("a" ++ nbsp ++ "b") = "a" ++ nbsp ++ "b"
  /\ chars "Zoë😀" = ["Z"; "o"; "ë"; "😀"].
Proof. repeat split. Qed.

Example length_beyond_ascii :
  strlen "É" = 1
  /\ strlen "Zoë" = 3
  /\ strlen "😀" = 2
  /\ strlen sixty_e = 60
  /\ String.length sixty_e = 120%nat.
Proof. repeat split. Qed.

Example pattern_beyond_ascii :
  match_email "émile@y.org" = true
  /\ match_email ("a@b.c" ++ nbsp) = false
  /\ match_email "a b@c.d" = false.
Proof. repeat split. Qed.

(* ================================================================== *)
(** * Normalisation of an email *)
(* ================================================================== *)

(** The setter of the schema leaves a normalised email as it is, and
    normalises any other. *)
Lemma set_email_normalized {K : Crypto} (s : string) :
  set_email s = normalized s.
Proof. reflexivity. Qed.

Lemma normalized_idem {K : Crypto} (s : string) :
  normalized (normalized s) = normalized s.
Proof.
  unfold normalized.
  now rewrite <- toLowerCase_trim, trim_idem, toLowerCase_trim,
    toLowerCase_idem.
Qed.

(** The two setters of the email commute: the order in which Mongoose runs
    them does not show. *)
Lemma setters_commute {K : Crypto} (s : string) :
  toLowerCase (trim s) = set_email s.
Proof. apply toLowerCase_trim. Qed.

(** On ASCII text the normalisation is computed letter by letter. *)
Lemma normalized_ascii {K : Crypto} (s : string) :
  is_ascii s = true -> normalized s = trim (ascii_toLowerCase s).
Proof. intros H. unfold normalized. now rewrite toLowerCase_ascii. Qed.

(* ================================================================== *)
(** * The collection as a list *)
(* ================================================================== *)

Lemma find_existsb {A} (f : A -> bool) (l : list A) :
  find f l = None -> existsb f l = false.
Proof.
  induction l as [|a l IH]; simpl; [reflexivity|].
  destruct (f a); [discriminate | exact IH].
Qed.

Lemma fresh_id_above (us : list user) (u : user) :
  In u us -> (_id u < fresh_id us)%nat.
Proof.
  intros H. unfold fresh_id.
  assert (Hle : (list_max (map _id us) <= list_max (map _id us))%nat)
    by lia.
  apply list_max_le in Hle. rewrite Forall_forall in Hle.
  specialize (Hle (_id u) (in_map _id us u H)). lia.
Qed.

Lemma by_id_fresh (us : list user) (u : user) :
  In u us -> by_id (fresh_id us) u = false.
Proof.
  intros H. apply fresh_id_above in H. unfold by_id.
  apply Nat.eqb_neq. lia.
Qed.

Lemma map_id_on {A} (f : A -> A) (l : list A) :
  (forall a, In a l -> f a = a) -> map f l = l.
Proof.
  induction l as [|a l IH]; simpl; intros H; [reflexivity|].
  rewrite H by now left. rewrite IH; [reflexivity|].
  intros b Hb. apply H. now right.
Qed.

(* ================================================================== *)
(** * What each store operation does *)
(* ================================================================== *)

Section StoreFacts.

Context {K : Crypto}.
Variable e : env.

(** The update of a loaded document whose password was not assigned. *)
Lemma save_update (d : document) (w : world) :
  isNew d = false ->
  validate_modified (modified d) (val d) = true ->
  has_path P_password (modified d) = false ->
  existsb (by_id (_id (val d))) (users w) = true ->
  save e d w =
    if save_fails e then (inl StoreFault, w)
    else (inr {| val := val d; selected := selected d;
                 modified := []; isNew := false |},
          {| users := map (replace_by_id e d) (users w);
             outbox := outbox w |}).
Proof.
  intros Hnew Hval Hpw Hex. unfold save, bind, pre_save, ret.
  rewrite Hnew, Hval, Hpw. simpl. rewrite Hnew.
  destruct (save_fails e); [reflexivity|]. now rewrite Hex.
Qed.

(** The insertion of a new document that passes validation, under an
    email no stored user has. *)
Lemma save_insert (d : document) (w : world) :
  isNew d = true ->
  validate (val d) = true ->
  has_path P_password (modified d) = true ->
  existsb (fun u => String.eqb (email u) (email (val d))) (users w)
    = false ->
  save e d w =
    if create_fails e then (inl StoreFault, w)
    else
      let u := stamp (now e)
                 (with_password (val d)
                    (bcrypt_hash (password (val d)) (salt_hook e))) in
      (inr {| val := u; selected := selected d;
              modified := []; isNew := false |},
       {| users := users w ++ [u]; outbox := outbox w |}).
Proof.
  intros Hnew Hval Hpw Hex. unfold save, bind, pre_save, ret.
  rewrite Hnew, Hval, Hpw. simpl.
  destruct (create_fails e); [reflexivity|]. now rewrite Hex.
Qed.

Lemma found_has_id (f : user -> bool) (us : list user) (u : user) :
  find f us = Some u -> existsb (by_id (_id u)) us = true.
Proof.
  intros H. apply find_some in H. apply existsb_exists.
  exists u. split; [tauto|]. unfold by_id. apply Nat.eqb_refl.
Qed.

End StoreFacts.

(* ================================================================== *)
(** * The handlers as equations *)
(* ================================================================== *)

Section Equations.

Context {K : Crypto}.
Variable e : env.

Lemma verifyEmail_eq (token : string) (w : world) :
  Controller.verifyEmail e token w =
    if is_empty token then (text 400 "Invalid verification token.", w)
    else if findOne_fails e
    then (text 500 "Server error during verification.", w)
    else
      match find (by_live_token (sha256_hex token) (now e)) (users w) with
      | None => (link_expired, w)
      | Some u =>
          if save_fails e
          then (text 500 "Server error during verification.", w)
          else (verify_success e,
                set_users w
                  (map (on_id (_id u) (confirmed (now e))) (users w)))
      end.
Proof.
  unfold Controller.verifyEmail, try_catch.
  destruct (is_empty token); [reflexivity|].
  unfold bind at 1. unfold findOne.
  destruct (findOne_fails e); [reflexivity|].
  destruct (find _ (users w)) as [u|] eqn:Hf; [|reflexivity].
  cbn [option_map]. unfold bind.
  rewrite save_update;
    [ | reflexivity | reflexivity | reflexivity
      | exact (found_has_id _ _ Hf) ].
  destruct (save_fails e); [reflexivity|].
  reflexivity.
Qed.

Lemma resendVerification_eq (email_ : jsstring) (w : world) :
  Controller.resendVerification e email_ w =
    if falsy email_ then (message 400 "Email is required.", w)
    else if findOne_fails e
    then (message 500 "Server error during resend.", w)
    else
      match find (by_email (Some (normalized (str_of email_)))) (users w)
      with
      | None => (message 404 "User not found.", w)
      | Some u =>
          if emailVerified u
          then (message 200 "Email already verified.", w)
          else if save_fails e
          then (message 500 "Server error during resend.", w)
          else
            let us :=
              map (on_id (_id u)
                     (reissued (now e) (sha256_hex (random_hex e))))
                  (users w) in
            (if mail_fails e
             then message 500 "Server error during resend."
             else message 200 "Verification email resent successfully.",
             {| users := us;
                outbox := outbox w
                          ++ [resend_mail e
                                (reissued (now e)
                                   (sha256_hex (random_hex e)) u)] |})
      end.
Proof.
  unfold Controller.resendVerification, try_catch.
  destruct (falsy email_); [reflexivity|].
  unfold bind at 1. unfold findOne.
  destruct (findOne_fails e); [reflexivity|].
  fold (normalized (str_of email_)).
  destruct (find _ (users w)) as [u|] eqn:Hf; [|reflexivity].
  cbn [option_map load val].
  destruct (emailVerified u); [reflexivity|].
  unfold bind.
  rewrite save_update;
    [ | reflexivity | reflexivity | reflexivity
      | exact (found_has_id _ _ Hf) ].
  destruct (save_fails e); [reflexivity|].
  unfold sendMail, ret. cbn [users outbox val].
  destruct (mail_fails e); reflexivity.
Qed.

Lemma update_appended (us : list user) (u : user) (f : user -> user) :
  _id u = fresh_id us ->
  map (on_id (fresh_id us) f) (us ++ [u])%list = (us ++ [f u])%list.
Proof.
  intros Hid. rewrite map_app. f_equal.
  - apply map_id_on. intros a Ha. unfold on_id.
    now rewrite (by_id_fresh us a Ha).
  - simpl. unfold on_id, by_id. now rewrite Hid, Nat.eqb_refl.
Qed.

Lemma registerUser_eq (b : register_body) (w : world) :
  Controller.registerUser e b w =
    if falsy (req_name b) || falsy (req_email b) || falsy (req_password b)
    then (message 400 "Name, email, and password are required.", w)
    else if findOne_fails e
    then (message 500 "Server error during registration.", w)
    else
      match find (by_email (Some (normalized (str_of (req_email b)))))
                 (users w)
      with
      | Some _ => (message 400 "User already exists.", w)
      | None =>
          let c := candidate e b w in
          if negb (validate c) || create_fails e
          then (message 500 "Server error during registration.", w)
          else if save_fails e
          then (message 500 "Server error during registration.",
                set_users w (users w ++ [inserted e c])%list)
          else
            (message 201
               "User registered. Please check your email to verify your account.",
             {| users := users w ++ [registered e c];
                outbox := outbox w ++ welcome_mails e (registered e c) |})
      end.
Proof.
  unfold Controller.registerUser, try_catch.
  destruct (falsy (req_name b) || falsy (req_email b)
            || falsy (req_password b)); [reflexivity|].
  unfold bind at 1. unfold findOne.
  destruct (findOne_fails e); [reflexivity|].
  fold (normalized (str_of (req_email b))).
  destruct (find _ (users w)) as [u|] eqn:Hf; [reflexivity|].
  cbn [option_map]. cbv zeta.
  unfold bind at 1. unfold User_create, new_User. unfold bind at 1.
  cbn [nu_name nu_email nu_password nu_phone nu_occupation nu_source].
  fold (candidate e b w).
  destruct (validate (candidate e b w)) eqn:Hval; cbn [negb orb].
  2:{ unfold save. cbn [isNew val]. rewrite Hval. reflexivity. }
  rewrite save_insert;
    [ | reflexivity | exact Hval | reflexivity
      | exact (find_existsb _ _ Hf) ].
  destruct (create_fails e); [reflexivity|].
  cbv zeta. cbn [val]. fold (inserted e (candidate e b w)).
  unfold bind at 1.
  rewrite save_update; [ | reflexivity | reflexivity | reflexivity | ].
  2:{ cbn [val assign_verifyToken assign_verifyTokenExpires with_tokens
           _id users].
      rewrite existsb_app. cbn [existsb]. unfold by_id at 2.
      cbn [inserted stamp with_password _id candidate].
      rewrite Nat.eqb_refl. now rewrite orb_true_r. }
  destruct (save_fails e); [reflexivity|].
  unfold bind, fire, sendMail, ret.
  cbn [users outbox val snd assign_verifyToken assign_verifyTokenExpires
       with_tokens].
  assert (Hus :
    map (replace_by_id e
           (assign_verifyTokenExpires (Some (now e + day_ms))
              (assign_verifyToken (Some (sha256_hex (random_hex e)))
                 {| val := inserted e (candidate e b w);
                    selected := fun _ => true;
                    modified := []; isNew := false |})))
        (users w ++ [inserted e (candidate e b w)])%list
    = (users w ++ [registered e (candidate e b w)])%list).
  { change (map (on_id (fresh_id (users w))
                   (reissued (now e) (sha256_hex (random_hex e))))
                (users w ++ [inserted e (candidate e b w)])%list
            = (users w ++ [registered e (candidate e b w)])%list).
    now rewrite update_appended. }
  rewrite <- Hus. unfold welcome_mails.
  destruct (falsy (ADMIN_EMAIL e)); cbn [snd users outbox];
    rewrite <- ?app_assoc; reflexivity.
Qed.

Lemma loginUser_eq (b : login_body) (w : world) :
  Controller.loginUser e b w =
    if falsy (login_email b) || falsy (login_password b)
    then (message 400 "Email and password required.", w)
    else if findOne_fails e
    then (message 500 "Server error during login.", w)
    else
      match find (by_email (Some (normalized (str_of (login_email b)))))
                 (users w)
      with
      | None => (message 400 "Invalid credentials.", w)
      | Some u =>
          if negb (emailVerified u)
          then (message 403 "Please verify your email to continue.", w)
          else (message 500 "Server error during login.", w)
      end.
Proof.
  unfold Controller.loginUser, try_catch.
  destruct (falsy (login_email b) || falsy (login_password b));
    [reflexivity|].
  unfold bind at 1. unfold findOne.
  destruct (findOne_fails e); [reflexivity|].
  fold (normalized (str_of (login_email b))).
  destruct (find _ (users w)) as [u|]; [|reflexivity].
  cbn [option_map load val].
  destruct (emailVerified u); [|reflexivity].
  cbn [negb]. unfold bind, bcrypt_compare, doc_password.
  cbn [selected projection select_false existsb].
  destruct (login_password b); reflexivity.
Qed.

Lemma getMe_eq (token : jsstring) (w : world) :
  Controller.getMe e token w =
    if falsy token then (message 401 "Not authorized.", w)
    else
      match jwt_verify (str_of token) (now e) with
      | None => (message 500 "Server error.", w)
      | Some i =>
          if findOne_fails e then (message 500 "Server error.", w)
          else
            match find (by_id i) (users w) with
            | None => (message 404 "User not found.", w)
            | Some u =>
                ({| status := 200;
                    content := Json (toJSON (load me_selectors u));
                    cookie := NoCookie |}, w)
            end
      end.
Proof.
  unfold Controller.getMe, try_catch.
  destruct (falsy token); [reflexivity|].
  unfold bind at 1. unfold jwt_decode.
  destruct (jwt_verify (str_of token) (now e)) as [i|]; [|reflexivity].
  unfold ret at 1. unfold bind. unfold findOne.
  destruct (findOne_fails e); [reflexivity|].
  destruct (find _ (users w)) as [u|]; reflexivity.
Qed.

End Equations.

Section RouterEquations.

Context {K : Crypto}.
Variable e : env.

Lemma register_eq (b : register_body) (w : world) :
  Router.register e b w =
    if falsy (req_name b) || falsy (req_email b) || falsy (req_password b)
    then (message 400 "All fields are required.", w)
    else if findOne_fails e
    then (message 500 "Server error during registration.", w)
    else
      match find (by_email (Some (str_of (req_email b)))) (users w) with
      | Some _ => (message 400 "User already exists.", w)
      | None =>
          let c := router_candidate e b w in
          if negb (validate c) || create_fails e
          then (message 500 "Server error during registration.", w)
          else
            let us := (users w ++ [inserted e c])%list in
            if mail_fails e
            then (message 500 "Server error during registration.",
                  {| users := us; outbox := outbox w ++ [router_mail e b] |})
            else if falsy (ADMIN_EMAIL e)
            then (router_registered,
                  {| users := us; outbox := outbox w ++ [router_mail e b] |})
            else
              (if admin_mail_fails e
               then message 500 "Server error during registration."
               else router_registered,
               {| users := us;
                  outbox := outbox w
                            ++ [router_mail e b; router_admin_mail e b] |})
      end.
Proof.
  unfold Router.register, try_catch.
  destruct (falsy (req_name b) || falsy (req_email b)
            || falsy (req_password b)); [reflexivity|].
  unfold bind at 1. unfold findOne.
  destruct (findOne_fails e); [reflexivity|].
  destruct (find _ (users w)) as [u|] eqn:Hf; [reflexivity|].
  cbn [option_map]. cbv zeta.
  unfold bind at 1. unfold new_User.
  cbn [nu_name nu_email nu_password nu_phone nu_occupation nu_source].
  unfold bind at 1.
  destruct (validate (router_candidate e b w)) eqn:Hval; cbn [negb orb].
  2:{ unfold save. cbn [isNew val assign_verifyToken
                        assign_verifyTokenExpires].
      change (with_tokens _ _ _) with (router_candidate e b w).
      rewrite Hval. reflexivity. }
  rewrite save_insert;
    [ | reflexivity | exact Hval | reflexivity
      | exact (find_existsb _ _ Hf) ].
  destruct (create_fails e); [reflexivity|].
  cbv zeta.
  change (val (assign_verifyTokenExpires _ _))
    with (router_candidate e b w).
  unfold bind, sendMail, ret. cbn [users outbox].
  fold (router_mail e b). fold (router_admin_mail e b).
  fold (inserted e (router_candidate e b w)).
  destruct (mail_fails e); [reflexivity|].
  destruct (falsy (ADMIN_EMAIL e)); [reflexivity|].
  cbn [users outbox]. rewrite <- app_assoc.
  destruct (admin_mail_fails e); reflexivity.
Qed.

Lemma verify_eq (token : string) (w : world) :
  Router.verify e token w =
    if findOne_fails e then (router_failed e, w)
    else
      match find (by_live_token (sha256_hex token) (now e)) (users w) with
      | None => (router_failed e, w)
      | Some u =>
          if save_fails e then (router_failed e, w)
          else (router_success e,
                set_users w
                  (map (on_id (_id u) (confirmed (now e))) (users w)))
      end.
Proof.
  unfold Router.verify, try_catch.
  unfold bind at 1. unfold findOne.
  destruct (findOne_fails e); [reflexivity|].
  destruct (find _ (users w)) as [u|] eqn:Hf; [|reflexivity].
  cbn [option_map]. unfold bind.
  rewrite save_update;
    [ | reflexivity | reflexivity | reflexivity
      | exact (found_has_id _ _ Hf) ].
  destruct (save_fails e); reflexivity.
Qed.

Lemma login_eq (b : login_body) (w : world) :
  Router.login e b w =
    if findOne_fails e then (message 500 "Server error during login.", w)
    else
      match find (by_email (login_email b)) (users w) with
      | None => (message 400 "Invalid credentials.", w)
      | Some u =>
          if negb (emailVerified u)
          then (message 403 "Please verify your email first.", w)
          else
            match login_password b with
            | None => (message 500 "Server error during login.", w)
            | Some p =>
                if bcrypt_check p (password u) then (logged_in e u, w)
                else (message 400 "Invalid credentials.", w)
            end
      end.
Proof.
  unfold Router.login, try_catch.
  unfold bind at 1. unfold findOne.
  destruct (findOne_fails e); [reflexivity|].
  destruct (find _ (users w)) as [u|]; [|reflexivity].
  cbn [option_map load val].
  destruct (emailVerified u); [|reflexivity].
  cbn [negb]. unfold bind, bcrypt_compare, doc_password.
  cbn [selected load val projection select_false existsb selects_plus
       path_eqb orb].
  destruct (login_password b) as [p|]; [|reflexivity].
  unfold ret. destruct (bcrypt_check p (password u)); reflexivity.
Qed.

Lemma me_eq (token : jsstring) (w : world) :
  Router.me e token w =
    if falsy token then (message 401 "Not authorized.", w)
    else
      match jwt_verify (str_of token) (now e) with
      | None => (message 401 "Invalid or expired token.", w)
      | Some i =>
          if findOne_fails e
          then (message 401 "Invalid or expired token.", w)
          else
            match find (by_id i) (users w) with
            | None => (message 404 "User not found.", w)
            | Some u =>
                ({| status := 200;
                    content :=
                      Json [("success", JBool true);
                            ("user",
                             JObj (toJSON (load [Minus P_password] u)))];
                    cookie := NoCookie |}, w)
            end
      end.
Proof.
  unfold Router.me, try_catch.
  destruct (falsy token); [reflexivity|].
  unfold bind at 1. unfold jwt_decode.
  destruct (jwt_verify (str_of token) (now e)) as [i|]; [|reflexivity].
  unfold ret at 1. unfold bind. unfold findOne.
  destruct (findOne_fails e); [reflexivity|].
  destruct (find _ (users w)) as [u|]; reflexivity.
Qed.

End RouterEquations.

(* ================================================================== *)
(** * The concrete worlds are reached *)
(* ================================================================== *)

Example world_pending_reached :
  users (snd (run (K := term_crypto)
                [(calm 1000 "aa", RegisterUser ann_body)] empty_world))
  = users world_pending.
Proof. reflexivity. Qed.

Example world_verified_reached :
  users (snd (run (K := term_crypto)
                [(calm 1000 "aa", RegisterUser ann_body);
                 (calm 2000 "", VerifyEmail "aa")] empty_world))
  = users world_verified.
Proof. reflexivity. Qed.

(* ================================================================== *)
(** * Resending to a verified account *)
(* ================================================================== *)

(** C7.  A [resendVerification] whose email resolves to a user that is
    already verified answers 200 "Email already verified.", hands no mail to
    the transporter, and leaves the collection as it was: no token is
    generated, and the stored [verifyToken] and [verifyTokenExpires] of
    every user are unchanged. *)
Theorem resend_on_verified_changes_nothing
    {K : Crypto} (e : env) (email_ : jsstring) (w : world) (u : user) :
  falsy email_ = false ->
  findOne_fails e = false ->
  find (by_email (Some (normalized (str_of email_)))) (users w) = Some u ->
  emailVerified u = true ->
  fst (Controller.resendVerification e email_ w)
    = message 200 "Email already verified."
  /\ outbox (snd (Controller.resendVerification e email_ w)) = outbox w
  /\ users (snd (Controller.resendVerification e email_ w)) = users w
  /\ map verifyToken
       (users (snd (Controller.resendVerification e email_ w)))
     = map verifyToken (users w)
  /\ map verifyTokenExpires
       (users (snd (Controller.resendVerification e email_ w)))
     = map verifyTokenExpires (users w).
Proof.
  intros Hemail Hstore Hfind Hver.
  rewrite resendVerification_eq, Hemail, Hstore, Hfind, Hver.
  simpl. repeat split; reflexivity.
Qed.

Lemma resend_on_verified_changes_nothing_witness :
  fst (Controller.resendVerification (K := term_crypto)
         (calm 5000 "bb") (Some " Ann@X.com ") world_verified)
    = message 200 "Email already verified."
  /\ outbox (snd (Controller.resendVerification (K := term_crypto)
                    (calm 5000 "bb") (Some " Ann@X.com ") world_verified))
     = []
  /\ users (snd (Controller.resendVerification (K := term_crypto)
                   (calm 5000 "bb") (Some " Ann@X.com ") world_verified))
     = [ann_verified].
Proof.
  destruct (@resend_on_verified_changes_nothing term_crypto
              (calm 5000 "bb") (Some " Ann@X.com ") world_verified
              ann_verified)
    as (H1 & H2 & H3 & _); try reflexivity.
  repeat split; assumption.
Defined.

(* ================================================================== *)
(** * What [/me] returns *)
(* ================================================================== *)

Lemma json_field_keys (d : document) (p : path) (k : string) :
  In k (map fst (json_field d p)) -> k = path_name p /\ selected d p = true.
Proof.
  unfold json_field. destruct (selected d p); [|intros []].
  destruct (path_value (val d) p); simpl; [|intros []].
  intros [H|[]]. now split.
Qed.

Lemma toJSON_keys (d : document) (k : string) :
  In k (map fst (toJSON d)) ->
  exists p, k = path_name p /\ selected d p = true.
Proof.
  unfold toJSON. rewrite flat_map_concat_map, concat_map, map_map.
  intros H. apply in_concat in H. destruct H as (l & Hl & Hk).
  apply in_map_iff in Hl. destruct Hl as (p & <- & _).
  exists p. now apply json_field_keys.
Qed.

Lemma secret_key_path (p : path) :
  secret_key (path_name p) -> select_false p = true.
Proof.
  intros [H|[H|H]]; destruct p; simpl in H; try discriminate; reflexivity.
Qed.

(** A query that asks for no hidden path with ["+"] returns none. *)
Lemma unasked_secrets_absent (sel : list selector) (u : user) (k : string) :
  (forall p, existsb (selects_plus p) sel = false) ->
  In k (map fst (toJSON (load sel u))) -> ~ secret_key k.
Proof.
  intros Hsel Hin Hk. apply toJSON_keys in Hin.
  destruct Hin as (p & -> & Hp).
  apply secret_key_path in Hk.
  cbn [load selected] in Hp. unfold projection in Hp.
  rewrite Hk, Hsel in Hp. discriminate.
Qed.

(** C10.  Whatever the stored user, a 200 answer of [getMe], and of the
    router's [/me], is the JSON of a document none of whose keys is
    [password], [verifyToken] or [verifyTokenExpires]. *)
Theorem me_never_returns_secrets
    {K : Crypto} (e : env) (token : jsstring) (w : world) :
  (status (fst (Controller.getMe e token w)) = 200 ->
   exists o, content (fst (Controller.getMe e token w)) = Json o
             /\ forall k, In k (map fst o) -> ~ secret_key k)
  /\
  (status (fst (Router.me e token w)) = 200 ->
   exists o, content (fst (Router.me e token w))
               = Json [("success", JBool true); ("user", JObj o)]
             /\ forall k, In k (map fst o) -> ~ secret_key k).
Proof.
  split.
  - rewrite getMe_eq.
    destruct (falsy token); [discriminate|].
    destruct (jwt_verify (str_of token) (now e)); [|discriminate].
    destruct (findOne_fails e); [discriminate|].
    destruct (find _ (users w)) as [u|]; [|discriminate].
    intros _. eexists. split; [reflexivity|].
    intros k. apply unasked_secrets_absent. now intros [].
  - rewrite me_eq.
    destruct (falsy token); [discriminate|].
    destruct (jwt_verify (str_of token) (now e)); [|discriminate].
    destruct (findOne_fails e); [discriminate|].
    destruct (find _ (users w)) as [u|]; [|discriminate].
    intros _. eexists. split; [reflexivity|].
    intros k. apply unasked_secrets_absent. now intros [].
Qed.

Lemma me_never_returns_secrets_witness :
  status (fst (Controller.getMe (K := term_crypto)
                 (calm 3000 "") (Some "jwt:i") world_pending)) = 200
  /\ exists o,
       content (fst (Controller.getMe (K := term_crypto)
                       (calm 3000 "") (Some "jwt:i") world_pending)) = Json o
       /\ forall k, In k (map fst o) -> ~ secret_key k.
Proof.
  split; [reflexivity|].
  apply (proj1 (me_never_returns_secrets (K := term_crypto)
                  (calm 3000 "") (Some "jwt:i") world_pending)).
  reflexivity.
Defined.

(* ================================================================== *)
(** * Login on an unverified account *)
(* ================================================================== *)

(** C2, as the code has it.  On an existing user that is not verified, both
    logins answer 403 before the password is looked at: the answer is the
    same for the right password and for a wrong one, the world is left as it
    was and no cookie is set.  (The controller first asks for a non-empty
    email and password.) *)
Theorem login_unverified_is_403_whatever_the_password
    {K : Crypto} (e : env) (b : login_body) (w : world) (u : user) :
  findOne_fails e = false ->
  emailVerified u = false ->
  (falsy (login_email b) = false ->
   falsy (login_password b) = false ->
   find (by_email (Some (normalized (str_of (login_email b))))) (users w)
     = Some u ->
   Controller.loginUser e b w
     = (message 403 "Please verify your email to continue.", w))
  /\
  (find (by_email (login_email b)) (users w) = Some u ->
   Router.login e b w = (message 403 "Please verify your email first.", w)).
Proof.
  intros Hstore Hver. split.
  - intros He Hp Hfind.
    rewrite loginUser_eq, He, Hp, Hstore, Hfind, Hver. reflexivity.
  - intros Hfind.
    rewrite login_eq, Hstore, Hfind, Hver. reflexivity.
Qed.

Lemma login_unverified_is_403_witness :
  Controller.loginUser (K := term_crypto) (calm 3000 "") ann_wrong_login
    world_pending
  = (message 403 "Please verify your email to continue.", world_pending)
  /\ Router.login (K := term_crypto) (calm 3000 "") ann_login world_pending
     = (message 403 "Please verify your email first.", world_pending).
Proof.
  split.
  - apply (proj1 (@login_unverified_is_403_whatever_the_password
                    term_crypto (calm 3000 "") ann_wrong_login
                    world_pending ann_pending eq_refl eq_refl));
      reflexivity.
  - apply (proj2 (@login_unverified_is_403_whatever_the_password
                    term_crypto (calm 3000 "") ann_login
                    world_pending ann_pending eq_refl eq_refl));
      reflexivity.
Defined.

(** C2, as the claim has it, fails: Ann is registered and not verified, the
    password ["letmein"] is not hers (bcrypt rejects it against her stored
    hash), and the answer of both logins is 403, not the 400 of invalid
    credentials. *)
Lemma wrong_password_on_unverified_gets_403 :
  find (by_email (K := term_crypto) (Some "ann@x.com"))
    (users world_pending)
    = Some ann_pending
  /\ emailVerified ann_pending = false
  /\ bcrypt_check (Crypto := term_crypto) "letmein" (password ann_pending)
     = false
  /\ status (fst (Controller.loginUser (K := term_crypto) (calm 3000 "")
                    ann_wrong_login world_pending)) = 403
  /\ status (fst (Controller.loginUser (K := term_crypto) (calm 3000 "")
                    ann_wrong_login world_pending)) <> 400
  /\ status (fst (Router.login (K := term_crypto) (calm 3000 "")
                    ann_wrong_login world_pending)) = 403
  /\ status (fst (Router.login (K := term_crypto) (calm 3000 "")
                    ann_wrong_login world_pending)) <> 400.
Proof. repeat split; try reflexivity; discriminate. Qed.

(* ================================================================== *)
(** * Verification needs a live token *)
(* ================================================================== *)

Lemma append_cancel (a b c : string) : a ++ b = a ++ c -> b = c.
Proof.
  induction a as [|x a IH]; simpl; intros H; [exact H|].
  apply IH. now inversion H.
Qed.

Lemma router_pages_differ {K : Crypto} (e : env) :
  router_failed e <> router_success e.
Proof.
  unfold router_failed, router_success, redirect. intros H.
  inversion H as [H1]. apply append_cancel in H1. discriminate.
Qed.

Lemma by_live_token_true (h : string) (t : Z) (u : user) :
  by_live_token h t u = true ->
  verifyToken u = Some h /\
  exists x, verifyTokenExpires u = Some x /\ t < x.
Proof.
  unfold by_live_token, opt_string_eqb. intros H.
  apply andb_true_iff in H. destruct H as [H1 H2].
  destruct (verifyToken u) as [s|]; [|discriminate].
  apply String.eqb_eq in H1. subst s. split; [reflexivity|].
  destruct (verifyTokenExpires u) as [x|]; [|discriminate].
  exists x. split; [reflexivity|]. now apply Z.ltb_lt.
Qed.

Lemma no_live_token (h : string) (t : Z) (us : list user) :
  all_expired h t us -> find (by_live_token h t) us = None.
Proof.
  intros Hall. destruct (find _ us) as [u|] eqn:Hf; [|reflexivity].
  apply find_some in Hf. destruct Hf as [Hin Hlive].
  apply by_live_token_true in Hlive.
  destruct Hlive as (Htok & x & Hx & Hlt).
  specialize (Hall u x Hin Htok Hx). lia.
Qed.

(** C4.  A verification succeeds only if some stored user holds the digest
    of the presented token with an expiry strictly after the time of the
    call; and when every holder of that digest has an expiry at or before
    that time, the call fails (400 from the controller, the failure page
    from the router) and changes nothing, although the digest matches. *)
Theorem verify_needs_a_live_token
    {K : Crypto} (e : env) (token : string) (w : world) :
  (status (fst (Controller.verifyEmail e token w)) = 302 ->
   exists u x, In u (users w)
               /\ verifyToken u = Some (sha256_hex token)
               /\ verifyTokenExpires u = Some x /\ now e < x)
  /\
  (fst (Router.verify e token w) = router_success e ->
   exists u x, In u (users w)
               /\ verifyToken u = Some (sha256_hex token)
               /\ verifyTokenExpires u = Some x /\ now e < x)
  /\
  (findOne_fails e = false ->
   all_expired (sha256_hex token) (now e) (users w) ->
   status (fst (Controller.verifyEmail e token w)) = 400
   /\ (is_empty token = false ->
       fst (Controller.verifyEmail e token w) = link_expired)
   /\ snd (Controller.verifyEmail e token w) = w)
  /\
  (findOne_fails e = false ->
   all_expired (sha256_hex token) (now e) (users w) ->
   Router.verify e token w = (router_failed e, w)).
Proof.
  repeat split.
  - rewrite verifyEmail_eq.
    destruct (is_empty token); [discriminate|].
    destruct (findOne_fails e); [discriminate|].
    destruct (find _ (users w)) as [u|] eqn:Hf; [|discriminate].
    intros _. apply find_some in Hf. destruct Hf as [Hin Hlive].
    apply by_live_token_true in Hlive.
    destruct Hlive as (Htok & x & Hx & Hlt).
    now exists u, x.
  - rewrite verify_eq.
    destruct (findOne_fails e);
      [intros H; now apply router_pages_differ in H|].
    destruct (find _ (users w)) as [u|] eqn:Hf;
      [|intros H; now apply router_pages_differ in H].
    intros _. apply find_some in Hf. destruct Hf as [Hin Hlive].
    apply by_live_token_true in Hlive.
    destruct Hlive as (Htok & x & Hx & Hlt).
    now exists u, x.
  - rewrite verifyEmail_eq, H, (no_live_token H0).
    now destruct (is_empty token).
  - intros Hne. now rewrite verifyEmail_eq, Hne, H, (no_live_token H0).
  - rewrite verifyEmail_eq, H, (no_live_token H0).
    now destruct (is_empty token).
  - intros Hstore Hall. now rewrite verify_eq, Hstore, (no_live_token Hall).
Qed.

(** The token ["aa"] of [ann_pending] expires at 86401000: presented at
    that very instant it is refused, one millisecond earlier it is taken. *)
Lemma verify_needs_a_live_token_witness :
  fst (Controller.verifyEmail (K := term_crypto) (calm 86401000 "") "aa"
         world_pending) = link_expired
  /\ snd (Controller.verifyEmail (K := term_crypto) (calm 86401000 "") "aa"
            world_pending) = world_pending
  /\ exists u x,
       In u (users world_pending)
       /\ verifyToken u = Some (sha256_hex (Crypto := term_crypto) "aa")
       /\ verifyTokenExpires u = Some x /\ 86400999 < x.
Proof.
  pose proof (verify_needs_a_live_token (K := term_crypto)
                (calm 86401000 "") "aa" world_pending) as (_ & _ & H3 & _).
  pose proof (verify_needs_a_live_token (K := term_crypto)
                (calm 86400999 "") "aa" world_pending) as (H1 & _).
  assert (Hexp : all_expired (sha256_hex (Crypto := term_crypto) "aa")
                   86401000 (users world_pending)).
  { intros u x [<-|[]] _ Hx. inversion Hx. lia. }
  destruct (H3 eq_refl Hexp) as (_ & Hb & Hc).
  split; [exact (Hb eq_refl)|]. split; [exact Hc|].
  exact (H1 eq_refl).
Defined.

(* ================================================================== *)
(** * What holds of every reachable collection *)
(* ================================================================== *)

Lemma store_ok_nil {K : Crypto} : store_ok [].
Proof. split; constructor. Qed.

Lemma fresh_id_not_in (us : list user) : ~ In (fresh_id us) (map _id us).
Proof.
  intros H. apply in_map_iff in H. destruct H as (u & Hid & Hin).
  apply fresh_id_above in Hin. lia.
Qed.

Lemma store_ok_app {K : Crypto} (us : list user) (u : user) :
  store_ok us -> user_ok u -> _id u = fresh_id us ->
  store_ok (us ++ [u]).
Proof.
  intros [Hall Hnd] Hu Hid. split.
  - apply Forall_app. split; [exact Hall | now constructor].
  - rewrite map_app. simpl. apply NoDup_app; [exact Hnd | |].
    + constructor; [intros [] | constructor].
    + intros a Ha [<-|[]]. rewrite Hid in Ha.
      now apply fresh_id_not_in in Ha.
Qed.

Lemma same_id_same_user (us : list user) (a b : user) :
  NoDup (map _id us) -> In a us -> In b us -> _id a = _id b -> a = b.
Proof.
  induction us as [|x us IH]; simpl; intros Hnd Ha Hb Hid; [contradiction|].
  inversion Hnd as [|? ? Hx Hnd']; subst.
  destruct Ha as [<-|Ha], Hb as [<-|Hb].
  - reflexivity.
  - exfalso. apply Hx. rewrite Hid. now apply in_map.
  - exfalso. apply Hx. rewrite <- Hid. now apply in_map.
  - now apply IH.
Qed.

Lemma on_id_keeps_ids (i : nat) (f : user -> user) (us : list user) :
  (forall u, _id (f u) = _id u) ->
  map _id (map (on_id i f) us) = map _id us.
Proof.
  intros Hf. rewrite map_map. apply map_ext. intros u. unfold on_id.
  destruct (by_id i u); [apply Hf | reflexivity].
Qed.

Lemma store_ok_on_id {K : Crypto} (i : nat) (f : user -> user) (us : list user) :
  store_ok us ->
  (forall u, _id (f u) = _id u) ->
  (forall u, In u us -> _id u = i -> user_ok (f u)) ->
  store_ok (map (on_id i f) us).
Proof.
  intros [Hall Hnd] Hid Hf. split.
  - rewrite Forall_forall in *. intros v Hv.
    apply in_map_iff in Hv. destruct Hv as (u & <- & Hu).
    unfold on_id. destruct (by_id i u) eqn:Hi; [|now apply Hall].
    apply Hf; [exact Hu|]. unfold by_id in Hi.
    now apply Nat.eqb_eq in Hi.
  - now rewrite on_id_keeps_ids.
Qed.

Lemma confirmed_ok {K : Crypto} (t : Z) (u : user) :
  user_ok u -> user_ok (confirmed t u).
Proof.
  intros (_ & _ & Hn). repeat split; try reflexivity. exact Hn.
Qed.

Lemma reissued_ok {K : Crypto} (t : Z) (h : string) (u : user) :
  user_ok u -> emailVerified u = false -> user_ok (reissued t h u).
Proof.
  intros (_ & _ & Hn) Hv. split; [|split].
  - unfold tokens_paired. simpl. split; discriminate.
  - unfold verified_clean. simpl. rewrite Hv. discriminate.
  - exact Hn.
Qed.

Section Preservation.

Context {K : Crypto}.
Variable e : env.

Lemma inserted_candidate_ok (b : register_body) (w : world) :
  user_ok (inserted e (candidate e b w)).
Proof.
  split; [|split].
  - unfold tokens_paired. simpl. tauto.
  - unfold verified_clean. simpl. discriminate.
  - exact (normalized_idem (normalized (str_of (req_email b)))).
Qed.

Lemma inserted_router_ok (b : register_body) (w : world) :
  user_ok (inserted e (router_candidate e b w)).
Proof.
  split; [|split].
  - unfold tokens_paired. simpl. split; discriminate.
  - unfold verified_clean. simpl. discriminate.
  - exact (normalized_idem (str_of (req_email b))).
Qed.

Lemma verifyEmail_ok (token : string) (w : world) :
  store_ok (users w) ->
  store_ok (users (snd (Controller.verifyEmail e token w))).
Proof.
  intros Hok. rewrite verifyEmail_eq.
  destruct (is_empty token); [exact Hok|].
  destruct (findOne_fails e); [exact Hok|].
  destruct (find _ (users w)) as [u|]; [|exact Hok].
  destruct (save_fails e); [exact Hok|].
  simpl. apply store_ok_on_id; [exact Hok | reflexivity |].
  intros v Hv _. apply confirmed_ok.
  destruct Hok as [Hall _]. rewrite Forall_forall in Hall. now apply Hall.
Qed.

Lemma verify_ok (token : string) (w : world) :
  store_ok (users w) ->
  store_ok (users (snd (Router.verify e token w))).
Proof.
  intros Hok. rewrite verify_eq.
  destruct (findOne_fails e); [exact Hok|].
  destruct (find _ (users w)) as [u|]; [|exact Hok].
  destruct (save_fails e); [exact Hok|].
  simpl. apply store_ok_on_id; [exact Hok | reflexivity |].
  intros v Hv _. apply confirmed_ok.
  destruct Hok as [Hall _]. rewrite Forall_forall in Hall. now apply Hall.
Qed.

Lemma resendVerification_ok (email_ : jsstring) (w : world) :
  store_ok (users w) ->
  store_ok (users (snd (Controller.resendVerification e email_ w))).
Proof.
  intros Hok. rewrite resendVerification_eq.
  destruct (falsy email_); [exact Hok|].
  destruct (findOne_fails e); [exact Hok|].
  destruct (find _ (users w)) as [u|] eqn:Hf; [|exact Hok].
  destruct (emailVerified u) eqn:Hv; [exact Hok|].
  destruct (save_fails e); [exact Hok|].
  simpl. apply store_ok_on_id; [exact Hok | reflexivity |].
  intros v Hin Hid. apply find_some in Hf. destruct Hf as [Hu _].
  assert (v = u) as ->
    by (apply (same_id_same_user (users w)); try assumption; apply Hok).
  apply reissued_ok; [|exact Hv].
  destruct Hok as [Hall _]. rewrite Forall_forall in Hall. now apply Hall.
Qed.

Lemma registerUser_ok (b : register_body) (w : world) :
  store_ok (users w) ->
  store_ok (users (snd (Controller.registerUser e b w))).
Proof.
  intros Hok. rewrite registerUser_eq.
  destruct (falsy (req_name b) || falsy (req_email b)
            || falsy (req_password b)); [exact Hok|].
  destruct (findOne_fails e); [exact Hok|].
  destruct (find _ (users w)) as [u|]; [exact Hok|].
  cbv zeta.
  destruct (negb (validate (candidate e b w)) || create_fails e);
    [exact Hok|].
  destruct (save_fails e); simpl.
  - apply store_ok_app;
      [exact Hok | apply inserted_candidate_ok | reflexivity].
  - apply store_ok_app; [exact Hok | | reflexivity].
    apply reissued_ok; [apply inserted_candidate_ok | reflexivity].
Qed.

Lemma register_ok (b : register_body) (w : world) :
  store_ok (users w) ->
  store_ok (users (snd (Router.register e b w))).
Proof.
  intros Hok. rewrite register_eq.
  destruct (falsy (req_name b) || falsy (req_email b)
            || falsy (req_password b)); [exact Hok|].
  destruct (findOne_fails e); [exact Hok|].
  destruct (find _ (users w)) as [u|]; [exact Hok|].
  cbv zeta.
  destruct (negb (validate (router_candidate e b w)) || create_fails e);
    [exact Hok|].
  assert (Hnew : store_ok (users w ++ [inserted e (router_candidate e b w)]))
    by (apply store_ok_app;
        [exact Hok | apply inserted_router_ok | reflexivity]).
  destruct (mail_fails e); [exact Hnew|].
  destruct (falsy (ADMIN_EMAIL e)); exact Hnew.
Qed.

Lemma loginUser_world (b : login_body) (w : world) :
  snd (Controller.loginUser e b w) = w.
Proof.
  rewrite loginUser_eq.
  destruct (falsy (login_email b) || falsy (login_password b));
    [reflexivity|].
  destruct (findOne_fails e); [reflexivity|].
  destruct (find _ (users w)) as [u|]; [|reflexivity].
  now destruct (negb (emailVerified u)).
Qed.

Lemma login_world (b : login_body) (w : world) :
  snd (Router.login e b w) = w.
Proof.
  rewrite login_eq.
  destruct (findOne_fails e); [reflexivity|].
  destruct (find _ (users w)) as [u|]; [|reflexivity].
  destruct (negb (emailVerified u)); [reflexivity|].
  destruct (login_password b) as [p|]; [|reflexivity].
  now destruct (bcrypt_check p (password u)).
Qed.

Lemma getMe_world (token : jsstring) (w : world) :
  snd (Controller.getMe e token w) = w.
Proof.
  rewrite getMe_eq.
  destruct (falsy token); [reflexivity|].
  destruct (jwt_verify (str_of token) (now e)); [|reflexivity].
  destruct (findOne_fails e); [reflexivity|].
  now destruct (find _ (users w)).
Qed.

Lemma me_world (token : jsstring) (w : world) :
  snd (Router.me e token w) = w.
Proof.
  rewrite me_eq.
  destruct (falsy token); [reflexivity|].
  destruct (jwt_verify (str_of token) (now e)); [|reflexivity].
  destruct (findOne_fails e); [reflexivity|].
  now destruct (find _ (users w)).
Qed.

Lemma handle_ok (r : request) (w : world) :
  store_ok (users w) -> store_ok (users (snd (handle e r w))).
Proof.
  intros Hok. destruct r; simpl.
  - now apply registerUser_ok.
  - now apply verifyEmail_ok.
  - now apply resendVerification_ok.
  - now rewrite loginUser_world.
  - exact Hok.
  - now rewrite getMe_world.
  - now apply register_ok.
  - now apply verify_ok.
  - now rewrite login_world.
  - exact Hok.
  - now rewrite me_world.
Qed.

End Preservation.

Lemma in_turn_store_ok {K : Crypto} (w : world) :
  in_turn w -> store_ok (users w).
Proof.
  induction 1 as [|w e r _ IH]; [apply store_ok_nil | now apply handle_ok].
Qed.

Lemma in_turn_reachable {K : Crypto} (w : world) :
  in_turn w -> reachable w.
Proof. induction 1; [apply reach_empty | now apply reach_step]. Qed.

(** Served one after the other, the requests of the controller and of the
    router keep, under any environments (faults of the store and of the
    transporter included), [verifyToken] and [verifyTokenExpires] of each
    user both present or both absent, and those of each verified user
    absent.  (Two requests served at once, further down, break the second
    half.) *)
Lemma in_turn_tokens_paired_and_cleared {K : Crypto} (w : world) :
  in_turn w ->
  Forall (fun u => tokens_paired u /\ verified_clean u) (users w).
Proof.
  intros Hr. apply in_turn_store_ok in Hr. destruct Hr as [Hall _].
  eapply Forall_impl; [|exact Hall]. intros u (Hp & Hc & _). now split.
Qed.

Example in_turn_tokens_paired_and_cleared_run :
  Forall (fun u => tokens_paired u /\ verified_clean u)
    (users (snd (handle (K := term_crypto) (calm 2000 "") (VerifyEmail "aa")
                   (snd (handle (K := term_crypto) (calm 1000 "aa")
                           (RegisterUser ann_body) empty_world))))).
Proof.
  apply (@in_turn_tokens_paired_and_cleared term_crypto).
  apply turn_step. apply turn_step. apply turn_empty.
Qed.

(* ================================================================== *)
(** * Registering an email twice *)
(* ================================================================== *)

Lemma find_hit {A} (f : A -> bool) (l : list A) (a : A) :
  In a l -> f a = true -> exists b, find f l = Some b.
Proof.
  intros Hin Hf. destruct (find f l) as [b|] eqn:E; [now exists b|].
  pose proof (find_none f l E a Hin) as Hn. congruence.
Qed.

(** C5.  A registration whose email equals that of a stored user once both
    are trimmed and put in lower case is answered 400 "User already exists."
    by the controller and by the router, and the world is left as it was:
    no user is added, no mail is sent.  The stored email is as the handlers
    insert every email, trimmed and in lower case ([inserted_candidate_ok],
    [inserted_router_ok]; no handler assigns an email later, so this holds
    of every reachable world).  Letters of any alphabet and the white space
    of Unicode are covered, the case of a letter being the engine's. *)
Theorem duplicate_registration_is_refused
    {K : Crypto} (e : env) (b : register_body) (w : world) (u : user) :
  In u (users w) ->
  normalized (email u) = email u ->
  normalized (email u) = normalized (str_of (req_email b)) ->
  falsy (req_name b) = false ->
  falsy (req_email b) = false ->
  falsy (req_password b) = false ->
  findOne_fails e = false ->
  Controller.registerUser e b w = (message 400 "User already exists.", w)
  /\ Router.register e b w = (message 400 "User already exists.", w).
Proof.
  intros Hin Hnorm Hsame Hn He Hp Hstore.
  rewrite Hnorm in Hsame. split.
  - rewrite registerUser_eq, Hn, He, Hp, Hstore. simpl.
    destruct (find_hit (by_email (Some (normalized (str_of (req_email b)))))
                (users w) u Hin) as [v ->]; [|reflexivity].
    unfold by_email. rewrite set_email_normalized, normalized_idem, Hsame.
    apply String.eqb_refl.
  - rewrite register_eq, Hn, He, Hp, Hstore. simpl.
    destruct (find_hit (by_email (Some (str_of (req_email b))))
                (users w) u Hin) as [v ->]; [|reflexivity].
    unfold by_email. rewrite set_email_normalized, Hsame.
    apply String.eqb_refl.
Qed.

Lemma duplicate_registration_is_refused_witness :
  let w := snd (handle (K := term_crypto) (calm 1000 "aa")
                  (RegisterUser ann_body) empty_world) in
  let again :=
    {| req_name := Some "Ann B."; req_email := Some "  ANN@x.COM ";
       req_password := Some "another"; req_phone := None;
       req_occupation := None; req_source := None |} in
  Controller.registerUser (K := term_crypto) (calm 9000 "cc") again w
    = (message 400 "User already exists.", w)
  /\ Router.register (K := term_crypto) (calm 9000 "cc") again w
     = (message 400 "User already exists.", w).
Proof.
  intros w again.
  apply (@duplicate_registration_is_refused term_crypto (calm 9000 "cc")
           again w ann_pending).
  - left. reflexivity.
  - reflexivity.
  - reflexivity.
  - reflexivity.
  - reflexivity.
  - reflexivity.
  - reflexivity.
Defined.

(** An email that differs from a stored one by the case of a letter outside
    ASCII, on any engine that lowers that letter. *)
Example emile_is_a_duplicate {K : Crypto} (e : env) (w : world) (u : user) :
  toLowerCase "ÉMILE@Y.org" = "émile@y.org" ->
  toLowerCase "émile@y.org" = "émile@y.org" ->
  findOne_fails e = false ->
  In u (users w) -> email u = "émile@y.org" ->
  Controller.registerUser e
    {| req_name := Some "Émile"; req_email := Some "ÉMILE@Y.org";
       req_password := Some "secret1"; req_phone := None;
       req_occupation := None; req_source := None |} w
  = (message 400 "User already exists.", w).
Proof.
  intros Hup Hlow Hstore Hin Hmail.
  rewrite registerUser_eq, Hstore. cbn [falsy is_empty orb str_of req_email].
  unfold normalized. rewrite Hup.
  destruct (find_hit (by_email (Some (trim "émile@y.org"))) (users w) u Hin)
    as [v ->]; [|reflexivity].
  unfold by_email, set_email. rewrite Hmail.
  change (trim "émile@y.org") with "émile@y.org". rewrite Hlow.
  reflexivity.
Qed.

(* ================================================================== *)
(** * A token is used once *)
(* ================================================================== *)

Lemma two_in_filter {A} (f : A -> bool) (l : list A) (a b : A) :
  In a l -> In b l -> a <> b -> f a = true -> f b = true ->
  (2 <= length (filter f l))%nat.
Proof.
  induction l as [|x l IH]; simpl; intros Ha Hb Hab Hfa Hfb;
    [contradiction|].
  destruct Ha as [->|Ha], Hb as [->|Hb].
  - now contradiction Hab.
  - rewrite Hfa. simpl.
    assert (In b (filter f l)) as Hin by (apply filter_In; now split).
    destruct (filter f l); [contradiction | simpl; lia].
  - rewrite Hfb. simpl.
    assert (In a (filter f l)) as Hin by (apply filter_In; now split).
    destruct (filter f l); [contradiction | simpl; lia].
  - specialize (IH Ha Hb Hab Hfa Hfb).
    destruct (f x); simpl; lia.
Qed.

Lemma live_token_holds (h : string) (t : Z) (u : user) :
  by_live_token h t u = true -> holds_digest h u = true.
Proof.
  unfold by_live_token, holds_digest. intros H.
  now apply andb_true_iff in H.
Qed.

(** Once the one holder of a digest is confirmed, nobody holds it. *)
Lemma confirmed_clears_digest (h : string) (t : Z) (us : list user)
    (u : user) :
  (length (holders h us) <= 1)%nat ->
  In u us -> holds_digest h u = true ->
  holders h (map (on_id (_id u) (confirmed t)) us) = [].
Proof.
  intros Hone Hin Hu.
  destruct (holders h (map (on_id (_id u) (confirmed t)) us))
    as [|v rest] eqn:E; [reflexivity|].
  exfalso.
  assert (Hv : In v (holders h (map (on_id (_id u) (confirmed t)) us)))
    by (rewrite E; now left).
  apply filter_In in Hv. destruct Hv as [Hv Hhold].
  apply in_map_iff in Hv. destruct Hv as (v0 & Hv0 & Hin0).
  unfold on_id in Hv0. destruct (by_id (_id u) v0) eqn:Hid.
  - subst v. discriminate.
  - subst v.
    assert (v0 <> u) as Hne.
    { intros ->. unfold by_id in Hid. now rewrite Nat.eqb_refl in Hid. }
    pose proof (two_in_filter (holds_digest h) us Hin0 Hin Hne Hhold Hu)
      as H2.
    unfold holders in Hone. lia.
Qed.

(** C3.  When at most one stored user holds the digest of a token (as is
    the case unless two random tokens collide), a verification with that
    token that succeeds leaves nobody holding the digest, and any later
    verification with the same token, at any time, does not succeed: it is
    answered 400 "Invalid or expired verification link." and changes
    nothing. *)
Theorem token_is_single_use
    {K : Crypto} (e1 e2 : env) (token : string) (w : world) :
  (length (holders (sha256_hex token) (users w)) <= 1)%nat ->
  status (fst (Controller.verifyEmail e1 token w)) = 302 ->
  let w1 := snd (Controller.verifyEmail e1 token w) in
  holders (sha256_hex token) (users w1) = []
  /\ status (fst (Controller.verifyEmail e2 token w1)) <> 302
  /\ snd (Controller.verifyEmail e2 token w1) = w1
  /\ (findOne_fails e2 = false ->
      fst (Controller.verifyEmail e2 token w1) = link_expired).
Proof.
  intros Hone Hfirst w1. subst w1. revert Hfirst.
  rewrite (verifyEmail_eq e1).
  destruct (is_empty token) eqn:Hne; [discriminate|].
  destruct (findOne_fails e1); [discriminate|].
  destruct (find _ (users w)) as [u|] eqn:Hf; [|discriminate].
  destruct (save_fails e1); [discriminate|].
  intros _. cbn [snd].
  apply find_some in Hf. destruct Hf as [Hin Hlive].
  apply live_token_holds in Hlive.
  pose proof (confirmed_clears_digest (sha256_hex token) (now e1)
                (users w) u Hone Hin Hlive) as Hclear.
  assert (Hnone : find (by_live_token (sha256_hex token) (now e2))
                    (users (set_users w
                              (map (on_id (_id u) (confirmed (now e1)))
                                   (users w)))) = None).
  { cbn [set_users users].
    destruct (find _ _) as [v|] eqn:Hv; [|reflexivity].
    apply find_some in Hv. destruct Hv as [Hvin Hvlive].
    apply live_token_holds in Hvlive.
    assert (In v (holders (sha256_hex token)
                    (map (on_id (_id u) (confirmed (now e1))) (users w))))
      as Habs by (apply filter_In; now split).
    rewrite Hclear in Habs. contradiction. }
  split; [exact Hclear|].
  rewrite (verifyEmail_eq e2), Hne, Hnone.
  destruct (findOne_fails e2); repeat split; try reflexivity;
    try discriminate.
Qed.

Lemma token_is_single_use_witness :
  let w1 := snd (Controller.verifyEmail (K := term_crypto) (calm 2000 "")
                   "aa" world_pending) in
  holders (sha256_hex (Crypto := term_crypto) "aa") (users w1) = []
  /\ status (fst (Controller.verifyEmail (K := term_crypto) (calm 2500 "")
                    "aa" w1)) <> 302
  /\ snd (Controller.verifyEmail (K := term_crypto) (calm 2500 "") "aa" w1)
     = w1
  /\ (findOne_fails (calm 2500 "") = false ->
      fst (Controller.verifyEmail (K := term_crypto) (calm 2500 "") "aa" w1)
      = link_expired).
Proof.
  apply (@token_is_single_use term_crypto (calm 2000 "") (calm 2500 "")
           "aa" world_pending).
  - simpl. lia.
  - reflexivity.
Defined.

(* ================================================================== *)
(** * A mail that cannot be sent *)
(* ================================================================== *)

(** C6, as the code has it.  [registerUser] does not wait for its mails: a
    registration that passes validation and reaches the store answers 201
    and leaves the new user in the collection whatever the transporter
    does.  [resendVerification] awaits its mail: when the transporter
    rejects it the answer is 500 "Server error during resend.", and the
    token and expiry written before stay in the collection. *)
Theorem mail_failure_by_handler
    {K : Crypto} (e : env) (w : world) :
  (forall b,
     falsy (req_name b) = false -> falsy (req_email b) = false ->
     falsy (req_password b) = false ->
     findOne_fails e = false -> create_fails e = false ->
     save_fails e = false ->
     find (by_email (Some (normalized (str_of (req_email b))))) (users w)
       = None ->
     validate (candidate e b w) = true ->
     fst (Controller.registerUser e b w)
       = message 201
           "User registered. Please check your email to verify your account."
     /\ users (snd (Controller.registerUser e b w))
        = (users w ++ [registered e (candidate e b w)])%list)
  /\
  (forall email_ u,
     falsy email_ = false ->
     findOne_fails e = false -> save_fails e = false ->
     find (by_email (Some (normalized (str_of email_)))) (users w) = Some u ->
     emailVerified u = false ->
     mail_fails e = true ->
     fst (Controller.resendVerification e email_ w)
       = message 500 "Server error during resend."
     /\ users (snd (Controller.resendVerification e email_ w))
        = map (on_id (_id u)
                 (reissued (now e) (sha256_hex (random_hex e))))
              (users w)).
Proof.
  split.
  - intros b Hn He Hp Hstore Hcreate Hsave Hfind Hval.
    rewrite registerUser_eq, Hn, He, Hp, Hstore, Hfind. cbv zeta.
    rewrite Hval, Hcreate, Hsave. simpl. now split.
  - intros email_ u He Hstore Hsave Hfind Hver Hmail.
    rewrite resendVerification_eq, He, Hstore, Hfind, Hver, Hsave.
    cbv zeta. rewrite Hmail. now split.
Qed.

Lemma mail_failure_by_handler_witness :
  status (fst (Controller.registerUser (K := term_crypto)
                 (mail_down 4000 "bb") bob_body world_pending)) = 201
  /\ length (users (snd (Controller.registerUser (K := term_crypto)
                           (mail_down 4000 "bb") bob_body world_pending)))
     = 2%nat
  /\ status (fst (Controller.resendVerification (K := term_crypto)
                    (mail_down 4000 "bb") (Some "ann@x.com") world_pending))
     = 500
  /\ map verifyToken
       (users (snd (Controller.resendVerification (K := term_crypto)
                      (mail_down 4000 "bb") (Some "ann@x.com")
                      world_pending)))
     = [Some "sha256(bb)"].
Proof.
  destruct (@mail_failure_by_handler term_crypto (mail_down 4000 "bb")
              world_pending) as (H1 & H2).
  destruct (H1 bob_body) as [Ha Hb]; try reflexivity.
  destruct (H2 (Some "ann@x.com") ann_pending) as [Hc Hd];
    try reflexivity.
  rewrite Ha, Hb, Hc, Hd. repeat split; reflexivity.
Defined.

(** The router's [/register] awaits its mails too: when the transporter
    rejects the user's mail the answer is 500, and the user inserted before
    stays in the collection. *)
Lemma router_register_awaits_mail
    {K : Crypto} (e : env) (b : register_body) (w : world) :
  falsy (req_name b) = false -> falsy (req_email b) = false ->
  falsy (req_password b) = false ->
  findOne_fails e = false -> create_fails e = false ->
  find (by_email (Some (str_of (req_email b)))) (users w) = None ->
  validate (router_candidate e b w) = true ->
  mail_fails e = true ->
  fst (Router.register e b w)
    = message 500 "Server error during registration."
  /\ users (snd (Router.register e b w))
     = (users w ++ [inserted e (router_candidate e b w)])%list.
Proof.
  intros Hn He Hp Hstore Hcreate Hfind Hval Hmail.
  rewrite register_eq, Hn, He, Hp, Hstore, Hfind. cbv zeta.
  rewrite Hval, Hcreate, Hmail. simpl. now split.
Qed.

(** C6, as the claim has it, fails for [resendVerification]: Ann is
    pending, the store takes the new token, the transporter rejects the
    mail, and the request is answered 500 although the same request with a
    working transporter is answered 200; the new digest stays stored. *)
Lemma resend_surfaces_mail_failure :
  status (fst (Controller.resendVerification (K := term_crypto)
                 (calm 4000 "bb") (Some "ann@x.com") world_pending)) = 200
  /\ fst (Controller.resendVerification (K := term_crypto)
            (mail_down 4000 "bb") (Some "ann@x.com") world_pending)
     = message 500 "Server error during resend."
  /\ users (snd (Controller.resendVerification (K := term_crypto)
                   (mail_down 4000 "bb") (Some "ann@x.com") world_pending))
     = users (snd (Controller.resendVerification (K := term_crypto)
                     (calm 4000 "bb") (Some "ann@x.com") world_pending))
  /\ map verifyToken
       (users (snd (Controller.resendVerification (K := term_crypto)
                      (mail_down 4000 "bb") (Some "ann@x.com")
                      world_pending)))
     = [Some "sha256(bb)"].
Proof. repeat split; reflexivity. Qed.

(* ================================================================== *)
(** * [emailVerified] only goes up *)
(* ================================================================== *)

Lemma kept_refl (us : list user) : kept us us.
Proof. intros i u H. exists u. auto. Qed.

Lemma kept_trans (a b c : list user) : kept a b -> kept b c -> kept a c.
Proof.
  intros Hab Hbc i u Hu.
  destruct (Hab i u Hu) as (v & Hv & Hid & Hmono).
  destruct (Hbc i v Hv) as (x & Hx & Hid' & Hmono').
  exists x. repeat split; [exact Hx | congruence | auto].
Qed.

Lemma evolves_refl (quiet : Prop) (us : list user) : evolves quiet us us.
Proof.
  split; [apply kept_refl|]. split.
  - intros i u' H1 H2. congruence.
  - intros _ i u u' H1 H2. congruence.
Qed.

Lemma evolves_on_id (quiet : Prop) (i : nat) (f : user -> user)
    (us : list user) :
  (forall u, _id (f u) = _id u) ->
  (forall u, emailVerified u = true -> emailVerified (f u) = true) ->
  (quiet -> forall u, emailVerified (f u) = emailVerified u) ->
  evolves quiet us (map (on_id i f) us).
Proof.
  intros Hid Hmono Hquiet. split; [|split].
  - intros n u Hu. exists (on_id i f u).
    rewrite nth_error_map, Hu. split; [reflexivity|].
    unfold on_id. destruct (by_id i u); auto.
  - intros n u' Hu' Hnone. rewrite nth_error_map, Hnone in Hu'.
    discriminate.
  - intros Hq n u u' Hu Hu'. rewrite nth_error_map, Hu in Hu'.
    inversion Hu'. unfold on_id. destruct (by_id i u); auto.
Qed.

Lemma evolves_app (quiet : Prop) (us : list user) (x : user) :
  emailVerified x = false -> evolves quiet us (us ++ [x]).
Proof.
  intros Hx. split; [|split].
  - intros n u Hu. exists u. split; [|auto].
    rewrite nth_error_app1; [exact Hu|].
    apply nth_error_Some. congruence.
  - intros n u' Hu' Hnone. apply nth_error_None in Hnone.
    rewrite nth_error_app2 in Hu' by exact Hnone.
    destruct (n - length us)%nat as [|k]; simpl in Hu'.
    + inversion Hu'; subst; exact Hx.
    + destruct k; discriminate.
  - intros _ n u u' Hu Hu'.
    rewrite nth_error_app1 in Hu' by (apply nth_error_Some; congruence).
    congruence.
Qed.

Section Monotone.

Context {K : Crypto}.
Variable e : env.

Lemma verify_pages_differ :
  verify_success e <> text 500 "Server error during verification."
  /\ verify_success e <> link_expired
  /\ verify_success e <> text 400 "Invalid verification token.".
Proof. repeat split; discriminate. Qed.

Lemma handle_evolves (r : request) (w : world) :
  evolves (~ verification_succeeded e r (fst (handle e r w)))
    (users w) (users (snd (handle e r w))).
Proof.
  destruct r as [b|token|email_|b| |token|b|token|b| |token]; simpl.
  - rewrite registerUser_eq.
    destruct (falsy (req_name b) || falsy (req_email b)
              || falsy (req_password b)); [apply evolves_refl|].
    destruct (findOne_fails e); [apply evolves_refl|].
    destruct (find _ (users w)); [apply evolves_refl|].
    cbv zeta.
    destruct (negb (validate (candidate e b w)) || create_fails e);
      [apply evolves_refl|].
    destruct (save_fails e); simpl; now apply evolves_app.
  - rewrite verifyEmail_eq.
    destruct (is_empty token); [apply evolves_refl|].
    destruct (findOne_fails e); [apply evolves_refl|].
    destruct (find _ (users w)) as [u|]; [|apply evolves_refl].
    destruct (save_fails e); [apply evolves_refl|].
    simpl. apply evolves_on_id; [reflexivity | reflexivity |].
    intros Hq. now contradiction Hq.
  - rewrite resendVerification_eq.
    destruct (falsy email_); [apply evolves_refl|].
    destruct (findOne_fails e); [apply evolves_refl|].
    destruct (find _ (users w)) as [u|]; [|apply evolves_refl].
    destruct (emailVerified u); [apply evolves_refl|].
    destruct (save_fails e); [apply evolves_refl|].
    simpl. apply evolves_on_id; [reflexivity | auto | reflexivity].
  - rewrite loginUser_world. apply evolves_refl.
  - apply evolves_refl.
  - rewrite getMe_world. apply evolves_refl.
  - rewrite register_eq.
    destruct (falsy (req_name b) || falsy (req_email b)
              || falsy (req_password b)); [apply evolves_refl|].
    destruct (findOne_fails e); [apply evolves_refl|].
    destruct (find _ (users w)); [apply evolves_refl|].
    cbv zeta.
    destruct (negb (validate (router_candidate e b w)) || create_fails e);
      [apply evolves_refl|].
    destruct (mail_fails e); [now apply evolves_app|].
    destruct (falsy (ADMIN_EMAIL e)); now apply evolves_app.
  - rewrite verify_eq.
    destruct (findOne_fails e); [apply evolves_refl|].
    destruct (find _ (users w)) as [u|]; [|apply evolves_refl].
    destruct (save_fails e); [apply evolves_refl|].
    simpl. apply evolves_on_id; [reflexivity | reflexivity |].
    intros Hq. now contradiction Hq.
  - rewrite login_world. apply evolves_refl.
  - apply evolves_refl.
  - rewrite me_world. apply evolves_refl.
Qed.

End Monotone.

Lemma run_kept {K : Crypto} (rs : list (env * request)) (w : world) :
  kept (users w) (users (snd (run rs w))).
Proof.
  revert w. induction rs as [|[e r] rs IH]; intros w; simpl;
    [apply kept_refl|].
  destruct (handle e r w) as [resp w1] eqn:Hh.
  specialize (IH w1). destruct (run rs w1) as [resps w2]. simpl in *.
  apply kept_trans with (b := users w1); [|exact IH].
  pose proof (handle_evolves e r w) as (Hk & _). now rewrite Hh in Hk.
Qed.

(** C9.  A user enters the collection unverified; in one request no user
    leaves, none changes its [_id], none goes from verified to unverified,
    and a flag changes only when the request is a verification and the
    answer is its success page; and over any sequence of requests a user
    that is verified stays verified. *)
Theorem emailVerified_is_monotone {K : Crypto} :
  (forall e r w,
     newcomers_unverified (users w) (users (snd (handle e r w)))
     /\ kept (users w) (users (snd (handle e r w)))
     /\ (~ verification_succeeded e r (fst (handle e r w)) ->
         flags_unchanged (users w) (users (snd (handle e r w)))))
  /\ (forall rs w, kept (users w) (users (snd (run rs w)))).
Proof.
  split.
  - intros e r w. destruct (handle_evolves e r w) as (Hk & Hn & Hq).
    repeat split; assumption.
  - apply run_kept.
Qed.

(* ================================================================== *)
(** * Register, verify, log in *)
(* ================================================================== *)

(** The controller's login never answers 200 and never sets a cookie: the
    query it runs leaves [password] out, as the schema asks, so that
    [bcrypt.compare] is given [undefined] and rejects. *)
Lemma loginUser_never_succeeds {K : Crypto} (e : env) (b : login_body)
    (w : world) :
  status (fst (Controller.loginUser e b w)) <> 200
  /\ cookie (fst (Controller.loginUser e b w)) = NoCookie.
Proof.
  rewrite loginUser_eq.
  destruct (falsy (login_email b) || falsy (login_password b));
    [split; [discriminate | reflexivity]|].
  destruct (findOne_fails e); [split; [discriminate | reflexivity]|].
  destruct (find _ (users w)) as [u|];
    [|split; [discriminate | reflexivity]].
  destruct (negb (emailVerified u)); split; try discriminate; reflexivity.
Qed.

(** The password a registration stores is the hash of the hash: the
    handler hashes, and the hook of the schema hashes what it is given. *)
Lemma registration_hashes_twice {K : Crypto} (e : env) (b : register_body)
    (w : world) :
  password (registered e (candidate e b w))
  = bcrypt_hash (bcrypt_hash (str_of (req_password b)) (salt_handler e))
      (salt_hook e)
  /\ password (inserted e (router_candidate e b w))
     = bcrypt_hash (bcrypt_hash (str_of (req_password b)) (salt_handler e))
         (salt_hook e).
Proof. split; reflexivity. Qed.

Lemma long_enough (s : string) :
  6 <= strlen s -> negb (is_empty s) && (6 <=? strlen s) = true.
Proof.
  intros H. destruct s; [unfold strlen in H; simpl in H; lia|].
  simpl. now apply Z.leb_le.
Qed.

(** Ann's email is ASCII: every engine lowers it the same. *)
Lemma ann_email_normalized {K : Crypto} : normalized "Ann@X.com" = "ann@x.com".
Proof. now rewrite normalized_ascii. Qed.

Lemma ann_email_fixed {K : Crypto} : normalized "ann@x.com" = "ann@x.com".
Proof. now rewrite normalized_ascii. Qed.

Lemma ann_candidate_email {K : Crypto} (e : env) (w : world) :
  email (candidate e ann_body w) = "ann@x.com".
Proof.
  change (email (candidate e ann_body w))
    with (normalized (normalized "Ann@X.com")).
  now rewrite ann_email_normalized, ann_email_fixed.
Qed.

Lemma ann_is_valid {K : Crypto} (t : Z) (rnd : string) (w : world) :
  validate (candidate (calm t rnd) ann_body w) = true.
Proof.
  unfold validate. rewrite ann_candidate_email.
  change (name (candidate (calm t rnd) ann_body w)) with "Ann".
  change (phone (candidate (calm t rnd) ann_body w)) with (@None string).
  change (occupation (candidate (calm t rnd) ann_body w))
    with (@None string).
  change (source (candidate (calm t rnd) ann_body w)) with (@None string).
  change (password (candidate (calm t rnd) ann_body w))
    with (bcrypt_hash "secret1" "salt-a").
  pose proof (long_enough _ (bcrypt_hash_long "secret1" "salt-a")) as H.
  apply andb_true_iff in H. destruct H as [H1 H2].
  rewrite H1, H2. reflexivity.
Qed.

(** C1 fails on the code.  For every implementation of the collaborators:
    Ann registers (201), presents her token (302, the success page) and is
    then verified with her token fields cleared; her login with the
    normalised email and the password she registered with is answered 500
    "Server error during login." and sets no cookie.  No login of the
    controller is ever answered 200. *)
Theorem registered_verified_user_cannot_log_in {K : Crypto} :
  let rs := [(calm 1000 "aa", RegisterUser ann_body);
             (calm 2000 "", VerifyEmail "aa");
             (calm 3000 "", LoginUser ann_login)] in
  fst (run rs empty_world)
    = [message 201
         "User registered. Please check your email to verify your account.";
       verify_success (calm 2000 "");
       message 500 "Server error during login."]
  /\ users (snd (run rs empty_world)) = [confirmed 2000 ann_registered]
  /\ (forall e b w, status (fst (Controller.loginUser e b w)) <> 200
                    /\ cookie (fst (Controller.loginUser e b w)) = NoCookie).
Proof.
  assert (Hreg :
    Controller.registerUser (calm 1000 "aa") ann_body empty_world
    = (message 201
         "User registered. Please check your email to verify your account.",
       {| users := [ann_registered];
          outbox := welcome_mails (calm 1000 "aa") ann_registered |})).
  { rewrite registerUser_eq. cbv zeta.
    rewrite (ann_is_valid 1000 "aa" empty_world). reflexivity. }
  assert (Hver :
    Controller.verifyEmail (calm 2000 "") "aa"
      {| users := [ann_registered];
         outbox := welcome_mails (calm 1000 "aa") ann_registered |}
    = (verify_success (calm 2000 ""),
       {| users := [confirmed 2000 ann_registered];
          outbox := welcome_mails (calm 1000 "aa") ann_registered |})).
  { rewrite verifyEmail_eq.
    change (is_empty "aa") with false.
    change (findOne_fails (calm 2000 "")) with false.
    cbv iota.
    assert (Hlive : by_live_token (sha256_hex "aa") (now (calm 2000 ""))
                      ann_registered = true).
    { unfold by_live_token, opt_string_eqb.
      change (verifyToken ann_registered) with (Some (sha256_hex "aa")).
      cbv beta iota. rewrite String.eqb_refl. reflexivity. }
    cbn [users find]. rewrite Hlive. reflexivity. }
  assert (Hlog :
    Controller.loginUser (calm 3000 "") ann_login
      {| users := [confirmed 2000 ann_registered];
         outbox := welcome_mails (calm 1000 "aa") ann_registered |}
    = (message 500 "Server error during login.",
       {| users := [confirmed 2000 ann_registered];
          outbox := welcome_mails (calm 1000 "aa") ann_registered |})).
  { rewrite loginUser_eq.
    change (str_of (login_email ann_login)) with "ann@x.com".
    cbn [users find]. unfold by_email.
    change (email (confirmed 2000 ann_registered))
      with (email (candidate (calm 1000 "aa") ann_body empty_world)).
    rewrite ann_candidate_email, set_email_normalized, !ann_email_fixed.
    reflexivity. }
  cbv zeta. unfold run, handle. rewrite Hreg, Hver, Hlog.
  repeat split; try reflexivity; apply loginUser_never_succeeds.
Qed.

(** The router's login does read the stored password, and answers 400
    "Invalid credentials." to the password Ann registered with: the stored
    hash is the hash of her hash. *)
Example router_login_after_verify :
  map status
    (fst (run (K := term_crypto)
            [(calm 1000 "aa", RouterRegister ann_body);
             (calm 2000 "", RouterVerify "aa");
             (calm 3000 "", RouterLogin ann_login)] empty_world))
  = [201; 302; 400]
  /\ map password
       (users (snd (run (K := term_crypto)
                      [(calm 1000 "aa", RouterRegister ann_body);
                       (calm 2000 "", RouterVerify "aa");
                       (calm 3000 "", RouterLogin ann_login)] empty_world)))
     = ["bcrypt(salt-b,bcrypt(salt-a,secret1))"].
Proof. split; reflexivity. Qed.

(* ================================================================== *)
(** * Two requests at once *)
(* ================================================================== *)

(** [Controller.resend_found] is the rest of the handler. *)
Lemma resendVerification_split {K : Crypto} (e : env) (email_ : jsstring) :
  Controller.resendVerification e email_
  = try_catch
      (if falsy email_ then ret (message 400 "Email is required.")
       else
         found <- findOne e
                    (by_email (Some (trim (toLowerCase (str_of email_)))))
                    [] ;;
         Controller.resend_found e found)
      (fun _ => message 500 "Server error during resend.").
Proof. reflexivity. Qed.

(** A request that leaves the world as it is can be served in the middle of
    a resend without a trace. *)
Lemma resend_interleaved_quiet {K : Crypto} (e : env) (email_ : jsstring)
    (e' : env) (r : request) (w : world) :
  snd (handle e' r w) = w ->
  resend_interleaved e email_ e' r w
  = ((fst (Controller.resendVerification e email_ w), fst (handle e' r w)),
     snd (Controller.resendVerification e email_ w)).
Proof.
  intros H. unfold resend_interleaved. rewrite resendVerification_split.
  unfold try_catch. destruct (falsy email_).
  - destruct (handle e' r w) as [resp' w1]. cbn [fst snd] in *. subst w1.
    reflexivity.
  - unfold bind, findOne.
    destruct (findOne_fails e);
      destruct (handle e' r w) as [resp' w1]; cbn [fst snd] in *; subst w1.
    + reflexivity.
    + now destruct (Controller.resend_found e _ w) as [[x|resp] w2].
Qed.

(** The rest of a resend, in a world that still has the user it found:
    the token is written over whatever the user has become meanwhile. *)
Lemma resend_found_eq {K : Crypto} (e : env) (u : user) (w : world) :
  existsb (by_id (_id u)) (users w) = true ->
  try_catch (Controller.resend_found e (Some (load [] u)))
    (fun _ => message 500 "Server error during resend.") w
  = if emailVerified u
    then (message 200 "Email already verified.", w)
    else if save_fails e
    then (message 500 "Server error during resend.", w)
    else
      (if mail_fails e
       then message 500 "Server error during resend."
       else message 200 "Verification email resent successfully.",
       {| users :=
            map (on_id (_id u)
                   (reissued (now e) (sha256_hex (random_hex e))))
              (users w);
          outbox := outbox w
                    ++ [resend_mail e
                          (reissued (now e)
                             (sha256_hex (random_hex e)) u)] |}).
Proof.
  intros Hex. unfold Controller.resend_found, try_catch.
  cbn [load val].
  destruct (emailVerified u); [reflexivity|].
  unfold bind.
  rewrite save_update;
    [ | reflexivity | reflexivity | reflexivity | exact Hex ].
  destruct (save_fails e); [reflexivity|].
  unfold sendMail, ret. cbn [users outbox val].
  destruct (mail_fails e); reflexivity.
Qed.

Lemma ann_registers {K : Crypto} :
  handle (calm 1000 "aa") (RegisterUser ann_body) empty_world
  = (message 201
       "User registered. Please check your email to verify your account.",
     {| users := [ann_registered];
        outbox := welcome_mails (calm 1000 "aa") ann_registered |}).
Proof.
  cbn [handle]. rewrite registerUser_eq. cbv zeta.
  rewrite (ann_is_valid 1000 "aa" empty_world). reflexivity.
Qed.

Lemma ann_is_found {K : Crypto} (u : user) (us : list user) :
  email u = "ann@x.com" ->
  find (by_email (Some (trim (toLowerCase "ann@x.com")))) (u :: us) = Some u.
Proof.
  intros H. cbn [find]. unfold by_email. rewrite H.
  fold (normalized "ann@x.com").
  now rewrite set_email_normalized, !ann_email_fixed.
Qed.

Lemma ann_token_is_live {K : Crypto} :
  by_live_token (sha256_hex "aa") 2000 ann_registered = true.
Proof.
  unfold by_live_token, opt_string_eqb.
  change (verifyToken ann_registered) with (Some (sha256_hex "aa")).
  cbv beta iota. rewrite String.eqb_refl. reflexivity.
Qed.

(** C8 fails on the code when two requests meet.  For every implementation
    of the collaborators: Ann has registered and is not verified.  She asks
    for a new link, and while that request awaits its query she opens the
    link of her first mail.  The query has read her as unverified; the
    verification is served whole, clears her token and answers 302, the
    success page; the resend then saves a new token over her record and
    answers 200.  In the world so reached Ann is verified with
    [verifyToken] and [verifyTokenExpires] present, good for a day: it is
    not so that every verified user has both absent, and the link of the
    second mail is accepted again. *)
Theorem resend_racing_verification_leaves_a_live_token {K : Crypto} :
  let w :=
    snd (handle (calm 1000 "aa") (RegisterUser ann_body) empty_world) in
  let both :=
    resend_interleaved (calm 3000 "bb") (Some "ann@x.com")
      (calm 2000 "") (VerifyEmail "aa") w in
  let ann :=
    reissued 3000 (sha256_hex "bb") (confirmed 2000 ann_registered) in
  reachable (snd both)
  /\ fst both = (message 200 "Verification email resent successfully.",
                 verify_success (calm 2000 ""))
  /\ users (snd both) = [ann]
  /\ emailVerified ann = true
  /\ verifyToken ann = Some (sha256_hex "bb")
  /\ verifyTokenExpires ann = Some (3000 + day_ms)
  /\ ~ Forall (fun u => tokens_paired u /\ verified_clean u)
         (users (snd both))
  /\ status (fst (Controller.verifyEmail (calm 4000 "") "bb" (snd both)))
     = 302.
Proof.
  cbv zeta. split; [apply reach_meet, reach_step, reach_empty|].
  rewrite ann_registers. cbn [snd].
  assert (Hboth :
    resend_interleaved (calm 3000 "bb") (Some "ann@x.com")
      (calm 2000 "") (VerifyEmail "aa")
      {| users := [ann_registered];
         outbox := welcome_mails (calm 1000 "aa") ann_registered |}
    = ((message 200 "Verification email resent successfully.",
        verify_success (calm 2000 "")),
       {| users := [reissued 3000 (sha256_hex "bb")
                      (confirmed 2000 ann_registered)];
          outbox :=
            welcome_mails (calm 1000 "aa") ann_registered
            ++ [resend_mail (calm 3000 "bb")
                  (reissued 3000 (sha256_hex "bb") ann_registered)] |})).
  { unfold resend_interleaved. cbn [falsy is_empty str_of].
    unfold findOne at 1. cbn [findOne_fails calm users].
    rewrite (ann_is_found ann_registered []
               (ann_candidate_email (calm 1000 "aa") empty_world)).
    cbn [option_map handle].
    rewrite verifyEmail_eq.
    cbn [is_empty findOne_fails calm users find now].
    rewrite ann_token_is_live. cbn [save_fails calm].
    rewrite resend_found_eq by reflexivity.
    reflexivity. }
  rewrite Hboth. cbn [fst snd users].
  repeat split.
  - intros H. inversion H as [|u l [_ Hclean] _]; subst.
    destruct (Hclean eq_refl) as [H1 _]. discriminate.
  - rewrite verifyEmail_eq.
    cbn [is_empty findOne_fails calm users find now].
    unfold by_live_token, opt_string_eqb.
    cbn [verifyToken reissued verifyTokenExpires].
    rewrite String.eqb_refl. reflexivity.
Qed.

(* ================================================================== *)
(** * Digests are held once when random tokens do not collide *)
(* ================================================================== *)

Lemma reachable_fresh_in_turn {K : Crypto} (w : world) :
  reachable_fresh w -> in_turn w.
Proof. induction 1; [apply turn_empty | now apply turn_step]. Qed.

Lemma holders_on_id_le (h : string) (i : nat) (f : user -> user)
    (us : list user) :
  (forall u, holds_digest h (f u) = true -> holds_digest h u = true) ->
  (length (holders h (map (on_id i f) us)) <= length (holders h us))%nat.
Proof.
  intros Hf. induction us as [|x us IH]; simpl; [lia|].
  unfold on_id at 1. destruct (by_id i x).
  - destruct (holds_digest h (f x)) eqn:E.
    + rewrite (Hf x E). simpl. lia.
    + destruct (holds_digest h x); simpl; lia.
  - destruct (holds_digest h x); simpl; lia.
Qed.

Lemma on_id_absent (i : nat) (f : user -> user) (us : list user) :
  ~ In i (map _id us) -> map (on_id i f) us = us.
Proof.
  intros Hni. apply map_id_on. intros a Ha. unfold on_id, by_id.
  destruct (Nat.eqb_spec (_id a) i) as [E|]; [|reflexivity].
  exfalso. apply Hni. rewrite <- E. now apply in_map.
Qed.

Lemma holders_nil_cons (h : string) (x : user) (us : list user) :
  holders h (x :: us) = [] -> holds_digest h x = false /\ holders h us = [].
Proof.
  unfold holders. simpl. destruct (holds_digest h x); [discriminate|].
  now split.
Qed.

Lemma holders_reissued_fresh (d : string) (t : Z) (i : nat)
    (us : list user) :
  NoDup (map _id us) -> holders d us = [] ->
  (length (holders d (map (on_id i (reissued t d)) us)) <= 1)%nat.
Proof.
  induction us as [|x us IH]; simpl; intros Hnd Hnone; [lia|].
  inversion Hnd as [|? ? Hx Hnd']; subst.
  apply holders_nil_cons in Hnone. destruct Hnone as [Hx0 Hrest].
  unfold on_id at 1. destruct (by_id i x) eqn:Hi.
  - unfold by_id in Hi. apply Nat.eqb_eq in Hi. subst i.
    rewrite (on_id_absent _ _ _ Hx). fold (holders d us). rewrite Hrest.
    destruct (holds_digest d (reissued t d x)); simpl; lia.
  - rewrite Hx0. now apply IH.
Qed.

Lemma holds_reissued (h d : string) (t : Z) (u : user) :
  holds_digest h (reissued t d u) = true -> h = d.
Proof.
  unfold holds_digest. simpl. intros H. apply String.eqb_eq in H.
  now symmetry.
Qed.

Lemma digests_unique_reissued (d : string) (t : Z) (i : nat)
    (us : list user) :
  NoDup (map _id us) -> holders d us = [] -> digests_unique us ->
  digests_unique (map (on_id i (reissued t d)) us).
Proof.
  intros Hnd Hnone Hu h. destruct (string_dec h d) as [->|Hne].
  - now apply holders_reissued_fresh.
  - etransitivity; [|apply (Hu h)]. apply holders_on_id_le.
    intros u Hh. apply holds_reissued in Hh. contradiction.
Qed.

Lemma digests_unique_confirmed (t : Z) (i : nat) (us : list user) :
  digests_unique us -> digests_unique (map (on_id i (confirmed t)) us).
Proof.
  intros Hu h. etransitivity; [|apply (Hu h)]. apply holders_on_id_le.
  intros u Hh. discriminate.
Qed.

Lemma digests_unique_app_none (us : list user) (x : user) :
  verifyToken x = None -> digests_unique us -> digests_unique (us ++ [x]).
Proof.
  intros Hx Hu h. unfold holders. rewrite filter_app, length_app. simpl.
  unfold holds_digest at 2. rewrite Hx. simpl.
  specialize (Hu h). unfold holders in Hu. lia.
Qed.

Lemma digests_unique_app_fresh (us : list user) (x : user) (d : string) :
  verifyToken x = Some d -> holders d us = [] ->
  digests_unique us -> digests_unique (us ++ [x]).
Proof.
  intros Hx Hnone Hu h. unfold holders. rewrite filter_app, length_app.
  simpl. unfold holds_digest at 2. rewrite Hx. simpl.
  destruct (String.eqb_spec d h) as [<-|Hne]; simpl.
  - unfold holders in Hnone. rewrite Hnone. simpl. lia.
  - specialize (Hu h). unfold holders in Hu. lia.
Qed.

Lemma handle_digests {K : Crypto} (e : env) (r : request) (w : world) :
  store_ok (users w) -> fresh_draw e w -> digests_unique (users w) ->
  digests_unique (users (snd (handle e r w))).
Proof.
  intros [_ Hnd] Hfresh Hu. unfold fresh_draw in Hfresh.
  destruct r as [b|token|email_|b| |token|b|token|b| |token]; simpl.
  - rewrite registerUser_eq.
    destruct (falsy (req_name b) || falsy (req_email b)
              || falsy (req_password b)); [exact Hu|].
    destruct (findOne_fails e); [exact Hu|].
    destruct (find _ (users w)); [exact Hu|].
    cbv zeta.
    destruct (negb (validate (candidate e b w)) || create_fails e);
      [exact Hu|].
    destruct (save_fails e); simpl.
    + now apply digests_unique_app_none.
    + now apply digests_unique_app_fresh
        with (d := sha256_hex (random_hex e)).
  - rewrite verifyEmail_eq.
    destruct (is_empty token); [exact Hu|].
    destruct (findOne_fails e); [exact Hu|].
    destruct (find _ (users w)) as [u|]; [|exact Hu].
    destruct (save_fails e); [exact Hu|].
    simpl. now apply digests_unique_confirmed.
  - rewrite resendVerification_eq.
    destruct (falsy email_); [exact Hu|].
    destruct (findOne_fails e); [exact Hu|].
    destruct (find _ (users w)) as [u|]; [|exact Hu].
    destruct (emailVerified u); [exact Hu|].
    destruct (save_fails e); [exact Hu|].
    simpl. now apply digests_unique_reissued.
  - now rewrite loginUser_world.
  - exact Hu.
  - now rewrite getMe_world.
  - rewrite register_eq.
    destruct (falsy (req_name b) || falsy (req_email b)
              || falsy (req_password b)); [exact Hu|].
    destruct (findOne_fails e); [exact Hu|].
    destruct (find _ (users w)); [exact Hu|].
    cbv zeta.
    destruct (negb (validate (router_candidate e b w)) || create_fails e);
      [exact Hu|].
    assert (Hnew : digests_unique
                     (users w ++ [inserted e (router_candidate e b w)]))
      by now apply digests_unique_app_fresh
           with (d := sha256_hex (random_hex e)).
    destruct (mail_fails e); [exact Hnew|].
    destruct (falsy (ADMIN_EMAIL e)); exact Hnew.
  - rewrite verify_eq.
    destruct (findOne_fails e); [exact Hu|].
    destruct (find _ (users w)) as [u|]; [|exact Hu].
    destruct (save_fails e); [exact Hu|].
    simpl. now apply digests_unique_confirmed.
  - now rewrite login_world.
  - exact Hu.
  - now rewrite me_world.
Qed.

(** No digest is held twice in a world reached with fresh draws. *)
Lemma reachable_fresh_digests_unique {K : Crypto} (w : world) :
  reachable_fresh w -> digests_unique (users w).
Proof.
  induction 1 as [|w e r Hr IH Hfresh].
  - intros h. simpl. lia.
  - apply handle_digests; [|exact Hfresh | exact IH].
    apply in_turn_store_ok. now apply reachable_fresh_in_turn.
Qed.

(* ================================================================== *)
(** * What a request can do to the collection *)
(* ================================================================== *)

Lemma handle_shape {K : Crypto} (e : env) (r : request) (w : world) :
  step_shape (users w) (users (snd (handle e r w))).
Proof.
  destruct r as [b|token|email_|b| |token|b|token|b| |token]; simpl.
  - rewrite registerUser_eq.
    destruct (falsy (req_name b) || falsy (req_email b)
              || falsy (req_password b)); [constructor|].
    destruct (findOne_fails e); [constructor|].
    destruct (find _ (users w)); [constructor|].
    cbv zeta.
    destruct (negb (validate (candidate e b w)) || create_fails e);
      [constructor|].
    destruct (save_fails e); simpl; apply shape_append.
  - rewrite verifyEmail_eq.
    destruct (is_empty token); [constructor|].
    destruct (findOne_fails e); [constructor|].
    destruct (find _ (users w)) as [u|]; [|constructor].
    destruct (save_fails e); [constructor|]. apply shape_confirm.
  - rewrite resendVerification_eq.
    destruct (falsy email_); [constructor|].
    destruct (findOne_fails e); [constructor|].
    destruct (find _ (users w)) as [u|]; [|constructor].
    destruct (emailVerified u); [constructor|].
    destruct (save_fails e); [constructor|]. apply shape_reissue.
  - rewrite loginUser_world. constructor.
  - constructor.
  - rewrite getMe_world. constructor.
  - rewrite register_eq.
    destruct (falsy (req_name b) || falsy (req_email b)
              || falsy (req_password b)); [constructor|].
    destruct (findOne_fails e); [constructor|].
    destruct (find _ (users w)); [constructor|].
    cbv zeta.
    destruct (negb (validate (router_candidate e b w)) || create_fails e);
      [constructor|].
    destruct (mail_fails e); [apply shape_append|].
    destruct (falsy (ADMIN_EMAIL e)); apply shape_append.
  - rewrite verify_eq.
    destruct (findOne_fails e); [constructor|].
    destruct (find _ (users w)) as [u|]; [|constructor].
    destruct (save_fails e); [constructor|]. apply shape_confirm.
  - rewrite login_world. constructor.
  - constructor.
  - rewrite me_world. constructor.
Qed.

Lemma same_profile_refl (u : user) : same_profile u u.
Proof. repeat split. Qed.

Lemma same_profile_trans (a b c : user) :
  same_profile a b -> same_profile b c -> same_profile a c.
Proof.
  unfold same_profile.
  intros (H1 & H2 & H3 & H4 & H5 & H6 & H7 & H8)
         (G1 & G2 & G3 & G4 & G5 & G6 & G7 & G8).
  repeat split; congruence.
Qed.

Lemma on_id_profile (i : nat) (f : user -> user) (u : user) :
  (forall v, same_profile v (f v)) -> same_profile u (on_id i f u).
Proof.
  intros Hf. unfold on_id. destruct (by_id i u);
    [apply Hf | apply same_profile_refl].
Qed.

Lemma shape_keeps_profiles (us us' : list user) :
  step_shape us us' ->
  forall n u, nth_error us n = Some u ->
    exists u', nth_error us' n = Some u' /\ same_profile u u'.
Proof.
  intros [|i t|i t d|x] n u Hu.
  - exists u. split; [exact Hu | apply same_profile_refl].
  - exists (on_id i (confirmed t) u). rewrite nth_error_map, Hu.
    split; [reflexivity|]. apply on_id_profile. intros v. repeat split.
  - exists (on_id i (reissued t d) u). rewrite nth_error_map, Hu.
    split; [reflexivity|]. apply on_id_profile. intros v. repeat split.
  - exists u. split; [|apply same_profile_refl].
    rewrite nth_error_app1; [exact Hu|].
    apply nth_error_Some. congruence.
Qed.

(** X1.  Whatever requests are served, under whatever environments, a user
    once stored keeps its place in the collection and its [_id], name,
    email, password hash, phone, occupation, source and [createdAt]: no
    handler deletes a user, renames one, or changes a password. *)
Theorem profile_is_never_rewritten
    {K : Crypto} (rs : list (env * request)) (w : world) (n : nat)
    (u : user) :
  nth_error (users w) n = Some u ->
  exists u', nth_error (users (snd (run rs w))) n = Some u'
             /\ same_profile u u'.
Proof.
  revert w u. induction rs as [|[e r] rs IH]; intros w u Hu; simpl.
  - exists u. split; [exact Hu | apply same_profile_refl].
  - destruct (handle e r w) as [resp w1] eqn:Hh.
    pose proof (handle_shape e r w) as Hs. rewrite Hh in Hs. simpl in Hs.
    destruct (shape_keeps_profiles Hs n Hu) as (u1 & Hu1 & Hp1).
    destruct (IH w1 u1 Hu1) as (u2 & Hu2 & Hp2).
    destruct (run rs w1) as [resps w2]. simpl in *.
    exists u2. split; [exact Hu2|].
    now apply same_profile_trans with (b := u1).
Qed.

Lemma profile_is_never_rewritten_witness :
  exists u',
    nth_error
      (users (snd (run (K := term_crypto)
                     [(calm 2000 "", VerifyEmail "aa");
                      (calm 3000 "cc", ResendVerification (Some "ann@x.com"));
                      (calm 4000 "dd", RegisterUser bob_body)]
                     world_pending))) 0
    = Some u'
    /\ same_profile ann_pending u'.
Proof.
  apply (@profile_is_never_rewritten term_crypto
           [(calm 2000 "", VerifyEmail "aa");
            (calm 3000 "cc", ResendVerification (Some "ann@x.com"));
            (calm 4000 "dd", RegisterUser bob_body)]
           world_pending 0%nat ann_pending).
  reflexivity.
Defined.

(* ================================================================== *)
(** * Emails are unique, and stored users are valid *)
(* ================================================================== *)

Lemma find_none_email {K : Crypto} (q : string) (us : list user) :
  find (by_email (Some q)) us = None -> ~ In (set_email q) (map email us).
Proof.
  intros Hf Hin. apply in_map_iff in Hin. destruct Hin as (u & Hu & Hin).
  pose proof (find_none _ _ Hf u Hin) as Hn. unfold by_email in Hn.
  rewrite Hu, String.eqb_refl in Hn. discriminate.
Qed.




(** The rest of a resend in a world that has lost the user it found: the
    update finds no document. *)
Lemma resend_found_missing {K : Crypto} (e : env) (u : user) (w : world) :
  existsb (by_id (_id u)) (users w) = false ->
  snd (try_catch (Controller.resend_found e (Some (load [] u)))
         (fun _ => message 500 "Server error during resend.") w)
  = w.
Proof.
  intros Hex. unfold Controller.resend_found, try_catch.
  cbn [load val].
  destruct (emailVerified u); [reflexivity|].
  unfold bind, save, pre_save, ret, throw, bind.
  cbn [isNew modified val assign_verifyToken assign_verifyTokenExpires
       validate_modified has_path existsb path_eqb negb orb andb load].
  destruct (save_fails e); [reflexivity|].
  cbn [_id with_tokens]. now rewrite Hex.
Qed.

(** A resend with another request in its middle leaves the collection that
    request leaves, but for the token it writes on one user. *)
Lemma resend_interleaved_users {K : Crypto} (e : env) (email_ : jsstring)
    (e' : env) (r : request) (w : world) :
  users (snd (resend_interleaved e email_ e' r w))
  = users (snd (handle e' r w))
  \/ exists i,
       users (snd (resend_interleaved e email_ e' r w))
       = map (on_id i (reissued (now e) (sha256_hex (random_hex e))))
           (users (snd (handle e' r w))).
Proof.
  unfold resend_interleaved.
  destruct (falsy email_);
    [destruct (handle e' r w); now left|].
  unfold findOne.
  destruct (findOne_fails e);
    [destruct (handle e' r w); now left|].
  destruct (handle e' r w) as [resp' w1]. cbn [snd].
  destruct (find _ (users w)) as [u|]; cbn [option_map]; [|now left].
  destruct (existsb (by_id (_id u)) (users w1)) eqn:Hex.
  - rewrite (resend_found_eq e u w1 Hex).
    destruct (emailVerified u); [now left|].
    destruct (save_fails e); [now left|].
    right. now exists (_id u).
  - pose proof (resend_found_missing e u w1 Hex) as Hm.
    destruct (try_catch _ _ w1) as [resp w2]. cbn [snd] in *.
    left. now subst.
Qed.




Lemma validate_inserted {K : Crypto} (e : env) (c : user) :
  validate c = true -> validate (inserted e c) = true.
Proof.
  unfold validate. intros H.
  cbn [inserted stamp with_password name email password phone occupation
       source].
  repeat (apply andb_true_iff in H; destruct H as [H ?]).
  pose proof (long_enough _
                (bcrypt_hash_long (password c) (salt_hook e))) as Hpw.
  apply andb_true_iff in Hpw. destruct Hpw as [Hp1 Hp2].
  repeat match goal with
         | |- (_ && _) = true => apply andb_true_iff; split
         end; assumption.
Qed.

(** A stored user as the schema wants it. *)
Lemma handle_valid {K : Crypto} (e : env) (r : request) (w : world) :
  Forall (fun u => validate u = true /\ normalized (email u) = email u)
    (users w) ->
  Forall (fun u => validate u = true /\ normalized (email u) = email u)
    (users (snd (handle e r w))).
Proof.
  intros Hall.
  assert (Hmap : forall i f,
            (forall u, validate (f u) = validate u) ->
            (forall u, email (f u) = email u) ->
            Forall (fun u => validate u = true
                             /\ normalized (email u) = email u)
              (map (on_id i f) (users w))).
  { intros i f Hf He. rewrite Forall_forall in *. intros v Hv.
    apply in_map_iff in Hv. destruct Hv as (u & <- & Hu).
    unfold on_id. destruct (by_id i u); [rewrite Hf, He|]; now apply Hall. }
  destruct r as [b|token|email_|b| |token|b|token|b| |token]; simpl.
  - rewrite registerUser_eq.
    destruct (falsy (req_name b) || falsy (req_email b)
              || falsy (req_password b)); [exact Hall|].
    destruct (findOne_fails e); [exact Hall|].
    destruct (find _ (users w)); [exact Hall|].
    cbv zeta.
    destruct (validate (candidate e b w)) eqn:Hval; [|exact Hall].
    destruct (create_fails e); [exact Hall|]. cbn [negb orb].
    apply (validate_inserted e) in Hval.
    pose proof (inserted_candidate_ok e b w) as (_ & _ & Hn).
    destruct (save_fails e); simpl;
      (apply Forall_app; split; [exact Hall|];
       constructor; [split; [exact Hval | exact Hn] | constructor]).
  - rewrite verifyEmail_eq.
    destruct (is_empty token); [exact Hall|].
    destruct (findOne_fails e); [exact Hall|].
    destruct (find _ (users w)) as [u|]; [|exact Hall].
    destruct (save_fails e); [exact Hall|].
    simpl. now apply Hmap.
  - rewrite resendVerification_eq.
    destruct (falsy email_); [exact Hall|].
    destruct (findOne_fails e); [exact Hall|].
    destruct (find _ (users w)) as [u|]; [|exact Hall].
    destruct (emailVerified u); [exact Hall|].
    destruct (save_fails e); [exact Hall|].
    simpl. now apply Hmap.
  - now rewrite loginUser_world.
  - exact Hall.
  - now rewrite getMe_world.
  - rewrite register_eq.
    destruct (falsy (req_name b) || falsy (req_email b)
              || falsy (req_password b)); [exact Hall|].
    destruct (findOne_fails e); [exact Hall|].
    destruct (find _ (users w)); [exact Hall|].
    cbv zeta.
    destruct (validate (router_candidate e b w)) eqn:Hval; [|exact Hall].
    destruct (create_fails e); [exact Hall|]. cbn [negb orb].
    apply (validate_inserted e) in Hval.
    pose proof (inserted_router_ok e b w) as (_ & _ & Hn).
    assert (Hnew : Forall (fun u => validate u = true
                                    /\ normalized (email u) = email u)
                     (users w ++ [inserted e (router_candidate e b w)]))
      by (apply Forall_app; split; [exact Hall | now constructor]).
    destruct (mail_fails e); [exact Hnew|].
    destruct (falsy (ADMIN_EMAIL e)); exact Hnew.
  - rewrite verify_eq.
    destruct (findOne_fails e); [exact Hall|].
    destruct (find _ (users w)) as [u|]; [|exact Hall].
    destruct (save_fails e); [exact Hall|].
    simpl. now apply Hmap.
  - now rewrite login_world.
  - exact Hall.
  - now rewrite me_world.
Qed.

Lemma meet_valid {K : Crypto} (e : env) (email_ : jsstring) (e' : env)
    (r : request) (w : world) :
  Forall (fun u => validate u = true /\ normalized (email u) = email u)
    (users w) ->
  Forall (fun u => validate u = true /\ normalized (email u) = email u)
    (users (snd (resend_interleaved e email_ e' r w))).
Proof.
  intros Hall. apply (handle_valid e' r) in Hall.
  destruct (resend_interleaved_users e email_ e' r w) as [->|[i ->]];
    [exact Hall|].
  rewrite Forall_forall in *. intros v Hv.
  apply in_map_iff in Hv. destruct Hv as (u & <- & Hu).
  unfold on_id. destruct (by_id i u); [|now apply Hall].
  exact (Hall u Hu).
Qed.


(** X3.  Every user of a reachable world passes the validators of the
    schema as it is stored: a name of length 2 to 100, an email that
    matches the pattern of the schema, a password hash of length 6 at
    least, a phone of ten digits when there is one, an occupation and a
    source of length 100 at most, lengths being those of JavaScript (UTF-16
    code units).  The email is moreover trimmed and in lower case. *)
Theorem reachable_users_valid {K : Crypto} (w : world) :
  reachable w ->
  Forall (fun u => validate u = true /\ normalized (email u) = email u)
    (users w).
Proof.
  induction 1 as [|w e r _ IH|w e email_ e' r _ IH].
  - constructor.
  - now apply handle_valid.
  - now apply meet_valid.
Qed.

Lemma reachable_users_valid_witness :
  Forall (fun u => validate u = true
                   /\ normalized (K := term_crypto) (email u) = email u)
    (users (snd (handle (K := term_crypto) (calm 1000 "aa")
                   (RegisterUser ann_body) empty_world))).
Proof.
  apply (@reachable_users_valid term_crypto).
  apply reach_step. apply reach_empty.
Defined.

(* ================================================================== *)
(** * What a registration leaves *)
(* ================================================================== *)

Lemma trim_normalized_name (s : string) : set_name (trim s) = trim s.
Proof. apply trim_idem. Qed.

(** X4.  When [registerUser] answers 201, exactly one user was appended: it
    is unverified, its name is the trimmed name and its email the
    normalised email of the request, which no other stored user has; it
    holds the digest of the token drawn for the request, with an expiry 24
    hours after the time of the request; and the first mail handed to the
    transporter goes to that email with a link that ends in the raw token.
    When it answers 400 nothing was written or sent. *)
Theorem registerUser_outcome
    {K : Crypto} (e : env) (b : register_body) (w : world) :
  (status (fst (Controller.registerUser e b w)) = 201 ->
   exists u m rest,
     users (snd (Controller.registerUser e b w)) = (users w ++ [u])%list
     /\ emailVerified u = false
     /\ name u = trim (str_of (req_name b))
     /\ email u = normalized (str_of (req_email b))
     /\ ~ In (email u) (map email (users w))
     /\ verifyToken u = Some (sha256_hex (random_hex e))
     /\ verifyTokenExpires u = Some (now e + 86400000)
     /\ outbox (snd (Controller.registerUser e b w))
        = (outbox w ++ m :: rest)%list
     /\ mail_to m = email u
     /\ exists base,
          mail_html m
          = VerificationEmail (name u) (base ++ "/verify/" ++ random_hex e))
  /\ (status (fst (Controller.registerUser e b w)) = 400 ->
      snd (Controller.registerUser e b w) = w).
Proof.
  rewrite registerUser_eq.
  destruct (falsy (req_name b) || falsy (req_email b)
            || falsy (req_password b)); [split; [discriminate | reflexivity]|].
  destruct (findOne_fails e); [split; discriminate|].
  destruct (find _ (users w)) eqn:Hf;
    [split; [discriminate | reflexivity]|].
  cbv zeta.
  destruct (negb (validate (candidate e b w)) || create_fails e);
    [split; discriminate|].
  destruct (save_fails e); [split; discriminate|].
  split; [|discriminate]. intros _.
  apply find_none_email in Hf.
  exists (registered e (candidate e b w)).
  unfold welcome_mails. eexists. eexists.
  split; [reflexivity|]. split; [reflexivity|].
  split; [apply trim_normalized_name|].
  split; [exact (normalized_idem (str_of (req_email b)))|].
  split; [exact Hf|].
  split; [reflexivity|]. split; [reflexivity|].
  split; [reflexivity|]. split; [reflexivity|].
  eexists. reflexivity.
Qed.

Lemma registerUser_outcome_witness :
  exists u m rest,
    users (snd (Controller.registerUser (K := term_crypto) (calm 4000 "bb")
                  bob_body world_pending))
    = (users world_pending ++ [u])%list
    /\ emailVerified u = false
    /\ name u = "Bob"
    /\ email u = "bob@y.org"
    /\ ~ In (email u) (map email (users world_pending))
    /\ verifyToken u = Some "sha256(bb)"
    /\ verifyTokenExpires u = Some 86404000
    /\ outbox (snd (Controller.registerUser (K := term_crypto)
                      (calm 4000 "bb") bob_body world_pending))
       = (outbox world_pending ++ m :: rest)%list
    /\ mail_to m = email u
    /\ exists base,
         mail_html m = VerificationEmail (name u) (base ++ "/verify/bb").
Proof.
  apply (proj1 (@registerUser_outcome term_crypto (calm 4000 "bb")
                  bob_body world_pending)).
  reflexivity.
Defined.

(* ================================================================== *)
(** * The life of a token *)
(* ================================================================== *)

Lemma find_app_none {A} (f : A -> bool) (l1 l2 : list A) :
  (forall a, In a l1 -> f a = false) -> find f (l1 ++ l2) = find f l2.
Proof.
  induction l1 as [|x l1 IH]; simpl; intros H; [reflexivity|].
  rewrite (H x) by now left. apply IH. intros a Ha. apply H. now right.
Qed.

Lemma nobody_holds (h : string) (us : list user) (u : user) :
  holders h us = [] -> In u us -> holds_digest h u = false.
Proof.
  intros Hnone Hin. destruct (holds_digest h u) eqn:E; [|reflexivity].
  assert (In u (holders h us)) as Habs by (apply filter_In; now split).
  rewrite Hnone in Habs. contradiction.
Qed.

Lemma nobody_live (h : string) (t : Z) (us : list user) (u : user) :
  holders h us = [] -> In u us -> by_live_token h t u = false.
Proof.
  intros Hnone Hin. destruct (by_live_token h t u) eqn:E; [|reflexivity].
  apply live_token_holds in E.
  now rewrite (nobody_holds h us u Hnone Hin) in E.
Qed.

(** X5.  After a registration answered 201 whose token was fresh (nobody
    held its digest) and not empty, presenting that token verifies exactly
    the new user as long as the clock is strictly before the time of the
    registration plus 24 hours; from that instant on the same token is
    answered 400 "Invalid or expired verification link." and changes
    nothing. *)
Theorem registration_token_lives_a_day
    {K : Crypto} (e e2 : env) (b : register_body) (w : world) :
  status (fst (Controller.registerUser e b w)) = 201 ->
  fresh_draw e w ->
  is_empty (random_hex e) = false ->
  findOne_fails e2 = false ->
  save_fails e2 = false ->
  let w1 := snd (Controller.registerUser e b w) in
  (now e2 < now e + 86400000 ->
   fst (Controller.verifyEmail e2 (random_hex e) w1) = verify_success e2
   /\ users (snd (Controller.verifyEmail e2 (random_hex e) w1))
      = (users w
         ++ [confirmed (now e2) (registered e (candidate e b w))])%list)
  /\ (now e + 86400000 <= now e2 ->
      Controller.verifyEmail e2 (random_hex e) w1 = (link_expired, w1)).
Proof.
  intros H201 Hfresh Hne Hstore Hsave. unfold fresh_draw in Hfresh.
  revert H201. rewrite registerUser_eq.
  destruct (falsy (req_name b) || falsy (req_email b)
            || falsy (req_password b)); [discriminate|].
  destruct (findOne_fails e); [discriminate|].
  destruct (find _ (users w)); [discriminate|].
  cbv zeta.
  destruct (negb (validate (candidate e b w)) || create_fails e);
    [discriminate|].
  destruct (save_fails e); [discriminate|].
  intros _. cbn [snd].
  rewrite verifyEmail_eq, Hne, Hstore. cbn [users].
  rewrite find_app_none
    by (intros a Ha; now apply nobody_live with (us := users w)).
  cbn [find]. unfold by_live_token, opt_string_eqb.
  cbn [registered reissued verifyToken verifyTokenExpires].
  rewrite String.eqb_refl. cbn [andb].
  change day_ms with 86400000.
  split.
  - intros Hlt. apply Z.ltb_lt in Hlt. rewrite Hlt, Hsave.
    split; [reflexivity|]. cbn [snd set_users users].
    change (map (on_id (fresh_id (users w)) (confirmed (now e2)))
              (users w ++ [registered e (candidate e b w)])
            = (users w
               ++ [confirmed (now e2) (registered e (candidate e b w))])%list).
    now rewrite update_appended.
  - intros Hge. apply Z.ltb_ge in Hge. now rewrite Hge.
Qed.

Lemma registration_token_lives_a_day_witness :
  let w1 := snd (Controller.registerUser (K := term_crypto)
                   (calm 4000 "bb") bob_body world_pending) in
  (fst (Controller.verifyEmail (K := term_crypto) (calm 86403999 "") "bb" w1)
     = verify_success (calm 86403999 "")
   /\ users (snd (Controller.verifyEmail (K := term_crypto)
                    (calm 86403999 "") "bb" w1))
      = (users world_pending
         ++ [confirmed 86403999
               (registered (K := term_crypto) (calm 4000 "bb")
                  (candidate (K := term_crypto) (calm 4000 "bb") bob_body
                     world_pending))])%list)
  /\ Controller.verifyEmail (K := term_crypto) (calm 86404000 "") "bb" w1
     = (link_expired, w1).
Proof.
  intros w1.
  destruct (@registration_token_lives_a_day term_crypto (calm 4000 "bb")
              (calm 86403999 "") bob_body world_pending)
    as [Hin _]; try reflexivity.
  destruct (@registration_token_lives_a_day term_crypto (calm 4000 "bb")
              (calm 86404000 "") bob_body world_pending)
    as [_ Hout]; try reflexivity.
  split; [exact (Hin eq_refl) | apply Hout; discriminate].
Defined.

(** X6.  A resend that reaches the store replaces the token of the user it
    addresses: a token whose digest only that user held, and which differs
    from the digest of the new one, is refused afterwards at any time, and
    refusing it changes nothing.  This holds whether or not the mail could
    be sent. *)
Theorem resend_invalidates_old_token
    {K : Crypto} (e e2 : env) (email_ : jsstring) (old : string)
    (w : world) (u : user) :
  falsy email_ = false ->
  findOne_fails e = false ->
  save_fails e = false ->
  find (by_email (Some (normalized (str_of email_)))) (users w) = Some u ->
  emailVerified u = false ->
  sha256_hex old <> sha256_hex (random_hex e) ->
  (forall v, In v (users w) ->
             holds_digest (sha256_hex old) v = true -> _id v = _id u) ->
  let w1 := snd (Controller.resendVerification e email_ w) in
  status (fst (Controller.verifyEmail e2 old w1)) <> 302
  /\ snd (Controller.verifyEmail e2 old w1) = w1.
Proof.
  intros Hemail Hstore Hsave Hfind Hver Hdiff Honly w1. subst w1.
  rewrite resendVerification_eq, Hemail, Hstore, Hfind, Hver, Hsave.
  cbv zeta. cbn [snd].
  assert (Hnone :
    find (by_live_token (sha256_hex old) (now e2))
      (map (on_id (_id u) (reissued (now e) (sha256_hex (random_hex e))))
           (users w)) = None).
  { match goal with
    | |- ?x = None => destruct x as [v|] eqn:Hv; [|reflexivity]
    end.
    exfalso.
    apply find_some in Hv. destruct Hv as [Hin Hlive].
    apply live_token_holds in Hlive.
    apply in_map_iff in Hin. destruct Hin as (v0 & <- & Hin0).
    unfold on_id in Hlive. destruct (by_id (_id u) v0) eqn:Hid.
    - apply holds_reissued in Hlive. contradiction.
    - specialize (Honly v0 Hin0 Hlive). unfold by_id in Hid.
      rewrite Honly, Nat.eqb_refl in Hid. discriminate. }
  rewrite verifyEmail_eq. cbn [users]. rewrite Hnone.
  destruct (is_empty old); [split; [discriminate | reflexivity]|].
  destruct (findOne_fails e2); split; try discriminate; reflexivity.
Qed.

Lemma resend_invalidates_old_token_witness :
  let w1 := snd (Controller.resendVerification (K := term_crypto)
                   (mail_down 4000 "bb") (Some "ann@x.com") world_pending) in
  status (fst (Controller.verifyEmail (K := term_crypto) (calm 5000 "")
                 "aa" w1)) <> 302
  /\ snd (Controller.verifyEmail (K := term_crypto) (calm 5000 "") "aa" w1)
     = w1.
Proof.
  apply (@resend_invalidates_old_token term_crypto (mail_down 4000 "bb")
           (calm 5000 "") (Some "ann@x.com") "aa" world_pending
           ann_pending); try reflexivity.
  - discriminate.
  - intros v [<-|[]] _. reflexivity.
Defined.

(** X7.  After a resend that reaches the store, with a token that was fresh
    and not empty, presenting the new token strictly before the time of the
    resend plus 24 hours succeeds and confirms the user the resend
    addressed. *)
Theorem resend_token_verifies
    {K : Crypto} (e e2 : env) (email_ : jsstring) (w : world) (u : user) :
  falsy email_ = false ->
  findOne_fails e = false ->
  save_fails e = false ->
  find (by_email (Some (normalized (str_of email_)))) (users w) = Some u ->
  emailVerified u = false ->
  fresh_draw e w ->
  is_empty (random_hex e) = false ->
  findOne_fails e2 = false ->
  save_fails e2 = false ->
  now e2 < now e + 86400000 ->
  let w1 := snd (Controller.resendVerification e email_ w) in
  fst (Controller.verifyEmail e2 (random_hex e) w1) = verify_success e2
  /\ users (snd (Controller.verifyEmail e2 (random_hex e) w1))
     = map (on_id (_id u) (confirmed (now e2))) (users w1).
Proof.
  intros Hemail Hstore Hsave Hfind Hver Hfresh Hne Hstore2 Hsave2 Hlt w1.
  subst w1. unfold fresh_draw in Hfresh.
  rewrite resendVerification_eq, Hemail, Hstore, Hfind, Hver, Hsave.
  cbv zeta. cbn [snd].
  pose proof (find_some _ _ Hfind) as [Hin _].
  set (us1 := map (on_id (_id u)
                     (reissued (now e) (sha256_hex (random_hex e))))
                  (users w)).
  assert (Hhit : exists v,
            find (by_live_token (sha256_hex (random_hex e)) (now e2)) us1
            = Some v).
  { apply find_hit
      with (a := on_id (_id u)
                   (reissued (now e) (sha256_hex (random_hex e))) u).
    - unfold us1. now apply in_map.
    - unfold on_id, by_id. rewrite Nat.eqb_refl.
      unfold by_live_token, opt_string_eqb. simpl.
      rewrite String.eqb_refl. apply Z.ltb_lt. exact Hlt. }
  destruct Hhit as [v Hv].
  assert (Hid : _id v = _id u).
  { apply find_some in Hv. destruct Hv as [Hvin Hlive].
    unfold us1 in Hvin. apply in_map_iff in Hvin.
    destruct Hvin as (v0 & <- & Hin0).
    unfold on_id in *. destruct (by_id (_id u) v0) eqn:Hb.
    - unfold by_id in Hb. apply Nat.eqb_eq in Hb. exact Hb.
    - now rewrite (nobody_live _ (now e2) _ _ Hfresh Hin0) in Hlive. }
  rewrite verifyEmail_eq, Hne, Hstore2. cbn [users]. fold us1.
  rewrite Hv, Hsave2, Hid. split; reflexivity.
Qed.

Lemma resend_token_verifies_witness :
  let w1 := snd (Controller.resendVerification (K := term_crypto)
                   (calm 4000 "bb") (Some "ann@x.com") world_pending) in
  fst (Controller.verifyEmail (K := term_crypto) (calm 5000 "") "bb" w1)
    = verify_success (calm 5000 "")
  /\ users (snd (Controller.verifyEmail (K := term_crypto) (calm 5000 "")
                   "bb" w1))
     = map (on_id 1%nat (confirmed 5000)) (users w1).
Proof.
  apply (@resend_token_verifies term_crypto (calm 4000 "bb") (calm 5000 "")
           (Some "ann@x.com") world_pending ann_pending); reflexivity.
Defined.

(* ================================================================== *)
(** * Sessions *)
(* ================================================================== *)

(** X8.  Logging in, logging out and reading [/me] never write: whatever
    the request and the answer, the collection and the mails are as before.
    In particular a logout revokes nothing on the server: it only tells the
    client to clear the cookie [token], and a session token that [getMe]
    accepted before the logout gets the same answer after it. *)
Theorem sessions_leave_the_world_alone
    {K : Crypto} (e e' : env) (b : login_body) (token : jsstring)
    (w : world) :
  snd (Controller.loginUser e b w) = w
  /\ snd (Router.login e b w) = w
  /\ snd (Controller.getMe e token w) = w
  /\ snd (Router.me e token w) = w
  /\ Controller.logoutUser e w
     = ({| status := 200;
           content := Json [("message", JStr "Logged out successfully.")];
           cookie := ClearCookie "token" (clear_cookie e) |}, w)
  /\ snd (Router.logout e w) = w
  /\ Controller.getMe e' token (snd (Controller.logoutUser e w))
     = Controller.getMe e' token w
  /\ Router.me e' token (snd (Router.logout e w)) = Router.me e' token w.
Proof.
  repeat split.
  - apply loginUser_world.
  - apply login_world.
  - apply getMe_world.
  - apply me_world.
Qed.

(** X9.  The router's login sets a cookie, and answers 200, only when the
    email resolves to a verified user and bcrypt accepts the password
    against the stored hash; the cookie is then [token], holding the token
    signed for that user's [_id], HTTP-only, [SameSite=Lax], of 24 hours,
    and secure exactly in production.  When the store answers, these
    conditions are also enough. *)
Theorem router_login_sets_cookie_iff
    {K : Crypto} (e : env) (b : login_body) (w : world) :
  (status (fst (Router.login e b w)) = 200
   \/ cookie (fst (Router.login e b w)) <> NoCookie ->
   exists u p,
     find (by_email (login_email b)) (users w) = Some u
     /\ emailVerified u = true
     /\ login_password b = Some p
     /\ bcrypt_check p (password u) = true
     /\ status (fst (Router.login e b w)) = 200
     /\ cookie (fst (Router.login e b w))
        = SetCookie "token" (jwt_sign (_id u) (now e))
            {| httpOnly := true;
               secure := opt_string_eqb (NODE_ENV e) "production";
               sameSite := "lax";
               maxAge := Some 86400000 |})
  /\ (forall u p,
        findOne_fails e = false ->
        find (by_email (login_email b)) (users w) = Some u ->
        emailVerified u = true ->
        login_password b = Some p ->
        bcrypt_check p (password u) = true ->
        fst (Router.login e b w) = logged_in e u).
Proof.
  rewrite login_eq. split.
  - destruct (findOne_fails e);
      [intros [H|H]; [discriminate | now contradiction H]|].
    destruct (find _ (users w)) as [u|];
      [|intros [H|H]; [discriminate | now contradiction H]].
    destruct (emailVerified u) eqn:Hv; cbn [negb];
      [|intros [H|H]; [discriminate | now contradiction H]].
    destruct (login_password b) as [p|];
      [|intros [H|H]; [discriminate | now contradiction H]].
    destruct (bcrypt_check p (password u)) eqn:Hc;
      [|intros [H|H]; [discriminate | now contradiction H]].
    intros _. exists u, p. repeat split; assumption.
  - intros u p Hstore Hfind Hv Hp Hc.
    now rewrite Hstore, Hfind, Hv, Hp, Hc.
Qed.

Lemma router_login_sets_cookie_iff_witness :
  fst (Router.login (K := term_crypto) (calm 3000 "") carl_login
         {| users := [carl]; outbox := [] |})
  = logged_in (K := term_crypto) (calm 3000 "") carl.
Proof.
  apply (proj2 (@router_login_sets_cookie_iff term_crypto (calm 3000 "")
                  carl_login {| users := [carl]; outbox := [] |})
           carl "opensesame"); reflexivity.
Defined.

Lemma find_by_id (us : list user) (u : user) :
  NoDup (map _id us) -> In u us -> find (by_id (_id u)) us = Some u.
Proof.
  intros Hnd Hin.
  destruct (find_hit (by_id (_id u)) us u Hin) as [v Hv].
  - unfold by_id. apply Nat.eqb_refl.
  - rewrite Hv. f_equal. apply find_some in Hv. destruct Hv as [Hvin Hid].
    unfold by_id in Hid. apply Nat.eqb_eq in Hid.
    now apply (same_id_same_user us).
Qed.

(** X10.  Login, then [/me], on the router: when the login of a verified
    user with an accepted password sets its cookie, and the token it signed
    is not empty and is decoded to the same [_id] at the time of the second
    request, [/me] with that cookie answers 200 with the JSON of that very
    user (its [_id], name and email among the keys), in a collection whose
    [_id]s are distinct. *)
Theorem router_login_then_me
    {K : Crypto} (e1 e2 : env) (b : login_body) (w : world) (u : user)
    (p : string) :
  findOne_fails e1 = false ->
  findOne_fails e2 = false ->
  NoDup (map _id (users w)) ->
  find (by_email (login_email b)) (users w) = Some u ->
  emailVerified u = true ->
  login_password b = Some p ->
  bcrypt_check p (password u) = true ->
  is_empty (jwt_sign (_id u) (now e1)) = false ->
  jwt_verify (jwt_sign (_id u) (now e1)) (now e2) = Some (_id u) ->
  exists tok o,
    cookie (fst (Router.login e1 b w)) = SetCookie "token" tok o
    /\ Router.me e2 (Some tok) (snd (Router.login e1 b w))
       = ({| status := 200;
             content :=
               Json [("success", JBool true);
                     ("user", JObj (toJSON (load [Minus P_password] u)))];
             cookie := NoCookie |}, w)
    /\ In ("_id", JId (_id u)) (toJSON (load [Minus P_password] u))
    /\ In ("name", JStr (name u)) (toJSON (load [Minus P_password] u))
    /\ In ("email", JStr (email u)) (toJSON (load [Minus P_password] u)).
Proof.
  intros Hs1 Hs2 Hnd Hfind Hv Hp Hc Hne Hjwt.
  exists (jwt_sign (_id u) (now e1)), (session_cookie e1).
  pose proof (find_some _ _ Hfind) as [Hin _].
  rewrite login_world, login_eq, Hs1, Hfind, Hv, Hp, Hc.
  split; [reflexivity|]. split.
  - rewrite me_eq. unfold falsy. cbn [str_of]. rewrite Hne, Hjwt, Hs2.
    now rewrite (find_by_id (users w) u Hnd Hin).
  - unfold toJSON. simpl. repeat split.
    + now left.
    + right. now left.
    + right. right. now left.
Qed.

Lemma router_login_then_me_witness :
  exists tok o,
    cookie (fst (Router.login (K := term_crypto) (calm 3000 "") carl_login
                   {| users := [carl]; outbox := [] |}))
    = SetCookie "token" tok o
    /\ Router.me (K := term_crypto) (calm 9000 "") (Some tok)
         (snd (Router.login (K := term_crypto) (calm 3000 "") carl_login
                 {| users := [carl]; outbox := [] |}))
       = ({| status := 200;
             content :=
               Json [("success", JBool true);
                     ("user", JObj (toJSON (load [Minus P_password] carl)))];
             cookie := NoCookie |},
          {| users := [carl]; outbox := [] |})
    /\ In ("_id", JId (_id carl)) (toJSON (load [Minus P_password] carl))
    /\ In ("name", JStr (name carl)) (toJSON (load [Minus P_password] carl))
    /\ In ("email", JStr (email carl))
         (toJSON (load [Minus P_password] carl)).
Proof.
  apply (@router_login_then_me term_crypto (calm 3000 "") (calm 9000 "")
           carl_login {| users := [carl]; outbox := [] |} carl
           "opensesame"); try reflexivity.
  simpl. constructor; [intros [] | constructor].
Defined.

(* ================================================================== *)
(** * Registrations that go wrong *)
(* ================================================================== *)

Lemma invalid_candidate {K : Crypto} (e : env) (b : register_body)
    (w : world) :
  match_email (normalized (str_of (req_email b))) = false
  \/ strlen (trim (str_of (req_name b))) < 2 ->
  validate (candidate e b w) = false.
Proof.
  intros H. unfold validate.
  cbn [candidate name email].
  rewrite trim_normalized_name.
  change (set_email (normalized (str_of (req_email b))))
    with (normalized (normalized (str_of (req_email b)))).
  rewrite normalized_idem.
  destruct H as [H|H].
  - rewrite H. now rewrite !andb_false_r.
  - apply Z.leb_gt in H. rewrite H. now rewrite !andb_false_r.
Qed.

(** X11.  A registration that passes the presence test but whose
    normalised email does not match the pattern of the schema, or whose
    trimmed name has a length below 2, is refused by the validators when
    the document is created: [registerUser] answers 500 "Server error
    during registration." (not 400), stores nothing and sends nothing. *)
Theorem malformed_registration_is_a_500
    {K : Crypto} (e : env) (b : register_body) (w : world) :
  falsy (req_name b) = false ->
  falsy (req_email b) = false ->
  falsy (req_password b) = false ->
  findOne_fails e = false ->
  find (by_email (Some (normalized (str_of (req_email b))))) (users w)
    = None ->
  match_email (normalized (str_of (req_email b))) = false
  \/ strlen (trim (str_of (req_name b))) < 2 ->
  Controller.registerUser e b w
    = (message 500 "Server error during registration.", w).
Proof.
  intros Hn He Hp Hstore Hfind Hbad.
  rewrite registerUser_eq, Hn, He, Hp, Hstore, Hfind. cbv zeta.
  now rewrite (invalid_candidate e b w Hbad).
Qed.

Lemma malformed_registration_is_a_500_witness :
  Controller.registerUser (K := term_crypto) (calm 4000 "bb")
    {| req_name := Some "Bob"; req_email := Some "bob-at-y.org";
       req_password := Some "hunter22"; req_phone := None;
       req_occupation := None; req_source := None |} world_pending
  = (message 500 "Server error during registration.", world_pending)
  /\ Controller.registerUser (K := term_crypto) (calm 4000 "bb")
       {| req_name := Some " B "; req_email := Some "bob@y.org";
          req_password := Some "hunter22"; req_phone := None;
          req_occupation := None; req_source := None |} world_pending
     = (message 500 "Server error during registration.", world_pending).
Proof.
  split.
  - apply (@malformed_registration_is_a_500 term_crypto); try reflexivity.
    left. reflexivity.
  - apply (@malformed_registration_is_a_500 term_crypto); try reflexivity.
    right. reflexivity.
Defined.

(** X12.  When [User.create] has inserted the user and the [save] of the
    token then fails, [registerUser] answers 500 and the user stays in the
    collection without a token.  The same registration sent again is
    answered 400 "User already exists."; a [resendVerification] for that
    email gives the user a token and answers 200. *)
Theorem half_registration_is_recoverable
    {K : Crypto} (e e2 e3 : env) (b : register_body) (w : world) :
  falsy (req_name b) = false ->
  falsy (req_email b) = false ->
  falsy (req_password b) = false ->
  findOne_fails e = false ->
  find (by_email (Some (normalized (str_of (req_email b))))) (users w)
    = None ->
  validate (candidate e b w) = true ->
  create_fails e = false ->
  save_fails e = true ->
  let w1 := snd (Controller.registerUser e b w) in
  fst (Controller.registerUser e b w)
    = message 500 "Server error during registration."
  /\ users w1 = (users w ++ [inserted e (candidate e b w)])%list
  /\ verifyToken (inserted e (candidate e b w)) = None
  /\ (findOne_fails e2 = false ->
      Controller.registerUser e2 b w1
      = (message 400 "User already exists.", w1))
  /\ (findOne_fails e3 = false -> save_fails e3 = false ->
      mail_fails e3 = false ->
      fst (Controller.resendVerification e3 (req_email b) w1)
        = message 200 "Verification email resent successfully."
      /\ users (snd (Controller.resendVerification e3 (req_email b) w1))
         = (users w
            ++ [reissued (now e3) (sha256_hex (random_hex e3))
                  (inserted e (candidate e b w))])%list).
Proof.
  intros Hn He Hp Hstore Hfind Hval Hcreate Hsave w1. subst w1.
  rewrite registerUser_eq, Hn, He, Hp, Hstore, Hfind. cbv zeta.
  rewrite Hval, Hcreate, Hsave. cbn [negb orb fst snd set_users users].
  assert (Hnow :
    find (by_email (Some (normalized (str_of (req_email b)))))
      (users w ++ [inserted e (candidate e b w)])
    = Some (inserted e (candidate e b w))).
  { rewrite find_app_none by (apply find_none; exact Hfind).
    cbn [find]. unfold by_email at 1.
    cbn [inserted stamp with_password email candidate].
    now rewrite String.eqb_refl. }
  split; [reflexivity|]. split; [reflexivity|]. split; [reflexivity|].
  split.
  - intros Hs2.
    rewrite registerUser_eq, Hn, He, Hp, Hs2. cbn [users set_users].
    now rewrite Hnow.
  - intros Hs3 Hsave3 Hmail3.
    rewrite resendVerification_eq, He, Hs3. cbn [users set_users].
    rewrite Hnow. cbn [inserted stamp with_password emailVerified candidate].
    rewrite Hsave3. cbv zeta. rewrite Hmail3.
    split; [reflexivity|]. cbn [snd users].
    change (map (on_id (fresh_id (users w))
                   (reissued (now e3) (sha256_hex (random_hex e3))))
              (users w ++ [inserted e (candidate e b w)])
            = (users w
               ++ [reissued (now e3) (sha256_hex (random_hex e3))
                     (inserted e (candidate e b w))])%list).
    now rewrite update_appended.
Qed.

Lemma half_registration_is_recoverable_witness :
  let e := {| now := 4000; random_hex := "bb";
              salt_handler := "salt-a"; salt_hook := "salt-b";
              findOne_fails := false; create_fails := false;
              save_fails := true;
              mail_fails := false; admin_mail_fails := false;
              FRONTEND_URL := None; APP_BASE_URL := None;
              API_BASE_URL := None; ADMIN_EMAIL := None;
              EMAIL_FROM := None; EMAIL_USER := None; NODE_ENV := None |} in
  let w1 := snd (Controller.registerUser (K := term_crypto) e bob_body
                   world_pending) in
  status (fst (Controller.registerUser (K := term_crypto) e bob_body
                 world_pending)) = 500
  /\ map verifyToken (users w1) = [Some "sha256(aa)"; None]
  /\ Controller.registerUser (K := term_crypto) (calm 5000 "cc") bob_body w1
     = (message 400 "User already exists.", w1)
  /\ map verifyToken
       (users (snd (Controller.resendVerification (K := term_crypto)
                      (calm 6000 "dd") (Some "bob@y.org") w1)))
     = [Some "sha256(aa)"; Some "sha256(dd)"].
Proof.
  intros e w1.
  destruct (@half_registration_is_recoverable term_crypto e (calm 5000 "cc")
              (calm 6000 "dd") bob_body world_pending)
    as (H1 & H2 & _ & H4 & H5); try reflexivity.
  fold w1 in H2, H4, H5.
  destruct (H5 eq_refl eq_refl eq_refl) as [_ H6].
  split; [now rewrite H1|]. split; [now rewrite H2|].
  split; [exact (H4 eq_refl)|].
  change (Some "bob@y.org") with (req_email bob_body). now rewrite H6.
Defined.

(* ================================================================== *)
(** * The authentication middleware *)
(* ================================================================== *)

Lemma split_space_word (t rest : string) :
  no_blank t = true ->
  split_space t = [t]
  /\ split_space (t ++ String " "%char rest) = t :: split_space rest.
Proof.
  induction t as [|c t IH]; simpl; intros H; [now split|].
  apply andb_true_iff in H. destruct H as [Hc Ht].
  destruct (Ascii.eqb c " "%char) eqn:E; [discriminate|].
  destruct (IH Ht) as [H1 H2]. now rewrite H1, H2.
Qed.

(** X13.  The token the middleware verifies is the part of the header
    between the first space and the second: for a header ["Bearer t"] with
    no space in [t] it is [t], whatever follows a further space is ignored,
    and a second space right after ["Bearer "] makes it the empty string. *)
Theorem bearer_token_is_the_second_word (t rest : string) :
  no_blank t = true ->
  bearer_token ("Bearer " ++ t) = Some t
  /\ bearer_token ("Bearer " ++ t ++ " " ++ rest) = Some t
  /\ bearer_token ("Bearer  " ++ rest) = Some "".
Proof.
  intros H. destruct (split_space_word t rest H) as [H1 H2].
  unfold bearer_token.
  change (split_space ("Bearer " ++ t)) with ("Bearer" :: split_space t).
  change (split_space ("Bearer " ++ t ++ " " ++ rest))
    with ("Bearer" :: split_space (t ++ String " "%char rest)).
  change (split_space ("Bearer  " ++ rest))
    with ("Bearer" :: "" :: split_space rest).
  now rewrite H1, H2.
Qed.

Lemma bearer_token_is_the_second_word_witness :
  bearer_token "Bearer abc.def.ghi" = Some "abc.def.ghi"
  /\ bearer_token "Bearer abc.def.ghi and more" = Some "abc.def.ghi"
  /\ bearer_token "Bearer  and more" = Some "".
Proof.
  apply (bearer_token_is_the_second_word "abc.def.ghi" "and more").
  reflexivity.
Defined.

(** X14.  The middleware calls [next()] exactly when the header begins
    with ["Bearer "] and [jwt.verify] returns a truthy payload for its
    second word, and it is that payload it attaches.  Every other request
    is answered, with 401, or with 500 when [jwt.verify] threw an error
    whose name is neither [TokenExpiredError] nor [JsonWebTokenError]. *)
Theorem authMiddleware_lets_through_iff
    (P : Type) (verify : jsstring -> jwt_outcome P) (truthy : P -> bool)
    (authHeader : jsstring) :
  (forall p,
     authMiddleware verify truthy authHeader = Next p <->
     exists h, authHeader = Some h
               /\ String.prefix "Bearer " h = true
               /\ verify (bearer_token h) = Decoded p
               /\ truthy p = true)
  /\ (forall r,
        authMiddleware verify truthy authHeader = Respond r ->
        status r = 401
        \/ (status r = 500
            /\ exists h err_name,
                 authHeader = Some h
                 /\ verify (bearer_token h) = Thrown err_name
                 /\ err_name <> "TokenExpiredError"
                 /\ err_name <> "JsonWebTokenError")).
Proof.
  unfold authMiddleware. split.
  - intros p. split.
    + destruct authHeader as [h|]; simpl; [|discriminate].
      destruct (is_empty h) eqn:He; simpl; [discriminate|].
      destruct (String.prefix "Bearer " h) eqn:Hp; simpl; [|discriminate].
      destruct (verify (bearer_token h)) as [q|n] eqn:Hv.
      * destruct (truthy q) eqn:Ht; simpl; [|discriminate].
        intros H. inversion H. subst q. now exists h.
      * destruct (String.eqb n "TokenExpiredError"); [discriminate|].
        destruct (String.eqb n "JsonWebTokenError"); discriminate.
    + intros (h & -> & Hp & Hv & Ht). simpl.
      destruct h as [|c h']; [discriminate|]. simpl is_empty.
      cbn [orb]. rewrite Hp. cbn [negb]. now rewrite Hv, Ht.
  - intros r.
    destruct authHeader as [h|]; simpl;
      [|intros H; inversion H; now left].
    destruct (is_empty h); simpl; [intros H; inversion H; now left|].
    destruct (String.prefix "Bearer " h); simpl;
      [|intros H; inversion H; now left].
    destruct (verify (bearer_token h)) as [q|n] eqn:Hv.
    + destruct (truthy q); simpl; [discriminate|].
      intros H; inversion H; now left.
    + destruct (String.eqb_spec n "TokenExpiredError") as [|Hn1];
        [intros H; inversion H; now left|].
      destruct (String.eqb_spec n "JsonWebTokenError") as [|Hn2];
        [intros H; inversion H; now left|].
      intros H; inversion H. right. split; [reflexivity|].
      now exists h, n.
Qed.

(* ================================================================== *)
(** * Demo requests *)
(* ================================================================== *)

Lemma post_demo_keeps_valid {K : Crypto} (e : env) (b : demo_body)
    (w : demo_world) :
  Forall (fun r => validate_demo r = true
                   /\ normalized (dr_email r) = dr_email r)
    (demoRequests w) ->
  Forall (fun r => validate_demo r = true
                   /\ normalized (dr_email r) = dr_email r)
    (demoRequests (snd (post_demo e b w))).
Proof.
  intros Hall. unfold post_demo.
  destruct (blank (demo_name b) || blank (demo_email b)
            || blank (demo_contact b)); [exact Hall|].
  cbv zeta.
  destruct (validate_demo (new_DemoRequest b w)) eqn:Hval; [|exact Hall].
  destruct (create_fails e); [exact Hall|]. cbn [negb orb].
  assert (Hnew :
    Forall (fun r => validate_demo r = true
                     /\ normalized (dr_email r) = dr_email r)
      (demoRequests w ++ [stamp_demo (now e) (new_DemoRequest b w)])).
  { apply Forall_app. split; [exact Hall|]. constructor; [|constructor].
    split; [exact Hval|].
    exact (normalized_idem (str_of (demo_email b))). }
  destruct (falsy (ADMIN_EMAIL e)); [exact Hnew|].
  destruct (admin_mail_fails e); exact Hnew.
Qed.

(** X15.  Every demo request in a reachable collection passes the
    validators of its schema: a name of length 2 to 100, an email that
    matches the pattern and is trimmed and in lower case, a contact of
    exactly ten digits, and a designation that is [null] or of length 100
    at most. *)
Theorem stored_demo_requests_are_valid {K : Crypto} (w : demo_world) :
  demo_reachable w ->
  Forall (fun r => validate_demo r = true
                   /\ normalized (dr_email r) = dr_email r
                   /\ all_digits (dr_contact r) = true
                   /\ strlen (dr_contact r) = 10)
    (demoRequests w).
Proof.
  intros Hr.
  assert (H : Forall (fun r => validate_demo r = true
                               /\ normalized (dr_email r) = dr_email r)
                (demoRequests w)).
  { induction Hr as [|w e b _ IH];
      [constructor | now apply post_demo_keeps_valid]. }
  eapply Forall_impl; [|exact H]. intros r [Hv Hn].
  split; [exact Hv|]. split; [exact Hn|].
  unfold validate_demo in Hv.
  repeat match type of Hv with
         | (_ && _) = true =>
             apply andb_true_iff in Hv; destruct Hv as [Hv ?]
         end.
  match goal with
  | Hc : match_phone _ = true |- _ =>
      unfold match_phone in Hc; apply andb_true_iff in Hc;
      destruct Hc as [Hd Hl]
  end.
  split; [exact Hd | now apply Z.eqb_eq].
Qed.

Lemma stored_demo_requests_are_valid_witness :
  Forall (fun r => validate_demo r = true
                   /\ normalized (K := term_crypto) (dr_email r) = dr_email r
                   /\ all_digits (dr_contact r) = true
                   /\ strlen (dr_contact r) = 10)
    (demoRequests (snd (post_demo (K := term_crypto) (calm 100 "")
                          demo_ok_body demo_nowhere))).
Proof.
  apply (@stored_demo_requests_are_valid term_crypto).
  apply demo_step. apply demo_empty.
Defined.

(** X16.  A demo request is answered 400 exactly when its name, email or
    contact is missing, [null], empty or made of white space only, and then
    nothing is stored or sent.  When it is answered 201 exactly one record
    was appended, holding the trimmed name, the normalised email, the
    trimmed contact and the designation: trimmed when it is a string,
    ["N/A"] when the body has none, [null] when the body has [null]. *)
Theorem post_demo_outcome
    {K : Crypto} (e : env) (b : demo_body) (w : demo_world) :
  (status (fst (post_demo e b w)) = 400 <->
   blank (demo_name b) = true \/ blank (demo_email b) = true
   \/ blank (demo_contact b) = true)
  /\ (status (fst (post_demo e b w)) = 400 -> snd (post_demo e b w) = w)
  /\ (status (fst (post_demo e b w)) = 201 ->
      exists r,
        demoRequests (snd (post_demo e b w)) = (demoRequests w ++ [r])%list
        /\ dr_name r = trim (str_of (demo_name b))
        /\ dr_email r = normalized (str_of (demo_email b))
        /\ dr_contact r = trim (str_of (demo_contact b))
        /\ dr_designation r
           = match demo_designation b with
             | Missing => Some "N/A"
             | Null => None
             | Given s => Some (trim s)
             end
        /\ validate_demo r = true).
Proof.
  unfold post_demo.
  destruct (blank (demo_name b)) eqn:Hn; cbn [orb].
  { repeat split; try reflexivity; try discriminate. intros _. now left. }
  destruct (blank (demo_email b)) eqn:He; cbn [orb].
  { repeat split; try reflexivity; try discriminate.
    intros _. right. now left. }
  destruct (blank (demo_contact b)) eqn:Hc; cbn [orb].
  { repeat split; try reflexivity; try discriminate.
    intros _. right. now right. }
  cbv zeta.
  assert (Hno : ~ (false = true \/ false = true \/ false = true))
    by (intros [H|[H|H]]; discriminate).
  destruct (validate_demo (new_DemoRequest b w)) eqn:Hval; cbn [negb orb].
  2:{ repeat split; try discriminate. intros H. now apply Hno in H. }
  destruct (create_fails e).
  { repeat split; try discriminate. intros H. now apply Hno in H. }
  assert (Hr : exists r,
            (demoRequests w ++ [stamp_demo (now e) (new_DemoRequest b w)])%list
            = (demoRequests w ++ [r])%list
            /\ dr_name r = trim (str_of (demo_name b))
            /\ dr_email r = normalized (str_of (demo_email b))
            /\ dr_contact r = trim (str_of (demo_contact b))
            /\ dr_designation r
               = match demo_designation b with
                 | Missing => Some "N/A"
                 | Null => None
                 | Given s => Some (trim s)
                 end
            /\ validate_demo r = true).
  { exists (stamp_demo (now e) (new_DemoRequest b w)).
    repeat split; try reflexivity. exact Hval. }
  destruct (falsy (ADMIN_EMAIL e)).
  { repeat split; try discriminate.
    - intros H. now apply Hno in H.
    - intros _. exact Hr. }
  destruct (admin_mail_fails e).
  { repeat split; try discriminate. intros H. now apply Hno in H. }
  repeat split; try discriminate.
  - intros H. now apply Hno in H.
  - intros _. exact Hr.
Qed.

(** Names and fields beyond ASCII: a name of one letter is too short
    whatever its bytes, a name of sixty letters is stored without the
    no-break space after it, a name that is a no-break space is no name,
    and a [null] designation is stored as [null]. *)
Example names_beyond_ascii :
  status (fst (Controller.registerUser (K := term_crypto) (calm 4000 "bb")
                 {| req_name := Some "É"; req_email := Some "e@y.org";
                    req_password := Some "secret1"; req_phone := None;
                    req_occupation := None; req_source := None |}
                 empty_world)) = 500
  /\ map name
       (users (snd (Controller.registerUser (K := term_crypto)
                      (calm 4000 "bb")
                      {| req_name := Some (sixty_e ++ nbsp);
                         req_email := Some "e@y.org";
                         req_password := Some "secret1"; req_phone := None;
                         req_occupation := None; req_source := None |}
                      empty_world))) = [sixty_e]
  /\ status (fst (post_demo (K := term_crypto) (calm 100 "")
                    {| demo_name := Some nbsp;
                       demo_email := Some "dana@corp.io";
                       demo_contact := Some "0123456789";
                       demo_designation := Missing |} demo_nowhere)) = 400
  /\ map dr_designation
       (demoRequests
          (snd (post_demo (K := term_crypto) (calm 100 "")
                  {| demo_name := Some "Dana";
                     demo_email := Some "dana@corp.io";
                     demo_contact := Some "0123456789";
                     demo_designation := Null |} demo_nowhere))) = [None].
Proof. repeat split. Qed.

(** X17.  Nothing refuses a demo request that is already stored, and a
    mail that cannot be sent does not undo the insertion: when a valid
    request was stored and the admin mail was then rejected, the answer is
    500, the record is in the collection, and the same request sent again
    with a working transporter is answered 201 and stored a second time. *)
Theorem demo_retry_stores_twice
    {K : Crypto} (e e2 : env) (b : demo_body) (w : demo_world) :
  blank (demo_name b) = false ->
  blank (demo_email b) = false ->
  blank (demo_contact b) = false ->
  validate_demo (new_DemoRequest b w) = true ->
  create_fails e = false ->
  falsy (ADMIN_EMAIL e) = false ->
  admin_mail_fails e = true ->
  create_fails e2 = false ->
  admin_mail_fails e2 = false ->
  let w1 := snd (post_demo e b w) in
  fst (post_demo e b w) = demo_failed
  /\ demoRequests w1
     = (demoRequests w ++ [stamp_demo (now e) (new_DemoRequest b w)])%list
  /\ length (demo_outbox w1) = S (length (demo_outbox w))
  /\ status (fst (post_demo e2 b w1)) = 201
  /\ demoRequests (snd (post_demo e2 b w1))
     = (demoRequests w
        ++ [stamp_demo (now e) (new_DemoRequest b w);
            stamp_demo (now e2) (new_DemoRequest b w1)])%list
  /\ dr_email (new_DemoRequest b w1) = dr_email (new_DemoRequest b w)
  /\ dr_contact (new_DemoRequest b w1) = dr_contact (new_DemoRequest b w).
Proof.
  intros Hn He Hc Hval Hcreate Hadmin Hmail Hcreate2 Hmail2 w1.
  assert (Hval1 : forall w', validate_demo (new_DemoRequest b w') = true)
    by (intros w'; exact Hval).
  assert (Hfirst : exists box,
            post_demo e b w
            = (demo_failed,
               {| demoRequests :=
                    demoRequests w
                    ++ [stamp_demo (now e) (new_DemoRequest b w)];
                  demo_outbox := box |})
            /\ length box = S (length (demo_outbox w))).
  { unfold post_demo. rewrite Hn, He, Hc. cbn [orb]. cbv zeta.
    rewrite Hval, Hcreate, Hadmin, Hmail. cbn [negb orb].
    eexists. split; [reflexivity|].
    cbn [demo_outbox]. rewrite length_app. simpl. lia. }
  destruct Hfirst as (box & Hfirst & Hbox).
  subst w1. rewrite Hfirst. cbn [fst snd demoRequests demo_outbox].
  split; [reflexivity|]. split; [reflexivity|]. split; [exact Hbox|].
  unfold post_demo. rewrite Hn, He, Hc. cbn [orb]. cbv zeta.
  rewrite Hval1, Hcreate2, Hmail2. cbn [negb orb].
  destruct (falsy (ADMIN_EMAIL e2)); cbn [fst snd demoRequests];
    rewrite <- app_assoc; repeat split; reflexivity.
Qed.

Lemma demo_retry_stores_twice_witness :
  let e := {| now := 100; random_hex := "";
              salt_handler := ""; salt_hook := "";
              findOne_fails := false; create_fails := false;
              save_fails := false;
              mail_fails := false; admin_mail_fails := true;
              FRONTEND_URL := None; APP_BASE_URL := None;
              API_BASE_URL := None; ADMIN_EMAIL := Some "admin@corp.io";
              EMAIL_FROM := None; EMAIL_USER := None; NODE_ENV := None |} in
  status (fst (post_demo (K := term_crypto) e demo_ok_body demo_nowhere))
  = 500
  /\ status (fst (post_demo (K := term_crypto) (calm 200 "") demo_ok_body
                    (snd (post_demo (K := term_crypto) e demo_ok_body
                            demo_nowhere)))) = 201
  /\ map dr_contact
       (demoRequests
          (snd (post_demo (K := term_crypto) (calm 200 "") demo_ok_body
                  (snd (post_demo (K := term_crypto) e demo_ok_body
                          demo_nowhere)))))
     = ["0123456789"; "0123456789"].
Proof.
  intros e.
  destruct (@demo_retry_stores_twice term_crypto e (calm 200 "") demo_ok_body
              demo_nowhere) as (H1 & _ & _ & H4 & H5 & _);
    try reflexivity.
  split; [now rewrite H1|]. split; [exact H4|]. now rewrite H5.
Defined.

(* ================================================================== *)
(** * What [/me] answers *)
(* ================================================================== *)

(** X18.  [getMe] answers 200 exactly when there is a non-empty cookie,
    [jwt.verify] decodes it, the store answers and a user with the decoded
    [_id] is stored.  Without a cookie both handlers answer 401.  A cookie
    that [jwt.verify] rejects is answered 500 by the controller and 401 by
    the router; a decoded [_id] that no stored user has is answered 404 by
    both. *)
Theorem me_answers
    {K : Crypto} (e : env) (token : jsstring) (w : world) :
  (status (fst (Controller.getMe e token w)) = 200 <->
   falsy token = false
   /\ findOne_fails e = false
   /\ exists i u, jwt_verify (str_of token) (now e) = Some i
                  /\ find (by_id i) (users w) = Some u)
  /\ (falsy token = true ->
      status (fst (Controller.getMe e token w)) = 401
      /\ status (fst (Router.me e token w)) = 401)
  /\ (falsy token = false ->
      jwt_verify (str_of token) (now e) = None ->
      status (fst (Controller.getMe e token w)) = 500
      /\ status (fst (Router.me e token w)) = 401)
  /\ (forall i,
        falsy token = false ->
        jwt_verify (str_of token) (now e) = Some i ->
        findOne_fails e = false ->
        find (by_id i) (users w) = None ->
        status (fst (Controller.getMe e token w)) = 404
        /\ status (fst (Router.me e token w)) = 404).
Proof.
  rewrite getMe_eq, me_eq. split; [split|split; [|split]].
  - destruct (falsy token); [discriminate|].
    destruct (jwt_verify (str_of token) (now e)) as [i|]; [|discriminate].
    destruct (findOne_fails e); [discriminate|].
    destruct (find _ (users w)) as [u|] eqn:Hf; [|discriminate].
    intros _. split; [reflexivity|]. split; [reflexivity|]. now exists i, u.
  - intros (Ht & Hs & i & u & Hj & Hf). now rewrite Ht, Hj, Hs, Hf.
  - intros Ht. now rewrite Ht.
  - intros Ht Hj. now rewrite Ht, Hj.
  - intros i Ht Hj Hs Hf. now rewrite Ht, Hj, Hs, Hf.
Qed.

(* ================================================================== *)
(** * Connecting to the database *)
(* ================================================================== *)

Lemma retry_exits (retries : nat) (delay : Z) (n : nat)
    (connects : nat -> bool) :
  In (Exit 1) (connectWithRetry retries delay n connects) <->
  forall j, (j <= retries)%nat -> connects (n + j)%nat = false.
Proof.
  revert n. induction retries as [|r IH]; intros n; simpl.
  - destruct (connects n) eqn:E; simpl; split.
    + intros [H|[H|[]]]; discriminate.
    + intros H. specialize (H 0%nat (Nat.le_refl 0)).
      rewrite Nat.add_0_r in H. congruence.
    + intros _ j Hj. assert (j = 0)%nat as -> by lia.
      now rewrite Nat.add_0_r.
    + intros _. right. now left.
  - destruct (connects n) eqn:E; simpl; split.
    + intros [H|[H|[]]]; discriminate.
    + intros H. specialize (H 0%nat (Nat.le_0_l _)).
      rewrite Nat.add_0_r in H. congruence.
    + intros [H|[H|H]]; [discriminate | discriminate |].
      pose proof (proj1 (IH (S n)) H) as H'.
      intros j Hj. destruct j as [|j]; [now rewrite Nat.add_0_r|].
      rewrite Nat.add_succ_r. apply (H' j). lia.
    + intros H. right. right. apply (proj2 (IH (S n))). intros j Hj.
      specialize (H (S j)). rewrite Nat.add_succ_r in H. apply H. lia.
Qed.

Lemma retry_connects (retries : nat) (delay : Z) (n : nat)
    (connects : nat -> bool) :
  In Connected (connectWithRetry retries delay n connects) <->
  exists j, (j <= retries)%nat /\ connects (n + j)%nat = true.
Proof.
  revert n. induction retries as [|r IH]; intros n; simpl.
  - destruct (connects n) eqn:E; simpl; split.
    + intros _. exists 0%nat. now rewrite Nat.add_0_r.
    + intros _. right. now left.
    + intros [H|[H|[]]]; discriminate.
    + intros (j & Hj & Hc). assert (j = 0)%nat as -> by lia.
      rewrite Nat.add_0_r in Hc. congruence.
  - destruct (connects n) eqn:E; simpl; split.
    + intros _. exists 0%nat. rewrite Nat.add_0_r. split; [lia | exact E].
    + intros _. right. now left.
    + intros [H|[H|H]]; [discriminate | discriminate |].
      apply (proj1 (IH (S n))) in H.
      destruct H as (j & Hj & Hc). exists (S j).
      rewrite Nat.add_succ_r. split; [lia | exact Hc].
    + intros (j & Hj & Hc). right. right. apply (proj2 (IH (S n))).
      destruct j as [|j]; [rewrite Nat.add_0_r in Hc; congruence|].
      exists j. rewrite Nat.add_succ_r in Hc. split; [lia | exact Hc].
Qed.

Lemma retry_attempts (retries : nat) (delay : Z) (n m : nat)
    (connects : nat -> bool) :
  In (Attempt m) (connectWithRetry retries delay n connects) ->
  (n <= m <= n + retries)%nat
  /\ forall j, (n <= j < m)%nat -> connects j = false.
Proof.
  revert n. induction retries as [|r IH]; intros n; simpl.
  - destruct (connects n); simpl;
      (intros [H|[H|[]]]; [|discriminate]); inversion H; subst;
      (split; [lia | intros j Hj; lia]).
  - destruct (connects n) eqn:E; simpl.
    + intros [H|[H|[]]]; [|discriminate]. inversion H; subst.
      split; [lia | intros j Hj; lia].
    + intros [H|[H|H]]; [|discriminate|].
      * inversion H; subst. split; [lia | intros j Hj; lia].
      * apply IH in H. destruct H as [Hm Hf]. split; [lia|].
        intros j Hj. destruct (Nat.eq_dec j n) as [->|Hne]; [exact E|].
        apply Hf. lia.
Qed.

Lemma retry_waits (retries : nat) (delay d : Z) (n : nat)
    (connects : nat -> bool) :
  In (Wait d) (connectWithRetry retries delay n connects) -> d = delay.
Proof.
  revert n. induction retries as [|r IH]; intros n; simpl.
  - destruct (connects n); simpl; intros [H|[H|[]]]; discriminate.
  - destruct (connects n); simpl.
    + intros [H|[H|[]]]; discriminate.
    + intros [H|[H|H]]; [discriminate | now inversion H | now apply IH in H].
Qed.

(** X19.  [connectDB] tries to connect at most six times and stops at the
    first attempt that succeeds.  The process exits with code 1 exactly
    when [MONGO_URI] is missing or empty, in which case nothing is tried,
    or when all of the six attempts fail; it connects exactly when the URI
    is there and one of the six attempts succeeds; an attempt is made only
    after every attempt before it has failed; and every wait between two
    attempts is of 5000 milliseconds. *)
Theorem connectDB_tries_six_times
    (MONGO_URI : jsstring) (connects : nat -> bool) :
  (In (Exit 1) (connectDB MONGO_URI connects) <->
   falsy MONGO_URI = true
   \/ forall j, (j <= 5)%nat -> connects j = false)
  /\ (In Connected (connectDB MONGO_URI connects) <->
      falsy MONGO_URI = false
      /\ exists j, (j <= 5)%nat /\ connects j = true)
  /\ (forall m, In (Attempt m) (connectDB MONGO_URI connects) ->
        falsy MONGO_URI = false /\ (m <= 5)%nat
        /\ forall j, (j < m)%nat -> connects j = false)
  /\ (In Connected (connectDB MONGO_URI connects) ->
      ~ In (Exit 1) (connectDB MONGO_URI connects))
  /\ (forall d, In (Wait d) (connectDB MONGO_URI connects) -> d = 5000).
Proof.
  unfold connectDB.
  assert (Hexit := retry_exits 5 5000 0 connects).
  assert (Hconn := retry_connects 5 5000 0 connects).
  simpl Nat.add in Hexit, Hconn.
  destruct (falsy MONGO_URI).
  - split; [|split; [|split; [|split]]].
    + split; [intros _; now left | intros _; now left].
    + split; [intros [Hd|[]]; discriminate | intros [Hd _]; discriminate].
    + intros m [Hd|[]]. discriminate.
    + intros [Hd|[]]. discriminate.
    + intros d [Hd|[]]. discriminate.
  - split; [|split; [|split; [|split]]].
    + split; [intros Hin; right; now apply Hexit|].
      intros [Hd|Hall]; [discriminate | now apply Hexit].
    + split; [intros Hin; split; [reflexivity | now apply Hconn]|].
      intros [_ Hex]. now apply Hconn.
    + intros m Hin. apply retry_attempts in Hin. destruct Hin as [Hm Hf].
      split; [reflexivity|]. split; [lia|].
      intros j Hj. apply Hf. lia.
    + intros Hc He. apply Hconn in Hc. destruct Hc as (j & Hj & Hc).
      rewrite (proj1 Hexit He j Hj) in Hc. discriminate.
    + intros d Hin. now apply retry_waits in Hin.
Qed.
